(** * COOCDFlash: the nucX1 and stm32x NOR-flash drivers

    A shallow embedding of the Nuvoton NUC1xx driver (nucX1.c, and its
    tutorial version, which differs in the write routine) and of the
    commented stm32x driver the repository ships with it (the second half
    of the same source file), followed by the properties of the probe,
    protection, erase and write paths.

    The drivers talk to the chip through OpenOCD's target layer.  That
    layer is not part of the repository, so it is modelled as an
    environment: every call the driver makes is recorded in a trace and
    answered by the target as a function of the trace so far. *)

From Stdlib Require Import ZArith List Bool Lia.
From Stdlib Require String.
Import ListNotations.
Import String.StringSyntax.

Open Scope Z_scope.
Open Scope string_scope.

(** ** Machine integers *)

(** [uint32_t] and [uint16_t] arithmetic wraps around. *)
Definition u32 (x : Z) : Z := x mod 2 ^ 32.
Definition u16 (x : Z) : Z := x mod 2 ^ 16.

(** ** Error codes

    The [ERROR_*] macros come from OpenOCD headers that are not in the
    repository; the drivers only ever compare them for equality, so they
    are an enumeration here.  [ERROR_CODE n] is any other code the target
    layer may hand back (a transport error). *)
Inductive error_code : Type :=
| ERROR_OK
| ERROR_FAIL
| ERROR_TARGET_NOT_HALTED
| ERROR_TARGET_RESOURCE_NOT_AVAILABLE
| ERROR_FLASH_BANK_INVALID
| ERROR_FLASH_OPERATION_FAILED
| ERROR_FLASH_DST_BREAKS_ALIGNMENT
| ERROR_CODE (n : Z).

Definition is_ok (e : error_code) : bool :=
  match e with ERROR_OK => true | _ => false end.

Definition is_resource_not_available (e : error_code) : bool :=
  match e with ERROR_TARGET_RESOURCE_NOT_AVAILABLE => true | _ => false end.

(** ** The target access port *)

Inductive target_state : Type :=
| TARGET_UNKNOWN | TARGET_RUNNING | TARGET_HALTED | TARGET_RESET
| TARGET_DEBUG_RUNNING.

Definition is_halted (s : target_state) : bool :=
  match s with TARGET_HALTED => true | _ => false end.

(** [struct working_area]: a borrowed region of target RAM. *)
Record working_area : Type := mk_working_area {
  wa_address : Z;
  wa_size : Z
}.

(** The calls a driver can make on the target. *)
Inductive call : Type :=
| ReadU32 (address : Z)
| ReadU16 (address : Z)
| WriteU32 (address value : Z)
| WriteU16 (address value : Z)
| AllocWorkingArea (size : Z)
| AllocWorkingAreaTry (size : Z)
| FreeWorkingArea (area : working_area)
| WriteBuffer (address size : Z) (data : list Z)
| RunAlgorithm (r0 r1 r2 r3 entry_point exit_point timeout_ms : Z)
| AliveSleep (ms : Z)
| BusySleep (ms : Z).

(** What the target answers: a return code, and the value the call
    produces (the word read, the address of the area allocated, the
    content of the in/out register after a run). *)
Record response : Type := mk_response {
  rc : error_code;
  out : Z
}.

Definition event : Type := (call * response)%type.

(** The target: its execution state and its answer to a call, given
    everything that happened before. *)
Record target : Type := mk_target {
  state : target_state;
  respond : list event -> call -> response
}.

(** ** The driver monad: the bank is threaded, the trace grows *)

Record outcome (S A : Type) : Type := mk_outcome {
  result : A;
  bank_after : S;
  trace : list event
}.
Arguments mk_outcome {S A}.
Arguments result {S A}.
Arguments bank_after {S A}.
Arguments trace {S A}.

Definition M (S A : Type) : Type := target -> S -> list event -> outcome S A.

Definition ret {S A} (a : A) : M S A :=
  fun _ b tr => mk_outcome a b tr.

Definition bind {S A B} (m : M S A) (f : A -> M S B) : M S B :=
  fun t b tr =>
    let o := m t b tr in f (result o) t (bank_after o) (trace o).

Declare Scope drv_scope.
Delimit Scope drv_scope with drv.
Notation "x <- m ;; k" := (bind m (fun x => k))
  (at level 100, m at next level, right associativity) : drv_scope.
Notation "' p <- m ;; k" := (bind m (fun x => let p := x in k))
  (at level 100, p pattern, m at next level, right associativity) : drv_scope.
Notation "m ;; k" := (bind m (fun _ => k))
  (at level 100, right associativity) : drv_scope.
Open Scope drv_scope.

Definition get_bank {S} : M S S := fun _ b tr => mk_outcome b b tr.
Definition put_bank {S} (b : S) : M S unit := fun _ _ tr => mk_outcome tt b tr.
Definition modify_bank {S} (f : S -> S) : M S unit :=
  fun _ b tr => mk_outcome tt (f b) tr.
Definition get_target_state {S} : M S target_state :=
  fun t b tr => mk_outcome (state t) b tr.

(** [retval = m; if (retval != ERROR_OK) return retval; k] *)
Definition guard_ok {S} (m : M S error_code) (k : M S error_code) : M S error_code :=
  retval <- m ;; if is_ok retval then k else ret retval.
Notation "'TRY' m ;; k" := (guard_ok m k)
  (at level 100, m at next level, right associativity) : drv_scope.

(** A loop that is cut off by its fuel has no result: [None].  The same
    guard, for code after such a loop. *)
Definition guard_ok_opt {S} (m : M S error_code) (k : M S (option error_code))
  : M S (option error_code) :=
  retval <- m ;; if is_ok retval then k else ret (Some retval).
Notation "'TRY?' m ;; k" := (guard_ok_opt m k)
  (at level 100, m at next level, right associativity) : drv_scope.

(** The trace once the call [c] has been made and answered. *)
Definition after (t : target) (tr : list event) (c : call) : list event :=
  tr ++ [(c, respond t tr c)].

(** One call on the target, logged. *)
Definition tap {S} (c : call) : M S response :=
  fun t b tr => mk_outcome (respond t tr c) b (after t tr c).

Definition target_read_u32 {S} (address : Z) : M S (error_code * Z) :=
  r <- tap (ReadU32 (u32 address)) ;; ret (rc r, u32 (out r)).
Definition target_read_u16 {S} (address : Z) : M S (error_code * Z) :=
  r <- tap (ReadU16 (u32 address)) ;; ret (rc r, u16 (out r)).
Definition target_write_u32 {S} (address value : Z) : M S error_code :=
  r <- tap (WriteU32 (u32 address) (u32 value)) ;; ret (rc r).
Definition target_write_u16 {S} (address value : Z) : M S error_code :=
  r <- tap (WriteU16 (u32 address) (u16 value)) ;; ret (rc r).
Definition target_alloc_working_area {S} (size : Z)
  : M S (error_code * working_area) :=
  r <- tap (AllocWorkingArea size) ;; ret (rc r, mk_working_area (u32 (out r)) size).
Definition target_alloc_working_area_try {S} (size : Z)
  : M S (error_code * working_area) :=
  r <- tap (AllocWorkingAreaTry size) ;; ret (rc r, mk_working_area (u32 (out r)) size).
Definition target_free_working_area {S} (area : working_area) : M S unit :=
  _ <- tap (FreeWorkingArea area) ;; ret tt.
Definition target_write_buffer {S} (address size : Z) (buffer : list Z)
  : M S error_code :=
  r <- tap (WriteBuffer (u32 address) size (firstn (Z.to_nat size) buffer)) ;;
  ret (rc r).
Definition target_run_algorithm {S} (r0 r1 r2 r3 entry_point exit_point timeout_ms : Z)
  : M S (error_code * Z) :=
  r <- tap (RunAlgorithm r0 r1 r2 r3 (u32 entry_point) exit_point timeout_ms) ;;
  ret (rc r, u32 (out r)).
Definition alive_sleep {S} (ms : Z) : M S unit :=
  _ <- tap (AliveSleep ms) ;; ret tt.
Definition busy_sleep {S} (ms : Z) : M S unit :=
  _ <- tap (BusySleep ms) ;; ret tt.

(** ** The flash bank *)

(** [struct flash_sector]: [is_erased] is [-1] while unknown, [is_protected]
    is [1] for a protected sector. *)
Record flash_sector : Type := mk_flash_sector {
  sector_offset : Z;
  sector_size : Z;
  is_erased : Z;
  is_protected : Z
}.

(** [struct flash_bank], over the driver's private data.  The target the
    bank points to is the environment of the monad. *)
Record flash_bank (P : Type) : Type := mk_flash_bank {
  bank_base : Z;
  bank_size : Z;
  num_sectors : Z;
  sectors : list flash_sector;
  driver_priv : P
}.
Arguments mk_flash_bank {P}.
Arguments bank_base {P}.
Arguments bank_size {P}.
Arguments num_sectors {P}.
Arguments sectors {P}.
Arguments driver_priv {P}.

Definition set_sectors {P} (l : list flash_sector) (b : flash_bank P) : flash_bank P :=
  mk_flash_bank (bank_base b) (bank_size b) (num_sectors b) l (driver_priv b).
Definition set_driver_priv {P} (p : P) (b : flash_bank P) : flash_bank P :=
  mk_flash_bank (bank_base b) (bank_size b) (num_sectors b) (sectors b) p.

(** [sectors[i]] and [sectors[i].field = v].  An index outside the array
    is undefined behaviour in C; here the read gives a blank sector and the
    write does nothing. *)
Definition blank_sector : flash_sector := mk_flash_sector 0 0 0 0.

Definition sector_at (l : list flash_sector) (i : Z) : flash_sector :=
  if i <? 0 then blank_sector else nth (Z.to_nat i) l blank_sector.

Fixpoint update_nth {A} (n : nat) (f : A -> A) (l : list A) : list A :=
  match l, n with
  | [], _ => []
  | x :: l', O => f x :: l'
  | x :: l', S n' => x :: update_nth n' f l'
  end.

Definition update_sector (i : Z) (f : flash_sector -> flash_sector)
  (l : list flash_sector) : list flash_sector :=
  if i <? 0 then l else update_nth (Z.to_nat i) f l.

Definition with_is_erased (v : Z) (s : flash_sector) : flash_sector :=
  mk_flash_sector (sector_offset s) (sector_size s) v (is_protected s).
Definition with_is_protected (v : Z) (s : flash_sector) : flash_sector :=
  mk_flash_sector (sector_offset s) (sector_size s) (is_erased s) v.

Definition set_is_erased {P} (i v : Z) : M (flash_bank P) unit :=
  modify_bank (fun b => set_sectors (update_sector i (with_is_erased v) (sectors b)) b).

(** [for (i = lo; i < hi; i++) body], for a body that cannot leave the loop. *)
Fixpoint for_count {A} (n : nat) (i : Z) (body : Z -> A -> A) (a : A) : A :=
  match n with
  | O => a
  | S n' => for_count n' (i + 1) body (body i a)
  end.
Definition for_range {A} (lo hi : Z) (body : Z -> A -> A) (a : A) : A :=
  for_count (Z.to_nat (hi - lo)) lo body a.

(** ** The sector array a probe builds

    [malloc(sizeof(struct flash_sector) * num_pages)]: an array of
    [num_pages] sectors, not yet written. *)
Definition malloc_sectors (num_pages : Z) : list flash_sector :=
  repeat blank_sector (Z.to_nat num_pages).

(** The common tail of the probes: base, size, number of sectors, and the
    loop that fills the new array. *)
Definition build_sectors {P} (base_address num_pages page_size : Z)
  (b : flash_bank P) : flash_bank P :=
  mk_flash_bank base_address (u32 (num_pages * page_size)) num_pages
    (for_range 0 num_pages
       (fun i l =>
          update_sector i
            (fun _ => mk_flash_sector (u32 (i * page_size)) (u32 page_size) (-1) 1) l)
       (malloc_sectors num_pages))
    (driver_priv b).

(** ** Working areas still allocated after a trace

    An area is outstanding from the successful allocation that returned it
    until it is handed to [target_free_working_area]. *)
Definition working_area_eqb (a b : working_area) : bool :=
  (wa_address a =? wa_address b) && (wa_size a =? wa_size b).

Fixpoint remove_area (a : working_area) (l : list working_area) : list working_area :=
  match l with
  | [] => []
  | x :: l' => if working_area_eqb a x then l' else x :: remove_area a l'
  end.

Definition track (held : list working_area) (e : event) : list working_area :=
  match e with
  | (AllocWorkingArea size, r) | (AllocWorkingAreaTry size, r) =>
      if is_ok (rc r) then mk_working_area (u32 (out r)) size :: held else held
  | (FreeWorkingArea a, _) => remove_area a held
  | _ => held
  end.

Definition outstanding (tr : list event) : list working_area :=
  fold_left track tr [].

(** ** Commands and text

    What the drivers use of OpenOCD's command layer and of the C library. *)

(** [CMD_ARGC] of a command whose arguments are [argv]. *)
Definition CMD_ARGC (argv : list String.string) : Z := Z.of_nat (length argv).

(** [CMD_ARGV[i]]; the handlers test [CMD_ARGC] before they look at an
    argument. *)
Definition CMD_ARGV (argv : list String.string) (i : nat) : String.string :=
  nth i argv "".

(** [snprintf(buf + at, size, format)] for a format without conversions:
    the C string at [buf] afterwards, and the value returned.  Nothing is
    written for a size of 0; a negative size, which C turns into a huge
    [size_t], writes nothing here either.  A write that starts behind the
    end of the string at [buf] does not show in it. *)
Definition snprintf (buf : String.string) (at_ size : Z) (format : String.string)
  : String.string * Z :=
  (if (size <=? 0) || (Z.of_nat (String.length buf) <? at_) then buf
   else String.append (String.substring 0 (Z.to_nat at_) buf)
          (String.substring 0 (Z.to_nat (size - 1)) format),
   Z.of_nat (String.length format)).

(** * The stm32x driver *)
Module Stm32x.

(** stm32x register locations *)
Definition STM32_FLASH_ACR : Z := 0x40022000.
Definition STM32_FLASH_KEYR : Z := 0x40022004.
Definition STM32_FLASH_OPTKEYR : Z := 0x40022008.
Definition STM32_FLASH_SR : Z := 0x4002200C.
Definition STM32_FLASH_CR : Z := 0x40022010.
Definition STM32_FLASH_AR : Z := 0x40022014.
Definition STM32_FLASH_OBR : Z := 0x4002201C.
Definition STM32_FLASH_WRPR : Z := 0x40022020.

(** FLASH_CR register bits *)
Definition FLASH_PG : Z := Z.shiftl 1 0.
Definition FLASH_PER : Z := Z.shiftl 1 1.
Definition FLASH_MER : Z := Z.shiftl 1 2.
Definition FLASH_OPTPG : Z := Z.shiftl 1 4.
Definition FLASH_OPTER : Z := Z.shiftl 1 5.
Definition FLASH_STRT : Z := Z.shiftl 1 6.
Definition FLASH_LOCK : Z := Z.shiftl 1 7.
Definition FLASH_OPTWRE : Z := Z.shiftl 1 9.

(** FLASH_SR register bits *)
Definition FLASH_BSY : Z := Z.shiftl 1 0.
Definition FLASH_PGERR : Z := Z.shiftl 1 2.
Definition FLASH_WRPRTERR : Z := Z.shiftl 1 4.
Definition FLASH_EOP : Z := Z.shiftl 1 5.

(** register unlock keys *)
Definition KEY1 : Z := 0x45670123.
Definition KEY2 : Z := 0xCDEF89AB.

Definition FLASH_OFFSET_B0 : Z := 0x00.
Definition FLASH_OFFSET_B1 : Z := 0x40.

(** option byte location *)
Definition STM32_OB_RDP : Z := 0x1FFFF800.
Definition STM32_OB_USER : Z := 0x1FFFF802.
Definition STM32_OB_DATA0 : Z := 0x1FFFF804.
Definition STM32_OB_DATA1 : Z := 0x1FFFF806.
Definition STM32_OB_WRP0 : Z := 0x1FFFF808.
Definition STM32_OB_WRP1 : Z := 0x1FFFF80A.
Definition STM32_OB_WRP2 : Z := 0x1FFFF80C.
Definition STM32_OB_WRP3 : Z := 0x1FFFF80E.

(** STM32_FLASH_OBR bit definitions (reading) *)
Definition OPT_ERROR : Z := 0.
Definition OPT_READOUT : Z := 1.
Definition OPT_RDWDGSW : Z := 2.
Definition OPT_RDRSTSTOP : Z := 3.
Definition OPT_RDRSTSTDBY : Z := 4.
Definition OPT_BFB2 : Z := 5.

Record stm32x_options : Type := mk_stm32x_options {
  RDP : Z;
  user_options : Z;
  protection : list Z
}.

Record stm32x_flash_bank : Type := mk_stm32x_flash_bank {
  option_bytes : stm32x_options;
  write_algorithm : option working_area;
  ppage_size : Z;
  probed : Z;
  has_dual_banks : bool;
  register_offset : Z
}.

Definition bank : Type := flash_bank stm32x_flash_bank.

Definition with_write_algorithm (a : option working_area) (p : stm32x_flash_bank) :=
  mk_stm32x_flash_bank (option_bytes p) a (ppage_size p) (probed p)
    (has_dual_banks p) (register_offset p).
Definition with_ppage_size (v : Z) (p : stm32x_flash_bank) :=
  mk_stm32x_flash_bank (option_bytes p) (write_algorithm p) v (probed p)
    (has_dual_banks p) (register_offset p).
Definition with_probed (v : Z) (p : stm32x_flash_bank) :=
  mk_stm32x_flash_bank (option_bytes p) (write_algorithm p) (ppage_size p) v
    (has_dual_banks p) (register_offset p).
Definition with_has_dual_banks (v : bool) (p : stm32x_flash_bank) :=
  mk_stm32x_flash_bank (option_bytes p) (write_algorithm p) (ppage_size p) (probed p)
    v (register_offset p).
Definition with_register_offset (v : Z) (p : stm32x_flash_bank) :=
  mk_stm32x_flash_bank (option_bytes p) (write_algorithm p) (ppage_size p) (probed p)
    (has_dual_banks p) v.

Definition modify_priv (f : stm32x_flash_bank -> stm32x_flash_bank) : M bank unit :=
  modify_bank (fun b => set_driver_priv (f (driver_priv b)) b).

(** [reg + stm32x_info->register_offset]; the sum is cut to 32 bits where
    it is used as an address. *)
Definition stm32x_get_flash_reg (b : bank) (reg : Z) : Z :=
  reg + register_offset (driver_priv b).

(** [stm32x_get_flash_status], nucX1.c l. 819-823. *)
Definition stm32x_get_flash_status : M bank (error_code * Z) :=
  b <- get_bank ;;
  target_read_u32 (stm32x_get_flash_reg b STM32_FLASH_SR).

(** The polling loop of [stm32x_wait_status_busy].  [inl retval] is a
    [return retval] from inside the loop, [inr status] is the [break].
    The C loop counts [timeout] down and gives up on [timeout-- <= 0];
    [n] is [timeout] as a natural number (zero for a negative one). *)
Fixpoint wait_busy_loop (n : nat) : M bank (error_code + Z) :=
  '(retval, status) <- stm32x_get_flash_status ;;
  if negb (is_ok retval) then ret (inl retval)
  else if Z.land status FLASH_BSY =? 0 then ret (inr status)
  else match n with
       | O => ret (inl ERROR_FAIL)
       | S n' => alive_sleep 1 ;; wait_busy_loop n'
       end.

(** [stm32x_wait_status_busy], nucX1.c l. 825-870: the loop, then the
    error bits of the status it broke on. *)
Definition stm32x_wait_status_busy (timeout : Z) : M bank error_code :=
  r <- wait_busy_loop (Z.to_nat timeout) ;;
  match r with
  | inl retval => ret retval
  | inr status =>
      let retval := ERROR_OK in
      let retval :=
        if negb (Z.land status FLASH_WRPRTERR =? 0) then ERROR_FAIL else retval in
      let retval :=
        if negb (Z.land status FLASH_PGERR =? 0) then ERROR_FAIL else retval in
      (* Clear but report errors *)
      (if negb (Z.land status (Z.lor FLASH_WRPRTERR FLASH_PGERR) =? 0)
       then b <- get_bank ;;
            _ <- target_write_u32 (stm32x_get_flash_reg b STM32_FLASH_SR)
                   (Z.lor FLASH_WRPRTERR FLASH_PGERR) ;;
            ret tt
       else ret tt) ;;
      ret retval
  end.

(** [stm32x_check_operation_supported], nucX1.c l. 873-886. *)
Definition stm32x_check_operation_supported : M bank error_code :=
  b <- get_bank ;;
  if negb (register_offset (driver_priv b) =? FLASH_OFFSET_B0)
  then ret ERROR_FLASH_OPERATION_FAILED
  else ret ERROR_OK.

(** [1 << i] as it meets a [uint32_t] operand.  A shift by 32 or more is
    undefined in C; here it gives 0. *)
Definition bit (i : Z) : Z := u32 (Z.shiftl 1 i).

(** The body of the loop over protection bits:
    [set = 1; if (protection & (1 << i)) set = 0;] then the [ppage_size]
    sectors of group [i] get [is_protected = set]. *)
Definition protect_group (ppage protection i : Z) (l : list flash_sector)
  : list flash_sector :=
  let set := if negb (Z.land protection (bit i) =? 0) then 0 else 1 in
  for_range 0 ppage
    (fun s l => update_sector (i * ppage + s) (with_is_protected set) l) l.

(** [stm32x_protect_check], nucX1.c l. 1075-1159.  The division in
    [num_sectors / ppage_size] is that of C, towards zero. *)
Definition stm32x_protect_check : M bank error_code :=
  st <- get_target_state ;;
  if negb (is_halted st) then ret ERROR_TARGET_NOT_HALTED else
  TRY stm32x_check_operation_supported ;;
  '(retval, protection) <- target_read_u32 STM32_FLASH_WRPR ;;
  if negb (is_ok retval) then ret retval else
  b <- get_bank ;;
  let ppage := ppage_size (driver_priv b) in
  let num_bits := Z.quot (num_sectors b) ppage in
  (if ppage =? 2 then
     (* high density flash/connectivity line protection *)
     let set := if negb (Z.land protection (bit 31) =? 0) then 0 else 1 in
     let l := for_range 62 (num_sectors b)
                (fun s l => update_sector s (with_is_protected set) l) (sectors b) in
     let num_bits := if num_sectors b >? 61 then 31 else num_bits in
     put_bank (set_sectors (for_range 0 num_bits (protect_group ppage protection) l) b)
   else
     (* low/medium density flash protection *)
     put_bank (set_sectors
                 (for_range 0 num_bits (protect_group ppage protection) (sectors b)) b)) ;;
  ret ERROR_OK.

(** [stm32x_mass_erase], nucX1.c l. 2184-2219. *)
Definition stm32x_mass_erase : M bank error_code :=
  st <- get_target_state ;;
  if negb (is_halted st) then ret ERROR_TARGET_NOT_HALTED else
  b <- get_bank ;;
  TRY target_write_u32 (stm32x_get_flash_reg b STM32_FLASH_KEYR) KEY1 ;;
  TRY target_write_u32 (stm32x_get_flash_reg b STM32_FLASH_KEYR) KEY2 ;;
  TRY target_write_u32 (stm32x_get_flash_reg b STM32_FLASH_CR) FLASH_MER ;;
  TRY target_write_u32 (stm32x_get_flash_reg b STM32_FLASH_CR)
        (Z.lor FLASH_MER FLASH_STRT) ;;
  TRY stm32x_wait_status_busy 100 ;;
  TRY target_write_u32 (stm32x_get_flash_reg b STM32_FLASH_CR) FLASH_LOCK ;;
  ret ERROR_OK.

(** [for (i = first; i <= last; i++)] of [stm32x_erase], [n] sectors from
    [i] on; an error leaves the loop and the function. *)
Fixpoint erase_sectors (n : nat) (i : Z) : M bank error_code :=
  match n with
  | O => ret ERROR_OK
  | S n' =>
      b <- get_bank ;;
      TRY target_write_u32 (stm32x_get_flash_reg b STM32_FLASH_CR) FLASH_PER ;;
      TRY target_write_u32 (stm32x_get_flash_reg b STM32_FLASH_AR)
            (bank_base b + sector_offset (sector_at (sectors b) i)) ;;
      TRY target_write_u32 (stm32x_get_flash_reg b STM32_FLASH_CR)
            (Z.lor FLASH_PER FLASH_STRT) ;;
      TRY stm32x_wait_status_busy 100 ;;
      set_is_erased i 1 ;;
      erase_sectors n' (i + 1)
  end.

(** [stm32x_erase], nucX1.c l. 1163-1213. *)
Definition stm32x_erase (first last : Z) : M bank error_code :=
  st <- get_target_state ;;
  if negb (is_halted st) then ret ERROR_TARGET_NOT_HALTED else
  b <- get_bank ;;
  if (first =? 0) && (last =? num_sectors b - 1) then stm32x_mass_erase else
  (* unlock flash registers *)
  TRY target_write_u32 (stm32x_get_flash_reg b STM32_FLASH_KEYR) KEY1 ;;
  TRY target_write_u32 (stm32x_get_flash_reg b STM32_FLASH_KEYR) KEY2 ;;
  TRY erase_sectors (Z.to_nat (last - first + 1)) first ;;
  TRY target_write_u32 (stm32x_get_flash_reg b STM32_FLASH_CR) FLASH_LOCK ;;
  ret ERROR_OK.

(** The write routine that runs on the chip (contrib/loaders/flash/stm32x.s). *)
Definition stm32x_flash_write_code : list Z :=
  [ 0x08; 0x4c;             (* ldr  r4, STM32_FLASH_BASE *)
    0x1c; 0x44;             (* add  r4, r3 *)
    0x01; 0x23;             (* movs r3, #0x01 *)
    0x23; 0x61;             (* str  r3, [r4, #STM32_FLASH_CR_OFFSET] *)
    0x30; 0xf8; 0x02; 0x3b; (* ldrh r3, [r0], #0x02 *)
    0x21; 0xf8; 0x02; 0x3b; (* strh r3, [r1], #0x02 *)
    0xe3; 0x68;             (* ldr  r3, [r4, #STM32_FLASH_SR_OFFSET] *)
    0x13; 0xf0; 0x01; 0x0f; (* tst  r3, #0x01 *)
    0xfb; 0xd0;             (* beq  busy *)
    0x13; 0xf0; 0x14; 0x0f; (* tst  r3, #0x14 *)
    0x01; 0xd1;             (* bne  exit *)
    0x01; 0x3a;             (* subs r2, r2, #0x01 *)
    0xf0; 0xd1;             (* bne  write_half_word *)
    0x00; 0xbe;             (* bkpt #0x00 *)
    0x00; 0x20; 0x02; 0x40  (* STM32_FLASH_BASE: .word 0x40022000 *) ].

(** [stm32x_info->write_algorithm], dereferenced; a null pointer there is
    undefined behaviour in C and an area at address 0 here. *)
Definition algorithm_area (b : bank) : working_area :=
  match write_algorithm (driver_priv b) with
  | Some a => a
  | None => mk_working_area 0 0
  end.

(** [while (target_alloc_working_area_try(target, buffer_size, &source) != ERROR_OK)]:
    the result is the staging area and the buffer size it was obtained
    with, or the error the function returns with.  The size halves on
    every failure and the loop is left once it is [<= 256], so a fuel of
    [buffer_size] is never used up. *)
Fixpoint alloc_source (fuel : nat) (buffer_size : Z)
  : M bank (option (error_code + working_area * Z)) :=
  '(retval, source) <- target_alloc_working_area_try buffer_size ;;
  if is_ok retval then ret (Some (inr (source, buffer_size)))
  else
    let buffer_size := buffer_size / 2 in
    if buffer_size <=? 256 then
      b <- get_bank ;;
      (* if we already allocated the writing code, but failed to get a
         buffer, free the algorithm *)
      match write_algorithm (driver_priv b) with
      | Some a => target_free_working_area a
      | None => ret tt
      end ;;
      ret (Some (inl ERROR_TARGET_RESOURCE_NOT_AVAILABLE))
    else
      match fuel with
      | O => ret None
      | S fuel' => alloc_source fuel' buffer_size
      end.

(** [while (count > 0)] of [stm32x_write_block]: the value is [retval] when
    the loop is left, by its condition or by a [break].  Every round
    takes at least one halfword off [count] (as [buffer_size >= 2]), so a
    fuel of [count] is never used up. *)
Fixpoint write_chunks (fuel : nat) (source : working_area) (buffer_size : Z)
  (buffer : list Z) (address count : Z) : M bank (option error_code) :=
  if count >? 0 then
    match fuel with
    | O => ret None
    | S fuel' =>
        let thisrun_count :=
          if count >? buffer_size / 2 then buffer_size / 2 else count in
        retval <- target_write_buffer (wa_address source)
                    (u32 (thisrun_count * 2)) buffer ;;
        if negb (is_ok retval) then ret (Some retval) else
        b <- get_bank ;;
        '(retval, r3) <- target_run_algorithm (wa_address source) address
                           thisrun_count (u32 (register_offset (driver_priv b)))
                           (wa_address (algorithm_area b)) 0 10000 ;;
        if negb (is_ok retval) then ret (Some retval) else
        if negb (Z.land r3 FLASH_PGERR =? 0) then
          (* Clear but report errors *)
          _ <- target_write_u32 STM32_FLASH_SR FLASH_PGERR ;;
          ret (Some ERROR_FAIL)
        else if negb (Z.land r3 FLASH_WRPRTERR =? 0) then
          _ <- target_write_u32 STM32_FLASH_SR FLASH_WRPRTERR ;;
          ret (Some ERROR_FAIL)
        else
          write_chunks fuel' source buffer_size
            (skipn (Z.to_nat (u32 (thisrun_count * 2))) buffer)
            (u32 (address + u32 (thisrun_count * 2)))
            (count - thisrun_count)
    end
  else ret (Some ERROR_OK).

(** [count] is a number of halfwords.
    [stm32x_write_block], nucX1.c l. 1328-1466.  [None] is a loop cut off
    by its fuel, which does not happen (see
    [stm32x_write_block_returns]). *)
Definition stm32x_write_block (buffer : list Z) (offset count : Z)
  : M bank (option error_code) :=
  b <- get_bank ;;
  let buffer_size := 16384 in
  let address := u32 (bank_base b + offset) in
  (* flash write code *)
  '(retval, area) <- target_alloc_working_area (Z.of_nat (length stm32x_flash_write_code)) ;;
  (if is_ok retval then modify_priv (with_write_algorithm (Some area)) else ret tt) ;;
  if negb (is_ok retval) then ret (Some ERROR_TARGET_RESOURCE_NOT_AVAILABLE) else
  b <- get_bank ;;
  TRY? target_write_buffer (wa_address (algorithm_area b))
         (Z.of_nat (length stm32x_flash_write_code)) stm32x_flash_write_code ;;
  (* memory buffer *)
  r <- alloc_source (Z.to_nat buffer_size) buffer_size ;;
  match r with
  | None => ret None
  | Some (inl retval) => ret (Some retval)
  | Some (inr (source, buffer_size)) =>
      r <- write_chunks (Z.to_nat count) source buffer_size buffer address count ;;
      match r with
      | None => ret None
      | Some retval =>
          target_free_working_area source ;;
          b <- get_bank ;;
          target_free_working_area (algorithm_area b) ;;
          ret (Some retval)
      end
  end.

(** [memcpy(&value, buffer + bytes_written, n)] into a [uint16_t] on a
    little-endian host; bytes past the end of the buffer read as 0. *)
Definition byte_at (buffer : list Z) (i : Z) : Z :=
  if i <? 0 then 0 else nth (Z.to_nat i) buffer 0 mod 256.
Definition load_u16 (buffer : list Z) (i : Z) : Z :=
  byte_at buffer i + 256 * byte_at buffer (i + 1).
Definition load_last_byte (buffer : list Z) (i : Z) : Z :=
  byte_at buffer i + 256 * 0xff.

(** [while (words_remaining > 0)] of [stm32x_write]: one halfword per round,
    [n] rounds.  [inl retval] is a [return] from the loop, [inr] carries
    [address] and [bytes_written] out of it. *)
Fixpoint write_words (n : nat) (buffer : list Z) (address bytes_written : Z)
  : M bank (error_code + Z * Z) :=
  match n with
  | O => ret (inr (address, bytes_written))
  | S n' =>
      let value := load_u16 buffer bytes_written in
      b <- get_bank ;;
      retval <- target_write_u32 (stm32x_get_flash_reg b STM32_FLASH_CR) FLASH_PG ;;
      if negb (is_ok retval) then ret (inl retval) else
      retval <- target_write_u16 address value ;;
      if negb (is_ok retval) then ret (inl retval) else
      retval <- stm32x_wait_status_busy 5 ;;
      if negb (is_ok retval) then ret (inl retval) else
      write_words n' buffer (u32 (address + 2)) (u32 (bytes_written + 2))
  end.

(** The second half of [stm32x_write], from [while (words_remaining > 0)]
    on: the halfwords the block write has not programmed, one register
    write each; the trailing byte, padded to a halfword; the lock. *)
Definition write_single (buffer : list Z)
  (address words_remaining bytes_remaining : Z) : M bank (option error_code) :=
  let bytes_written := 0 in
  r <- write_words (Z.to_nat words_remaining) buffer address bytes_written ;;
  match r with
  | inl retval => ret (Some retval)
  | inr (address, bytes_written) =>
      b <- get_bank ;;
      TRY? (if negb (bytes_remaining =? 0) then
              let value := load_last_byte buffer bytes_written in
              TRY target_write_u32 (stm32x_get_flash_reg b STM32_FLASH_CR) FLASH_PG ;;
              TRY target_write_u16 address value ;;
              TRY stm32x_wait_status_busy 5 ;;
              ret ERROR_OK
            else ret ERROR_OK) ;;
      retval <- target_write_u32 STM32_FLASH_CR FLASH_LOCK ;;
      ret (Some retval)
  end.

(** [stm32x_write], nucX1.c l. 1469-1562. *)
Definition stm32x_write (buffer : list Z) (offset count : Z)
  : M bank (option error_code) :=
  b <- get_bank ;;
  let words_remaining := count / 2 in
  let bytes_remaining := Z.land count 1 in
  let address := u32 (bank_base b + offset) in
  st <- get_target_state ;;
  if negb (is_halted st) then ret (Some ERROR_TARGET_NOT_HALTED) else
  if negb (Z.land offset 1 =? 0) then ret (Some ERROR_FLASH_DST_BREAKS_ALIGNMENT) else
  (* unlock flash registers *)
  TRY? target_write_u32 (stm32x_get_flash_reg b STM32_FLASH_KEYR) KEY1 ;;
  TRY? target_write_u32 (stm32x_get_flash_reg b STM32_FLASH_KEYR) KEY2 ;;
  (* multiple half words (2-byte) to be programmed? *)
  if words_remaining >? 0 then
    (* try using a block write *)
    r <- stm32x_write_block buffer offset words_remaining ;;
    match r with
    | None => ret None
    | Some retval =>
        if negb (is_ok retval) then
          (* if block write failed (no sufficient working area),
             we use normal (slow) single dword accesses *)
          if negb (is_resource_not_available retval) then ret (Some retval)
          else write_single buffer address words_remaining bytes_remaining
        else
          write_single (skipn (Z.to_nat (u32 (words_remaining * 2))) buffer)
            (u32 (address + u32 (words_remaining * 2))) 0 bytes_remaining
    end
  else write_single buffer address words_remaining bytes_remaining.

(** The chain of tests on the device id in [stm32x_probe]: page size and
    number of pages (in kbytes still) of the family, or nothing for an
    unknown id; [ppage_size], [has_dual_banks] and [register_offset] are set
    on the way. *)
Definition identify (device_id num_pages : Z) : M bank (option (Z * Z * Z)) :=
  b <- get_bank ;;
  let base_address := 0x08000000 in
  let id := Z.land device_id 0x7ff in
  if id =? 0x410 then
    modify_priv (with_ppage_size 4) ;;
    ret (Some (1024, (if num_pages =? 0xffff then 128 else num_pages), base_address))
  else if id =? 0x412 then
    modify_priv (with_ppage_size 4) ;;
    ret (Some (1024, (if num_pages =? 0xffff then 32 else num_pages), base_address))
  else if id =? 0x414 then
    modify_priv (with_ppage_size 2) ;;
    ret (Some (2048, (if num_pages =? 0xffff then 512 else num_pages), base_address))
  else if id =? 0x418 then
    modify_priv (with_ppage_size 2) ;;
    ret (Some (2048, (if num_pages =? 0xffff then 256 else num_pages), base_address))
  else if id =? 0x420 then
    modify_priv (with_ppage_size 4) ;;
    ret (Some (1024, (if num_pages =? 0xffff then 128 else num_pages), base_address))
  else if id =? 0x430 then
    modify_priv (with_ppage_size 2) ;;
    modify_priv (with_has_dual_banks true) ;;
    let num_pages := if num_pages =? 0xffff then 1024 else num_pages in
    (* split reported size into matching bank *)
    if negb (bank_base b =? 0x08080000) then
      (* bank 0 will be fixed 512k *)
      ret (Some (2048, 512, base_address))
    else
      (* bank1 also uses a register offset *)
      modify_priv (with_register_offset FLASH_OFFSET_B1) ;;
      ret (Some (2048, u16 (num_pages - 512), 0x08080000))
  else ret None.

(** [stm32x_probe], nucX1.c l. 1568-1737. *)
Definition stm32x_probe : M bank error_code :=
  modify_priv (with_probed 0) ;;
  modify_priv (with_register_offset FLASH_OFFSET_B0) ;;
  (* read stm32 device id register *)
  '(retval, device_id) <- target_read_u32 0xE0042000 ;;
  if negb (is_ok retval) then ret retval else
  (* get flash size from target. *)
  '(retval, num_pages) <- target_read_u16 0x1FFFF7E0 ;;
  (* failed reading flash size, default to max target family *)
  let num_pages := if negb (is_ok retval) then 0xffff else num_pages in
  r <- identify device_id num_pages ;;
  match r with
  | None => ret ERROR_FAIL
  | Some (page_size, num_pages, base_address) =>
      (* calculate numbers of pages *)
      let num_pages := u16 (Z.quot num_pages (Z.quot page_size 1024)) in
      modify_bank (build_sectors base_address num_pages page_size) ;;
      modify_priv (with_probed 1) ;;
      ret ERROR_OK
  end.

(** [stm32x_auto_probe], nucX1.c l. 1742-1748. *)
Definition stm32x_auto_probe : M bank error_code :=
  b <- get_bank ;;
  if negb (probed (driver_priv b) =? 0) then ret ERROR_OK else stm32x_probe.

(** ** Configuration, option bytes, protection and commands *)

(** [stm32x_flash_bank_command], nucX1.c l. 784-810.  [fresh] is the block
    [malloc] hands out: the handler writes four of its fields and leaves
    [option_bytes] and [ppage_size] as they come. *)
Definition stm32x_flash_bank_command (argv : list String.string)
  (fresh : stm32x_flash_bank) : M bank error_code :=
  if CMD_ARGC argv <? 6 then ret ERROR_FLASH_BANK_INVALID else
  modify_bank (set_driver_priv fresh) ;;
  modify_priv (with_write_algorithm None) ;;
  modify_priv (with_probed 0) ;;
  modify_priv (with_has_dual_banks false) ;;
  modify_priv (with_register_offset FLASH_OFFSET_B0) ;;
  ret ERROR_OK.

Definition with_option_bytes (o : stm32x_options) (p : stm32x_flash_bank) :=
  mk_stm32x_flash_bank o (write_algorithm p) (ppage_size p) (probed p)
    (has_dual_banks p) (register_offset p).
Definition with_RDP (v : Z) (o : stm32x_options) :=
  mk_stm32x_options v (user_options o) (protection o).
Definition with_user_options (v : Z) (o : stm32x_options) :=
  mk_stm32x_options (RDP o) v (protection o).
Definition with_protection (l : list Z) (o : stm32x_options) :=
  mk_stm32x_options (RDP o) (user_options o) l.

Definition modify_options (f : stm32x_options -> stm32x_options) : M bank unit :=
  modify_priv (fun p => with_option_bytes (f (option_bytes p)) p).

(** [protection[i]] of the option bytes. *)
Definition protection_at (o : stm32x_options) (i : nat) : Z := nth i (protection o) 0.

(** [stm32x_read_options], nucX1.c l. 888-918.  The four assignments to
    [protection[0..3]] fill the whole array. *)
Definition stm32x_read_options : M bank error_code :=
  (* read current option bytes *)
  '(retval, optiondata) <- target_read_u32 STM32_FLASH_OBR ;;
  if negb (is_ok retval) then ret retval else
  modify_options
    (with_user_options (u16 (Z.lor 0xFFF8 (Z.land (Z.shiftr optiondata 2) 0x07)))) ;;
  modify_options
    (with_RDP (if negb (Z.land optiondata (Z.shiftl 1 OPT_READOUT) =? 0)
               then 0xFFFF else 0x5AA5)) ;;
  (* each bit refers to a 4bank protection *)
  '(retval, optiondata) <- target_read_u32 STM32_FLASH_WRPR ;;
  if negb (is_ok retval) then ret retval else
  modify_options
    (with_protection
       [ u16 optiondata; u16 (Z.shiftr optiondata 8);
         u16 (Z.shiftr optiondata 16); u16 (Z.shiftr optiondata 24) ]) ;;
  ret ERROR_OK.

(** [stm32x_erase_options], nucX1.c l. 921-965.  The result of
    [stm32x_read_options] is not looked at. *)
Definition stm32x_erase_options : M bank error_code :=
  (* read current options *)
  _ <- stm32x_read_options ;;
  (* unlock flash registers *)
  TRY target_write_u32 STM32_FLASH_KEYR KEY1 ;;
  TRY target_write_u32 STM32_FLASH_KEYR KEY2 ;;
  (* unlock option flash registers *)
  TRY target_write_u32 STM32_FLASH_OPTKEYR KEY1 ;;
  TRY target_write_u32 STM32_FLASH_OPTKEYR KEY2 ;;
  (* erase option bytes *)
  TRY target_write_u32 STM32_FLASH_CR (Z.lor FLASH_OPTER FLASH_OPTWRE) ;;
  TRY target_write_u32 STM32_FLASH_CR (Z.lor (Z.lor FLASH_OPTER FLASH_STRT) FLASH_OPTWRE) ;;
  TRY stm32x_wait_status_busy 10 ;;
  (* clear readout protection and complementary option bytes
     this will also force a device unlock if set *)
  modify_options (with_RDP 0x5AA5) ;;
  ret ERROR_OK.

(** [stm32x_write_options], nucX1.c l. 968-1055. *)
Definition stm32x_write_options : M bank error_code :=
  (* unlock flash registers *)
  TRY target_write_u32 STM32_FLASH_KEYR KEY1 ;;
  TRY target_write_u32 STM32_FLASH_KEYR KEY2 ;;
  (* unlock option flash registers *)
  TRY target_write_u32 STM32_FLASH_OPTKEYR KEY1 ;;
  TRY target_write_u32 STM32_FLASH_OPTKEYR KEY2 ;;
  (* program option bytes *)
  TRY target_write_u32 STM32_FLASH_CR (Z.lor FLASH_OPTPG FLASH_OPTWRE) ;;
  b <- get_bank ;;
  let option_bytes := option_bytes (driver_priv b) in
  (* write user option byte *)
  TRY target_write_u16 STM32_OB_USER (user_options option_bytes) ;;
  TRY stm32x_wait_status_busy 10 ;;
  (* write protection byte 1 *)
  TRY target_write_u16 STM32_OB_WRP0 (protection_at option_bytes 0) ;;
  TRY stm32x_wait_status_busy 10 ;;
  (* write protection byte 2 *)
  TRY target_write_u16 STM32_OB_WRP1 (protection_at option_bytes 1) ;;
  TRY stm32x_wait_status_busy 10 ;;
  (* write protection byte 3 *)
  TRY target_write_u16 STM32_OB_WRP2 (protection_at option_bytes 2) ;;
  TRY stm32x_wait_status_busy 10 ;;
  (* write protection byte 4 *)
  TRY target_write_u16 STM32_OB_WRP3 (protection_at option_bytes 3) ;;
  TRY stm32x_wait_status_busy 10 ;;
  (* write readout protection bit *)
  TRY target_write_u16 STM32_OB_RDP (RDP option_bytes) ;;
  TRY stm32x_wait_status_busy 10 ;;
  TRY target_write_u32 STM32_FLASH_CR FLASH_LOCK ;;
  ret ERROR_OK.

(** [prot_reg[reg] = f(prot_reg[reg])] on the local array of four
    halfwords; an index outside it is undefined behaviour in C and does
    nothing here. *)
Definition update_reg (reg : Z) (f : Z -> Z) (prot_reg : list Z) : list Z :=
  if reg <? 0 then prot_reg else update_nth (Z.to_nat reg) f prot_reg.

(** [if (set) prot_reg[reg] &= ~(1 << bit); else prot_reg[reg] |= (1 << bit);] *)
Definition prot_reg_set (set reg bit : Z) (prot_reg : list Z) : list Z :=
  if negb (set =? 0)
  then update_reg reg (fun v => u16 (Z.land v (Z.lnot (Z.shiftl 1 bit)))) prot_reg
  else update_reg reg (fun v => u16 (Z.lor v (Z.shiftl 1 bit))) prot_reg.

(** The body of [for (i = first; i <= last; i++)] in [stm32x_protect];
    the divisions are those of C. *)
Definition protect_sector (ppage set i : Z) (prot_reg : list Z) : list Z :=
  let reg := Z.quot (Z.quot i ppage) 8 in
  let bit := Z.quot i ppage - reg * 8 in
  prot_reg_set set reg bit prot_reg.

(** [stm32x_protect], nucX1.c l. 1217-1317.  [%] is the remainder of C. *)
Definition stm32x_protect (set first last : Z) : M bank error_code :=
  st <- get_target_state ;;
  if negb (is_halted st) then ret ERROR_TARGET_NOT_HALTED else
  TRY stm32x_check_operation_supported ;;
  b <- get_bank ;;
  let ppage := ppage_size (driver_priv b) in
  let first :=
    if negb (Z.rem first ppage =? 0) then first - Z.rem first ppage else first in
  let last :=
    if negb (Z.rem (last + 1) ppage =? 0) then
      let last := last + 1 in
      let last := last - Z.rem last ppage in
      last - 1
    else last in
  (* medium density - each bit refers to a 4bank protection
     high density - each bit refers to a 2bank protection *)
  '(retval, protection) <- target_read_u32 STM32_FLASH_WRPR ;;
  if negb (is_ok retval) then ret retval else
  let prot_reg :=
    [ u16 protection; u16 (Z.shiftr protection 8);
      u16 (Z.shiftr protection 16); u16 (Z.shiftr protection 24) ] in
  let prot_reg :=
    if ppage =? 2 then
      (* high density flash *)
      (* bit 7 controls sector 62 - 255 protection *)
      let prot_reg := if last >? 61 then prot_reg_set set 3 7 prot_reg else prot_reg in
      let first := if first >? 61 then 62 else first in
      let last := if last >? 61 then 61 else last in
      for_range first (last + 1) (protect_sector ppage set) prot_reg
    else
      (* medium density flash *)
      for_range first (last + 1) (protect_sector ppage set) prot_reg in
  TRY stm32x_erase_options ;;
  modify_options
    (with_protection
       [ nth 0 prot_reg 0; nth 1 prot_reg 0; nth 2 prot_reg 0; nth 3 prot_reg 0 ]) ;;
  stm32x_write_options.

(** The family line and the revision letter of [get_stm32x_info]:
    [printed = snprintf(buf, buf_size, family); buf += printed;
    buf_size -= printed; snprintf(buf, buf_size, revision)]. *)
Definition print_family (buf : String.string) (buf_size : Z)
  (family revision : String.string) : String.string :=
  let '(buf, printed) := snprintf buf 0 buf_size family in
  fst (snprintf buf printed (buf_size - printed) revision).

(** [get_stm32x_info], nucX1.c l. 1762-1906: the return code and the text
    at [buf]. *)
Definition get_stm32x_info (buf : String.string) (buf_size : Z)
  : M bank (error_code * String.string) :=
  (* read stm32 device id register *)
  '(retval, device_id) <- target_read_u32 0xE0042000 ;;
  if negb (is_ok retval) then ret (retval, buf) else
  let id := Z.land device_id 0x7ff in
  let rev := Z.shiftr device_id 16 in
  if id =? 0x410 then
    ret (ERROR_OK,
         print_family buf buf_size "stm32x (Medium Density) - Rev: "
           (if rev =? 0x0000 then "A" else if rev =? 0x2000 then "B"
            else if rev =? 0x2001 then "Z" else if rev =? 0x2003 then "Y"
            else "unknown"))
  else if id =? 0x412 then
    ret (ERROR_OK,
         print_family buf buf_size "stm32x (Low Density) - Rev: "
           (if rev =? 0x1000 then "A" else "unknown"))
  else if id =? 0x414 then
    ret (ERROR_OK,
         print_family buf buf_size "stm32x (High Density) - Rev: "
           (if rev =? 0x1000 then "A" else if rev =? 0x1001 then "Z" else "unknown"))
  else if id =? 0x418 then
    ret (ERROR_OK,
         print_family buf buf_size "stm32x (Connectivity) - Rev: "
           (if rev =? 0x1000 then "A" else if rev =? 0x1001 then "Z" else "unknown"))
  else if id =? 0x420 then
    ret (ERROR_OK,
         print_family buf buf_size "stm32x (Value) - Rev: "
           (if rev =? 0x1000 then "A" else if rev =? 0x1001 then "Z" else "unknown"))
  else if id =? 0x430 then
    ret (ERROR_OK,
         print_family buf buf_size "stm32x (XL) - Rev: "
           (if rev =? 0x1000 then "A" else "unknown"))
  else
    ret (ERROR_FAIL, fst (snprintf buf 0 buf_size "Cannot identify target as a stm32x
")).

(** ** The stm32x commands

    A handler gets its arguments and what [flash_command_get_bank] (not
    part of the repository) found for argument 0: a return code, and on
    success the bank, which is the bank of the monad.  It gives back its
    return code and the lines it printed with [command_print]. *)
Definition command : Type := M bank (error_code * list String.string).

(** [stm32x_handle_lock_command], nucX1.c l. 1913-1961. *)
Definition stm32x_handle_lock_command (argv : list String.string)
  (found : error_code) : command :=
  if CMD_ARGC argv <? 1 then ret (ERROR_OK, ["stm32x lock <bank>"]) else
  if negb (is_ok found) then ret (found, []) else
  st <- get_target_state ;;
  if negb (is_halted st) then ret (ERROR_TARGET_NOT_HALTED, []) else
  retval <- stm32x_check_operation_supported ;;
  if negb (is_ok retval) then ret (retval, []) else
  retval <- stm32x_erase_options ;;
  if negb (is_ok retval) then ret (ERROR_OK, ["stm32x failed to erase options"]) else
  (* set readout protection *)
  modify_options (with_RDP 0) ;;
  retval <- stm32x_write_options ;;
  if negb (is_ok retval) then ret (ERROR_OK, ["stm32x failed to lock device"]) else
  ret (ERROR_OK, ["stm32x locked"]).

(** [stm32x_handle_unlock_command], nucX1.c l. 1963-2010. *)
Definition stm32x_handle_unlock_command (argv : list String.string)
  (found : error_code) : command :=
  if CMD_ARGC argv <? 1 then ret (ERROR_OK, ["stm32x unlock <bank>"]) else
  if negb (is_ok found) then ret (found, []) else
  st <- get_target_state ;;
  if negb (is_halted st) then ret (ERROR_TARGET_NOT_HALTED, []) else
  retval <- stm32x_check_operation_supported ;;
  if negb (is_ok retval) then ret (retval, []) else
  retval <- stm32x_erase_options ;;
  if negb (is_ok retval) then ret (ERROR_OK, ["stm32x failed to unlock device"]) else
  retval <- stm32x_write_options ;;
  if negb (is_ok retval) then ret (ERROR_OK, ["stm32x failed to lock device"]) else
  ret (ERROR_OK,
       ["stm32x unlocked.
INFO: a reset or power cycle is required for the new settings to take effect."]).

(** [stm32x_handle_options_write_command], nucX1.c l. 2082-2180.
    [strcmp(a, b) == 0] is equality of strings. *)
Definition stm32x_handle_options_write_command (argv : list String.string)
  (found : error_code) : command :=
  let optionbyte := 0xF8 in
  if CMD_ARGC argv <? 4 then
    ret (ERROR_OK,
         ["stm32x options_write <bank> <SWWDG | HWWDG> <RSTSTNDBY | NORSTSTNDBY> <RSTSTOP | NORSTSTOP> <BOOT0 | BOOT1>"])
  else
  if negb (is_ok found) then ret (found, []) else
  b <- get_bank ;;
  st <- get_target_state ;;
  if negb (is_halted st) then ret (ERROR_TARGET_NOT_HALTED, []) else
  retval <- stm32x_check_operation_supported ;;
  if negb (is_ok retval) then ret (retval, []) else
  (* OPT_RDWDGSW *)
  let optionbyte :=
    if String.eqb (CMD_ARGV argv 1) "SWWDG"
    then u16 (Z.lor optionbyte (Z.shiftl 1 0))
    else u16 (Z.land optionbyte (Z.lnot (Z.shiftl 1 0))) in
  (* OPT_RDRSTSTOP *)
  let optionbyte :=
    if String.eqb (CMD_ARGV argv 2) "NORSTSTOP"
    then u16 (Z.lor optionbyte (Z.shiftl 1 1))
    else u16 (Z.land optionbyte (Z.lnot (Z.shiftl 1 1))) in
  (* OPT_RDRSTSTDBY *)
  let optionbyte :=
    if String.eqb (CMD_ARGV argv 3) "NORSTSTNDBY"
    then u16 (Z.lor optionbyte (Z.shiftl 1 2))
    else u16 (Z.land optionbyte (Z.lnot (Z.shiftl 1 2))) in
  let optionbyte :=
    if (CMD_ARGC argv >? 4) && has_dual_banks (driver_priv b) then
      (* OPT_BFB2 *)
      if String.eqb (CMD_ARGV argv 4) "BOOT0"
      then u16 (Z.lor optionbyte (Z.shiftl 1 3))
      else u16 (Z.land optionbyte (Z.lnot (Z.shiftl 1 3)))
    else optionbyte in
  retval <- stm32x_erase_options ;;
  if negb (is_ok retval) then ret (ERROR_OK, ["stm32x failed to erase options"]) else
  modify_options (with_user_options optionbyte) ;;
  retval <- stm32x_write_options ;;
  if negb (is_ok retval) then ret (ERROR_OK, ["stm32x failed to write options"]) else
  ret (ERROR_OK,
       ["stm32x write options complete.
INFO: a reset or power cycle is required for the new settings to take effect."]).

(** [stm32x_handle_mass_erase_command], nucX1.c l. 2224-2256. *)
Definition stm32x_handle_mass_erase_command (argv : list String.string)
  (found : error_code) : command :=
  if CMD_ARGC argv <? 1 then ret (ERROR_OK, ["stm32x mass_erase <bank>"]) else
  if negb (is_ok found) then ret (found, []) else
  retval <- stm32x_mass_erase ;;
  if is_ok retval then
    (* set all sectors as erased *)
    b <- get_bank ;;
    put_bank (set_sectors
                (for_range 0 (num_sectors b)
                   (fun i l => update_sector i (with_is_erased 1) l) (sectors b)) b) ;;
    ret (retval, ["stm32x mass erase complete"])
  else
    ret (retval, ["stm32x mass erase failed"]).

End Stm32x.

(** * The nucX1 driver *)
Module NucX1.

(** nucX1 register locations *)
Definition NUCX1_SYS_BASE : Z := 0x50000000.
Definition NUCX1_SYS_WRPROT : Z := 0x50000100.
Definition NUCX1_SYSCLK_BASE : Z := 0x50000200.
Definition NUCX1_SYSCLK_PWRCON : Z := 0x50000200.
Definition NUCX1_SYSCLK_CLKSEL0 : Z := 0x50000210.
Definition NUCX1_SYSCLK_CLKDIV : Z := 0x50000218.
Definition NUCX1_SYSCLK_AHBCLK : Z := 0x50000204.
Definition NUCX1_FLASH_BASE : Z := 0x5000C000.
Definition NUCX1_FLASH_ISPCON : Z := 0x5000C000.
Definition NUCX1_FLASH_ISPCMD : Z := 0x5000C00C.
Definition NUCX1_FLASH_ISPADR : Z := 0x5000C004.
Definition NUCX1_FLASH_ISPTRG : Z := 0x5000C010.

(** Command register bits *)
Definition PWRCON_OSC22M : Z := Z.shiftl 1 2.
Definition PWRCON_XTL12M : Z := Z.shiftl 1 0.
Definition AHBCLK_ISP_EN : Z := Z.shiftl 1 2.
Definition ISPCON_ISPEN : Z := Z.shiftl 1 0.
Definition ISPCON_APUEN : Z := Z.shiftl 1 3.
Definition ISPCON_ISPFF : Z := Z.shiftl 1 6.
Definition ISPCMD_FCTRL : Z := 0x2.
Definition ISPCMD_FOEN : Z := Z.shiftl 1 5.
Definition ISPCMD_ERASE : Z := Z.lor ISPCMD_FCTRL ISPCMD_FOEN.
Definition ISPTRG_ISPGO : Z := Z.shiftl 1 0.

(** access unlock keys *)
Definition KEY1 : Z := 0x59.
Definition KEY2 : Z := 0x16.
Definition KEY3 : Z := 0x88.
Definition LOCK : Z := 0x00.

Record nucX1_flash_bank : Type := mk_nucX1_flash_bank {
  write_algorithm : option working_area;
  probed : Z
}.

Definition bank : Type := flash_bank nucX1_flash_bank.

Definition with_probed (v : Z) (p : nucX1_flash_bank) : nucX1_flash_bank :=
  mk_nucX1_flash_bank (write_algorithm p) v.

Definition modify_priv (f : nucX1_flash_bank -> nucX1_flash_bank) : M bank unit :=
  modify_bank (fun b => set_driver_priv (f (driver_priv b)) b).

(** [nucX1_protect_check], nucX1.c l. 138-168. *)
Definition nucX1_protect_check : M bank error_code :=
  st <- get_target_state ;;
  if negb (is_halted st) then ret ERROR_TARGET_NOT_HALTED else
  (* Check to see if Nuc is unlocked or not *)
  '(retval, protected) <- target_read_u32 NUCX1_SYS_WRPROT ;;
  if negb (is_ok retval) then ret retval else
  let set := if protected =? 0 then 1 else 0 in
  b <- get_bank ;;
  put_bank (set_sectors
              (for_range 0 (num_sectors b)
                 (fun s l => update_sector s (with_is_protected set) l) (sectors b)) b) ;;
  ret ERROR_OK.

(** The wait for the GO flag in [nucX1_erase]: [inl retval] is a return
    from inside the loop, [inr status] the [break].  [n] is [timeout] as
    a natural number, counted down by [timeout-- <= 0]. *)
Fixpoint wait_go_loop (n : nat) : M bank (error_code + Z) :=
  '(retval, status) <- target_read_u32 NUCX1_FLASH_ISPTRG ;;
  if negb (is_ok retval) then ret (inl retval)
  else if status =? 0 then ret (inr status)
  else match n with
       | O => ret (inl ERROR_FAIL)
       | S n' => busy_sleep 1 ;; wait_go_loop n'
       end.

(** [for (i = first; i <= last; i++)] of [nucX1_erase], [n] sectors from
    [i] on. *)
Fixpoint erase_sectors (n : nat) (i : Z) : M bank error_code :=
  match n with
  | O => ret ERROR_OK
  | S n' =>
      b <- get_bank ;;
      TRY target_write_u32 NUCX1_FLASH_ISPADR
            (bank_base b + sector_offset (sector_at (sectors b) i)) ;;
      TRY target_write_u32 NUCX1_FLASH_ISPTRG ISPTRG_ISPGO ;;
      (* wait for busy to clear - check the GO flag *)
      r <- wait_go_loop (Z.to_nat 100) ;;
      match r with
      | inl retval => ret retval
      | inr _ =>
          (* check for failure *)
          '(retval, status) <- target_read_u32 NUCX1_FLASH_ISPCON ;;
          if negb (is_ok retval) then ret retval else
          if negb (Z.land status ISPCON_ISPFF =? 0) then
            (* if bit is set, then must write to it to clear it. *)
            TRY target_write_u32 NUCX1_FLASH_ISPCON ISPCON_ISPFF ;;
            erase_sectors n' (i + 1)
          else
            set_is_erased i 1 ;;
            erase_sectors n' (i + 1)
      end
  end.

(** [nucX1_erase], nucX1.c l. 171-319. *)
Definition nucX1_erase (first last : Z) : M bank error_code :=
  st <- get_target_state ;;
  if negb (is_halted st) then ret ERROR_TARGET_NOT_HALTED else
  (* Nuc can't do mass erase: the dispatch is commented out *)
  (* Check to see if Nuc is unlocked or not *)
  '(retval, protected) <- target_read_u32 NUCX1_SYS_WRPROT ;;
  if negb (is_ok retval) then ret retval else
  TRY (if protected =? 0 then
         (* means protected - so unlock it *)
         TRY target_write_u32 NUCX1_SYS_WRPROT KEY1 ;;
         TRY target_write_u32 NUCX1_SYS_WRPROT KEY2 ;;
         TRY target_write_u32 NUCX1_SYS_WRPROT KEY3 ;;
         ret ERROR_OK
       else ret ERROR_OK) ;;
  (* Check that unlock worked *)
  '(retval, protected) <- target_read_u32 NUCX1_SYS_WRPROT ;;
  if negb (is_ok retval) then ret retval else
  (* select the internal clock and enable programming *)
  '(retval, clockSelection) <- target_read_u32 NUCX1_SYSCLK_PWRCON ;;
  if negb (is_ok retval) then ret retval else
  TRY (if Z.land clockSelection PWRCON_XTL12M =? 0 then
         TRY target_write_u32 NUCX1_SYSCLK_PWRCON PWRCON_XTL12M ;;
         (* Delay to allow settling *)
         alive_sleep 5 ;;
         ret ERROR_OK
       else ret ERROR_OK) ;;
  TRY target_write_u32 NUCX1_SYSCLK_CLKSEL0 0x00 ;;
  TRY target_write_u32 NUCX1_SYSCLK_CLKDIV 0x00 ;;
  TRY target_write_u32 NUCX1_SYSCLK_AHBCLK AHBCLK_ISP_EN ;;
  '(retval, dummy) <- target_read_u32 NUCX1_FLASH_ISPCON ;;
  if negb (is_ok retval) then ret retval else
  let dummy := Z.lor dummy ISPCON_ISPEN in
  TRY target_write_u32 NUCX1_FLASH_ISPCON dummy ;;
  TRY target_write_u32 NUCX1_FLASH_ISPCMD ISPCMD_ERASE ;;
  TRY erase_sectors (Z.to_nat (last - first + 1)) first ;;
  (* done, so restore the protection *)
  TRY target_write_u32 NUCX1_SYS_WRPROT LOCK ;;
  ret ERROR_OK.

(** [nucX1_write_block], nucX1.c l. 321-383: everything after the alignment
    test is inside [#if 0]. *)
Definition nucX1_write_block (buffer : list Z) (offset count : Z) : M bank error_code :=
  let retval := ERROR_OK in
  let count := count / 2 in (* number bytes -> number halfwords *)
  (* check code alignment *)
  if negb (Z.land offset 0x1 =? 0) then ret ERROR_FLASH_DST_BREAKS_ALIGNMENT else
  ret retval.

(** [nucX1_probe], nucX1.c l. 385-478. *)
Definition nucX1_probe : M bank error_code :=
  let base_address := 0x00000000 in
  modify_priv (with_probed 0) ;;
  st <- get_target_state ;;
  if negb (is_halted st) then ret ERROR_TARGET_NOT_HALTED else
  (* read nucX1 device id register *)
  '(retval, device_id) <- target_read_u32 0x50000000 ;;
  if negb (is_ok retval) then ret retval else
  match (if device_id =? 0x00012000 then Some (512, 256)
         else if negb (device_id =? 0x00000000) then Some (512, 64)
         else None)
  with
  | None => ret ERROR_FAIL
  | Some (page_size, num_pages) =>
      modify_bank (build_sectors base_address num_pages page_size) ;;
      modify_priv (with_probed 1) ;;
      ret ERROR_OK
  end.

(** [nucX1_auto_probe], nucX1.c l. 479-485. *)
Definition nucX1_auto_probe : M bank error_code :=
  b <- get_bank ;;
  if negb (probed (driver_priv b) =? 0) then ret ERROR_OK else nucX1_probe.

(** [nucX1_flash_bank_command], nucX1.c l. 111-136.  [fresh] is the block
    [malloc] hands out; both its fields are written. *)
Definition nucX1_flash_bank_command (argv : list String.string)
  (fresh : nucX1_flash_bank) : M bank error_code :=
  if CMD_ARGC argv <? 6 then ret ERROR_FLASH_BANK_INVALID else
  modify_bank (set_driver_priv fresh) ;;
  modify_priv (fun p => mk_nucX1_flash_bank None (probed p)) ;;
  modify_priv (with_probed 0) ;;
  ret ERROR_OK.

(** [nucX1_info], nucX1.c l. 488-525: the return code and the text at
    [buf].  For the NUC120 the text goes to the log only and [buf] is left
    as it was. *)
Definition nucX1_info (buf : String.string) (buf_size : Z)
  : M bank (error_code * String.string) :=
  (* read nucX1 device id register *)
  '(retval, device_id) <- target_read_u32 0x50000000 ;;
  if negb (is_ok retval) then ret (retval, buf) else
  if device_id =? 0x00012000 then ret (ERROR_OK, buf)
  else if negb (device_id =? 0x00000000) then
    ret (ERROR_OK,
         fst (snprintf buf 0 buf_size "nuc device likely - add to driver"))
  else
    ret (ERROR_FAIL,
         fst (snprintf buf 0 buf_size "Cannot identify target as a nuc1xx
")).

(** [nucX1_mass_erase], nucX1.c l. 527-546: a stub. *)
Definition nucX1_mass_erase : M bank error_code :=
  let retval := ERROR_OK in
  st <- get_target_state ;;
  if negb (is_halted st) then ret ERROR_TARGET_NOT_HALTED else
  ret retval.

(** [nucX1_handle_mass_erase_command], nucX1.c l. 548-579: the return
    code and the lines printed; [found] is what [flash_command_get_bank]
    returned for argument 0. *)
Definition nucX1_handle_mass_erase_command (argv : list String.string)
  (found : error_code) : M bank (error_code * list String.string) :=
  if CMD_ARGC argv <? 1 then ret (ERROR_OK, ["nucX1 mass_erase <bank>"]) else
  if negb (is_ok found) then ret (found, []) else
  retval <- nucX1_mass_erase ;;
  if is_ok retval then
    (* set all sectors as erased *)
    b <- get_bank ;;
    put_bank (set_sectors
                (for_range 0 (num_sectors b)
                   (fun i l => update_sector i (with_is_erased 1) l) (sectors b)) b) ;;
    ret (retval, ["nucX1 mass erase complete"])
  else
    ret (retval, ["nucX1 mass erase failed"]).

(** The tutorial version of the driver differs from nucX1.c in its
    comments, in its log messages, and in its write routine, which is a
    stub. *)
Module Tutorial.

Definition nucX1_write_block (buffer : list Z) (offset count : Z) : M bank error_code :=
  let retval := ERROR_OK in
  ret retval.

End Tutorial.

End NucX1.

(** * Targets and banks used as concrete inputs *)

(** A target whose answers do not depend on the past. *)
Definition fixed_target (st : target_state) (answer : call -> response) : target :=
  mk_target st (fun _ c => answer c).

Definition ok (v : Z) : response := mk_response ERROR_OK v.
Definition failed : response := mk_response ERROR_FAIL 0.

Definition blank_options : Stm32x.stm32x_options :=
  Stm32x.mk_stm32x_options 0 0 [0; 0; 0; 0].

(** The private data [stm32x_flash_bank_command] installs. *)
Definition stm32x_fresh_priv : Stm32x.stm32x_flash_bank :=
  Stm32x.mk_stm32x_flash_bank blank_options None 0 0 false Stm32x.FLASH_OFFSET_B0.

(** A configured, not yet probed stm32x bank at the usual base. *)
Definition stm32x_fresh_bank : Stm32x.bank :=
  mk_flash_bank 0x08000000 0 0 [] stm32x_fresh_priv.

(** The private data [nucX1_flash_bank_command] installs. *)
Definition nucX1_fresh_priv : NucX1.nucX1_flash_bank :=
  NucX1.mk_nucX1_flash_bank None 0.

Definition nucX1_fresh_bank : NucX1.bank :=
  mk_flash_bank 0 0 0 [] nucX1_fresh_priv.

(** A running (not halted) target that would answer every call with success. *)
Definition running_target : target :=
  fixed_target TARGET_RUNNING (fun _ => ok 0).

(** A halted medium-density stm32 (device id 0x410) reporting 128 kbytes. *)
Definition medium_density_target : target :=
  fixed_target TARGET_HALTED
    (fun c => match c with
              | ReadU32 a => if a =? 0xE0042000 then ok 0x20036410 else ok 0
              | ReadU16 _ => ok 128
              | _ => ok 0
              end).

(** A halted NUC120 (device id 0x00012000). *)
Definition nuc120_target : target :=
  fixed_target TARGET_HALTED
    (fun c => match c with
              | ReadU32 a => if a =? 0x50000000 then ok 0x00012000 else ok 0
              | _ => ok 0
              end).

(** The shape of the sector table of a freshly probed bank. *)
Definition probed_geometry {P} (page_size : Z) (b : flash_bank P) : Prop :=
  num_sectors b * page_size = bank_size b /\
  Z.of_nat (length (sectors b)) = num_sectors b /\
  forall i, 0 <= i < num_sectors b ->
    sector_at (sectors b) i = mk_flash_sector (i * page_size) page_size (-1) 1.

(** The device ids [stm32x_probe] has a branch for. *)
Definition stm32x_known_id (device_id : Z) : bool :=
  let id := Z.land device_id 0x7ff in
  (id =? 0x410) || (id =? 0x412) || (id =? 0x414) || (id =? 0x418) ||
  (id =? 0x420) || (id =? 0x430).

(** The families [stm32x_probe] tells apart by the device id (nucX1.c
    l. 1596-1705), with the page size of each and the flash size, in
    kbytes, it takes when the size cannot be read or reads 0xffff. *)
Definition stm32x_family (device_id : Z) : option (Z * Z) :=
  let id := Z.land device_id 0x7ff in
  if id =? 0x410 then Some (1024, 128)
  else if id =? 0x412 then Some (1024, 32)
  else if id =? 0x414 then Some (2048, 512)
  else if id =? 0x418 then Some (2048, 256)
  else if id =? 0x420 then Some (1024, 128)
  else if id =? 0x430 then Some (2048, 1024)
  else None.

(** The kbytes of flash of the bank configured at [base], for a device
    that reported [reported] kbytes: an XL device (id 0x430) has 512 in its
    first bank and the rest, as a 16-bit number, in the bank at
    0x08080000. *)
Definition stm32x_bank_kbytes (device_id max_kbytes reported base : Z) : Z :=
  let kbytes := if reported =? 0xffff then max_kbytes else reported in
  if Z.land device_id 0x7ff =? 0x430
  then (if base =? 0x08080000 then u16 (kbytes - 512) else 512)
  else kbytes.

(** ** Reading a trace *)

(** The calls of a trace, in the order they were made. *)
Definition calls (tr : list event) : list call := map fst tr.

Definition is_alloc (c : call) : bool :=
  match c with AllocWorkingArea _ | AllocWorkingAreaTry _ => true | _ => false end.
Definition is_alloc_routine (c : call) : bool :=
  match c with AllocWorkingArea _ => true | _ => false end.
Definition is_alloc_try (c : call) : bool :=
  match c with AllocWorkingAreaTry _ => true | _ => false end.
Definition is_upload (c : call) : bool :=
  match c with WriteBuffer _ _ _ => true | _ => false end.
Definition is_read_u32 (c : call) : bool :=
  match c with ReadU32 _ => true | _ => false end.
Definition is_run (c : call) : bool :=
  match c with RunAlgorithm _ _ _ _ _ _ _ => true | _ => false end.

(** A target that answers every call of a class with success, or every
    call of a class with an error, whatever happened before. *)
Definition always_ok (t : target) (class : call -> bool) : Prop :=
  forall h c, class c = true -> rc (respond t h c) = ERROR_OK.
Definition always_fails (t : target) (class : call -> bool) : Prop :=
  forall h c, class c = true -> is_ok (rc (respond t h c)) = false.

(** How many calls of a class a trace holds. *)
Definition count_calls (class : call -> bool) (tr : list event) : nat :=
  length (filter class (calls tr)).

Definition is_write_u32 (c : call) : bool :=
  match c with WriteU32 _ _ => true | _ => false end.

(** Classes of register writes of the stm32x erase, for a bank whose
    registers sit at offset [off]: the sector address, a command with the
    page-erase bit, the lock. *)
Definition is_address_write (off : Z) (c : call) : bool :=
  match c with
  | WriteU32 a _ => a =? u32 (Stm32x.STM32_FLASH_AR + off)
  | _ => false
  end.
Definition is_page_erase_write (off : Z) (c : call) : bool :=
  match c with
  | WriteU32 a v => (a =? u32 (Stm32x.STM32_FLASH_CR + off)) && Z.testbit v 1
  | _ => false
  end.
Definition is_lock_write (off : Z) (c : call) : bool :=
  match c with
  | WriteU32 a v =>
      (a =? u32 (Stm32x.STM32_FLASH_CR + off)) && (v =? Stm32x.FLASH_LOCK)
  | _ => false
  end.

(** The status register, as [stm32x_wait_status_busy] judges it. *)
Definition flash_busy (status : Z) : Prop := Z.land status Stm32x.FLASH_BSY <> 0.
Definition flash_idle (status : Z) : Prop :=
  Z.land status Stm32x.FLASH_BSY = 0 /\
  Z.land status Stm32x.FLASH_WRPRTERR = 0 /\
  Z.land status Stm32x.FLASH_PGERR = 0.

Definition status_read (off : Z) : call :=
  ReadU32 (u32 (Stm32x.STM32_FLASH_SR + off)).

(** The three register writes that start the erase of the sector at
    address [a]. *)
Definition sector_erase_start (off a : Z) : list call :=
  [ WriteU32 (u32 (Stm32x.STM32_FLASH_CR + off)) (u32 Stm32x.FLASH_PER);
    WriteU32 (u32 (Stm32x.STM32_FLASH_AR + off)) (u32 a);
    WriteU32 (u32 (Stm32x.STM32_FLASH_CR + off))
      (u32 (Z.lor Stm32x.FLASH_PER Stm32x.FLASH_STRT)) ].

(** The calls of a poll that uses up a budget of [n] retries: [n + 1]
    reads of the status register, with a sleep of 1 ms after each but the
    last. *)
Fixpoint budget_poll (off : Z) (n : nat) : list call :=
  match n with
  | O => [status_read off]
  | S n' => status_read off :: AliveSleep 1 :: budget_poll off n'
  end.

(** The trace of [stm32x_erase] and [stm32x_mass_erase] once the two keys
    have been written and accepted. *)
Definition unlocked (t : target) (b : Stm32x.bank) : list event :=
  after t
    (after t []
       (WriteU32 (u32 (Stm32x.stm32x_get_flash_reg b Stm32x.STM32_FLASH_KEYR))
          (u32 Stm32x.KEY1)))
    (WriteU32 (u32 (Stm32x.stm32x_get_flash_reg b Stm32x.STM32_FLASH_KEYR))
       (u32 Stm32x.KEY2)).

(** A halted target on which every call succeeds and the status register
    reads busy exactly when [good + 1] sector addresses have been written:
    the poll for the sector after the first [good] never ends. *)
Definition stuck_target (off : Z) (good : nat) : target :=
  mk_target TARGET_HALTED
    (fun h c =>
       match c with
       | ReadU32 _ =>
           if (count_calls (is_address_write off) h =? S good)%nat
           then ok Stm32x.FLASH_BSY else ok 0
       | _ => ok 0
       end).

(** The medium-density stm32 bank, probed: 128 sectors of 1024 bytes,
    four sectors to a protection bit. *)
Definition medium_density_bank : Stm32x.bank :=
  bank_after (Stm32x.stm32x_probe medium_density_target stm32x_fresh_bank []).

(** The NUC120 bank, probed: 256 sectors of 512 bytes. *)
Definition nuc120_bank : NucX1.bank :=
  bank_after (NucX1.nucX1_probe nuc120_target nucX1_fresh_bank []).

(** A write of a sector address by the nucX1 erase. *)
Definition is_ispadr_write (c : call) : bool :=
  match c with
  | WriteU32 a _ => a =? NucX1.NUCX1_FLASH_ISPADR
  | _ => false
  end.

(** Idle, with the write-protection or the programming error bit raised. *)
Definition flash_error (status : Z) : Prop :=
  Z.land status Stm32x.FLASH_BSY = 0 /\
  (Z.land status Stm32x.FLASH_WRPRTERR <> 0 \/ Z.land status Stm32x.FLASH_PGERR <> 0).

(** The write that clears the error bits of the status register. *)
Definition is_status_clear (off : Z) (c : call) : bool :=
  match c with
  | WriteU32 a v =>
      (a =? u32 (Stm32x.STM32_FLASH_SR + off)) &&
      (v =? Z.lor Stm32x.FLASH_WRPRTERR Stm32x.FLASH_PGERR)
  | _ => false
  end.

(** A halted NUC1xx, unlocked and clocked, whose erase completes at once
    but raises the ISP fail flag every time. *)
Definition nuc_failing_target : target :=
  fixed_target TARGET_HALTED
    (fun c => match c with
              | ReadU32 a =>
                  if a =? NucX1.NUCX1_FLASH_ISPCON then ok NucX1.ISPCON_ISPFF
                  else if a =? NucX1.NUCX1_FLASH_ISPTRG then ok 0
                  else ok 1
              | _ => ok 0
              end).

(** A halted medium-density stm32 whose write-protection register reads
    0xFFFFFFFE: bit 0 clear, bits 1 to 31 set. *)
Definition wrpr_target : target :=
  fixed_target TARGET_HALTED
    (fun c => match c with
              | ReadU32 a =>
                  if a =? Stm32x.STM32_FLASH_WRPR then ok 0xFFFFFFFE else ok 0
              | _ => ok 0
              end).

(** What the loop over the protection bits writes: [1] for a clear bit,
    [0] for a set one. *)
Definition protection_of (p i : Z) : Z :=
  if negb (Z.land p (Stm32x.bit i) =? 0) then 0 else 1.

(** The calls that program flash: a run of the on-chip routine, which
    programs [r2] halfwords, and a single halfword write. *)
Definition is_program (c : call) : bool :=
  match c with
  | RunAlgorithm _ _ _ _ _ _ _ | WriteU16 _ _ => true
  | _ => false
  end.
Definition programmed (tr : list event) : list call :=
  filter is_program (calls tr).
Definition units_of_call (c : call) : Z :=
  match c with
  | RunAlgorithm _ _ r2 _ _ _ _ => r2
  | WriteU16 _ _ => 1
  | _ => 0
  end.
Definition units_issued (cs : list call) : Z :=
  fold_right (fun c n => units_of_call c + n) 0 cs.

(** A target on which nothing but an allocation can fail: every other
    call succeeds, the status register always shows an idle flash without
    error, and the routine never reports an error bit. *)
Definition healthy_target (t : target) : Prop :=
  (forall h c, is_alloc c = false -> rc (respond t h c) = ERROR_OK) /\
  (forall h a, flash_idle (u32 (out (respond t h (ReadU32 a))))) /\
  (forall h c, is_run c = true ->
     Z.land (u32 (out (respond t h c))) Stm32x.FLASH_PGERR = 0 /\
     Z.land (u32 (out (respond t h c))) Stm32x.FLASH_WRPRTERR = 0).

(** [sizeof(stm32x_flash_write_code)] *)
Definition routine_size : Z := Z.of_nat (length Stm32x.stm32x_flash_write_code).

(** A halted stm32 with two working areas to give.  Calls succeed, except
    as stated: [upload_ok] is the answer to [target_write_buffer],
    [alloc_ok] to the allocation of the routine area and [try_ok] to those
    of the staging area. *)
Definition ram_target (alloc_ok try_ok upload_ok : bool) : target :=
  fixed_target TARGET_HALTED
    (fun c => match c with
              | AllocWorkingArea _ =>
                  if alloc_ok then ok 0x20000000 else failed
              | AllocWorkingAreaTry _ =>
                  if try_ok then ok 0x20000100 else failed
              | WriteBuffer _ _ _ => if upload_ok then ok 0 else failed
              | _ => ok 0
              end).

(** ** Invariants of a run

    [J] is a property of the bank and the trace.  A function keeps it on a
    target when, started where it holds, it ends where it holds; it admits
    a call when the call, made and answered, does not break it. *)
Definition keeps {S A} (J : S -> list event -> Prop) (t : target) (m : M S A) : Prop :=
  forall b tr, J b tr -> J (bank_after (m t b tr)) (trace (m t b tr)).

Definition admits {S} (J : S -> list event -> Prop) (t : target) (c : call) : Prop :=
  forall b tr, J b tr -> J b (after t tr c).

(** The trace has grown from [tr0] by calls of the class [P] only, and the
    bank satisfies [I]. *)
Definition grown_by {S} (P : call -> bool) (I : S -> Prop) (tr0 : list event)
  : S -> list event -> Prop :=
  fun b tr => I b /\ exists ext, tr = tr0 ++ ext /\ forallb P (calls ext) = true.

Definition is_sleep (c : call) : bool :=
  match c with AliveSleep _ | BusySleep _ => true | _ => false end.
Definition is_write_u16 (c : call) : bool :=
  match c with WriteU16 _ _ => true | _ => false end.

(** What holds all along a write to the second bank of a dual-bank
    device: the registers stay at offset [FLASH_OFFSET_B1], and no call
    since [tr0] has written [FLASH_LOCK] to the control register of that
    bank. *)
Definition bank1_not_locked (tr0 : list event) : Stm32x.bank -> list event -> Prop :=
  grown_by (fun c => negb (is_lock_write Stm32x.FLASH_OFFSET_B1 c))
    (fun b => Stm32x.register_offset (driver_priv b) = Stm32x.FLASH_OFFSET_B1) tr0.

(** [Q] holds of the result, the bank and the trace at the end of every
    run of [m] on [t]. *)
Definition always {S A} (t : target) (m : M S A)
  (Q : A -> S -> list event -> Prop) : Prop :=
  forall b tr, Q (result (m t b tr)) (bank_after (m t b tr)) (trace (m t b tr)).

(** The last call of a trace is [c]. *)
Definition ends_with (t : target) (c : call) (tr : list event) : Prop :=
  exists tr', tr = after t tr' c.

(** A halted XL-density stm32 (device id 0x430) reporting 1024 kbytes, on
    which every call succeeds and the flash is always idle. *)
Definition xl_target : target :=
  fixed_target TARGET_HALTED
    (fun c => match c with
              | ReadU32 a => if a =? 0xE0042000 then ok 0x10000430 else ok 0
              | ReadU16 _ => ok 1024
              | _ => ok 0
              end).

(** The two banks of the XL device as configured, and as probed. *)
Definition xl_fresh_bank0 : Stm32x.bank := mk_flash_bank 0x08000000 0 0 [] stm32x_fresh_priv.
Definition xl_fresh_bank1 : Stm32x.bank := mk_flash_bank 0x08080000 0 0 [] stm32x_fresh_priv.
Definition xl_bank0 : Stm32x.bank :=
  bank_after (Stm32x.stm32x_probe xl_target xl_fresh_bank0 []).
Definition xl_bank1 : Stm32x.bank :=
  bank_after (Stm32x.stm32x_probe xl_target xl_fresh_bank1 []).

(** Started where [J] holds, every run of [m] on [t] ends where [Q] holds
    of its result. *)
Definition hoare {S A} (t : target) (J : S -> list event -> Prop) (m : M S A)
  (Q : A -> S -> list event -> Prop) : Prop :=
  forall b tr, J b tr ->
    Q (result (m t b tr)) (bank_after (m t b tr)) (trace (m t b tr)).

(** What an erase of the sectors [first..last] may change of a bank: the
    [is_erased] flag of these sectors, to 1. *)
Definition erase_frame {P} (first last : Z) (b b' : flash_bank P) : Prop :=
  bank_base b' = bank_base b /\ bank_size b' = bank_size b /\
  num_sectors b' = num_sectors b /\ driver_priv b' = driver_priv b /\
  length (sectors b') = length (sectors b) /\
  forall j, sector_at (sectors b') j = sector_at (sectors b) j \/
            (first <= j <= last /\
             sector_at (sectors b') j = with_is_erased 1 (sector_at (sectors b) j)).

(** The sector table with the [n] sectors from [i] on marked erased. *)
Definition mark_erased (n : nat) (i : Z) (l : list flash_sector) : list flash_sector :=
  for_count n i (fun j l => update_sector j (with_is_erased 1) l) l.

(** Bit [g] of the protection bitmap as four option bytes hold it: bit
    [g mod 8] of [protection[g / 8]]. *)
Definition protection_bit (prot_reg : list Z) (g : Z) : bool :=
  Z.testbit (nth (Z.to_nat (g / 8)) prot_reg 0) (g mod 8).

(** The six halfwords [stm32x_write_options] programs, in its order. *)
Definition option_halfwords (o : Stm32x.stm32x_options) : list call :=
  [ WriteU16 Stm32x.STM32_OB_USER (u16 (Stm32x.user_options o));
    WriteU16 Stm32x.STM32_OB_WRP0 (u16 (Stm32x.protection_at o 0));
    WriteU16 Stm32x.STM32_OB_WRP1 (u16 (Stm32x.protection_at o 1));
    WriteU16 Stm32x.STM32_OB_WRP2 (u16 (Stm32x.protection_at o 2));
    WriteU16 Stm32x.STM32_OB_WRP3 (u16 (Stm32x.protection_at o 3));
    WriteU16 Stm32x.STM32_OB_RDP (u16 (Stm32x.RDP o)) ].

(** The calls of the class made since the trace was [tr0] are [l]. *)
Definition calls_since (class : call -> bool) (tr0 tr : list event) (l : list call) : Prop :=
  exists ext, tr = tr0 ++ ext /\ filter class (calls ext) = l.

(** A target on which every call succeeds and the status register of the
    first bank always shows an idle flash without error. *)
Definition compliant_target (t : target) : Prop :=
  (forall h c, rc (respond t h c) = ERROR_OK) /\
  (forall h, flash_idle (u32 (out (respond t h (ReadU32 Stm32x.STM32_FLASH_SR))))).

(** The trace once the calls [cs] have been made in order, each answered
    by the target. *)
Definition run_calls (t : target) (tr : list event) (cs : list call) : list event :=
  fold_left (after t) cs tr.

(** The calls of [stm32x_erase_options] and of [stm32x_write_options] on a
    target that lets every step through. *)
Definition erase_options_calls : list call :=
  [ ReadU32 Stm32x.STM32_FLASH_OBR;
    ReadU32 Stm32x.STM32_FLASH_WRPR;
    WriteU32 Stm32x.STM32_FLASH_KEYR Stm32x.KEY1;
    WriteU32 Stm32x.STM32_FLASH_KEYR Stm32x.KEY2;
    WriteU32 Stm32x.STM32_FLASH_OPTKEYR Stm32x.KEY1;
    WriteU32 Stm32x.STM32_FLASH_OPTKEYR Stm32x.KEY2;
    WriteU32 Stm32x.STM32_FLASH_CR (Z.lor Stm32x.FLASH_OPTER Stm32x.FLASH_OPTWRE);
    WriteU32 Stm32x.STM32_FLASH_CR
      (Z.lor (Z.lor Stm32x.FLASH_OPTER Stm32x.FLASH_STRT) Stm32x.FLASH_OPTWRE);
    ReadU32 Stm32x.STM32_FLASH_SR ].

Definition write_options_calls (o : Stm32x.stm32x_options) : list call :=
  [ WriteU32 Stm32x.STM32_FLASH_KEYR Stm32x.KEY1;
    WriteU32 Stm32x.STM32_FLASH_KEYR Stm32x.KEY2;
    WriteU32 Stm32x.STM32_FLASH_OPTKEYR Stm32x.KEY1;
    WriteU32 Stm32x.STM32_FLASH_OPTKEYR Stm32x.KEY2;
    WriteU32 Stm32x.STM32_FLASH_CR (Z.lor Stm32x.FLASH_OPTPG Stm32x.FLASH_OPTWRE) ] ++
  flat_map (fun c => [c; ReadU32 Stm32x.STM32_FLASH_SR]) (option_halfwords o) ++
  [ WriteU32 Stm32x.STM32_FLASH_CR Stm32x.FLASH_LOCK ].

(** The option bytes [stm32x_read_options] builds from the values [obr]
    and [wrpr] of the two registers. *)
Definition options_read_from (obr wrpr : Z) : Stm32x.stm32x_options :=
  Stm32x.mk_stm32x_options
    (if Z.testbit obr 1 then 0xFFFF else 0x5AA5)
    (0xFFF8 + Z.land (Z.shiftr obr 2) 7)
    [ u16 wrpr; u16 (Z.shiftr wrpr 8); u16 (Z.shiftr wrpr 16); u16 (Z.shiftr wrpr 24) ].

Definition set_option_bytes (o : Stm32x.stm32x_options) (b : Stm32x.bank) : Stm32x.bank :=
  set_driver_priv (Stm32x.with_option_bytes o (driver_priv b)) b.

(** A halted target that answers every call with success and shows [w] in
    its protection register: the chip once it has loaded its option
    bytes again. *)
Definition reloaded_target (w : Z) : target :=
  fixed_target TARGET_HALTED
    (fun c => match c with
              | ReadU32 a => if a =? Stm32x.STM32_FLASH_WRPR then ok w else ok 0
              | _ => ok 0
              end).

(** The user option byte the options_write command builds from its
    arguments: bits 4 to 7 set, one bit for each of the three words it
    looks for, each at its own position, and bit 3, which only a fifth
    argument other than BOOT0 clears, on a dual-bank device. *)
Definition user_option_byte (argv : list String.string) (dual : bool) : Z :=
  0xF0
  + (if String.eqb (CMD_ARGV argv 1) "SWWDG" then 1 else 0)
  + (if String.eqb (CMD_ARGV argv 2) "NORSTSTOP" then 2 else 0)
  + (if String.eqb (CMD_ARGV argv 3) "NORSTSTNDBY" then 4 else 0)
  + (if (CMD_ARGC argv >? 4) && dual && negb (String.eqb (CMD_ARGV argv 4) "BOOT0")
     then 0 else 8).

(** The bank is [b1] and, since the trace was [tr0], exactly the first
    [k] of the six option halfwords of [b1] have been programmed. *)
Definition programmed_so_far (b1 : Stm32x.bank) (tr0 : list event) (k : nat)
  : Stm32x.bank -> list event -> Prop :=
  fun b tr =>
    b = b1 /\
    calls_since is_write_u16 tr0 tr
      (firstn k (option_halfwords (Stm32x.option_bytes (driver_priv b1)))).

(** The write that puts the register protection of the NUC back, and what
    holds of a run as long as it has not been made since the trace was
    [tr0]. *)
Definition protection_restore : call := WriteU32 NucX1.NUCX1_SYS_WRPROT NucX1.LOCK.
Definition is_protection_restore (c : call) : bool :=
  match c with
  | WriteU32 a v => (a =? NucX1.NUCX1_SYS_WRPROT) && (v =? NucX1.LOCK)
  | _ => false
  end.
Definition not_restored (tr0 : list event) : NucX1.bank -> list event -> Prop :=
  fun _ tr => calls_since is_protection_restore tr0 tr [].

(** A target that lets every register write through and whose status
    register always shows an idle flash without error; its reads of other
    registers may fail. *)
Definition lets_writes_through (t : target) : Prop :=
  (forall h a v, rc (respond t h (WriteU32 a v)) = ERROR_OK) /\
  (forall h, rc (respond t h (ReadU32 Stm32x.STM32_FLASH_SR)) = ERROR_OK /\
             flash_idle (u32 (out (respond t h (ReadU32 Stm32x.STM32_FLASH_SR))))).

(** The [n] halfword writes that program the first [2 * n] bytes of
    [buffer] at [address]: halfword [k] goes to [address + 2 * k] and holds
    byte [2 * k] below byte [2 * k + 1]. *)
Definition halfword_writes (buffer : list Z) (address : Z) (n : nat) : list call :=
  map (fun k =>
         WriteU16 (u32 (address + 2 * Z.of_nat k))
           (Stm32x.byte_at buffer (2 * Z.of_nat k)
            + 256 * Stm32x.byte_at buffer (2 * Z.of_nat k + 1)))
      (seq 0 n).

(** * Properties *)

(** ** Machine integers and bits *)

Lemma u32_small (x : Z) : 0 <= x < 2 ^ 32 -> u32 x = x.
Proof. intros H. unfold u32. apply Z.mod_small. exact H. Qed.

Lemma u32_range (x : Z) : 0 <= u32 x < 2 ^ 32.
Proof. unfold u32. apply Z.mod_pos_bound. lia. Qed.

Lemma u16_range (x : Z) : 0 <= u16 x < 2 ^ 16.
Proof. unfold u16. apply Z.mod_pos_bound. lia. Qed.

Lemma land_1_mod (x : Z) : Z.land x 1 = x mod 2.
Proof. change 1 with (Z.ones 1). rewrite Z.land_ones by lia. reflexivity. Qed.

(** Case analysis on every integer comparison of the goal. *)
Ltac zcases :=
  repeat match goal with
         | |- context [?a <=? ?b] => destruct (Z.leb_spec a b)
         | |- context [?a <? ?b] => destruct (Z.ltb_spec a b)
         | |- context [?a >? ?b] => rewrite (Z.gtb_ltb a b)
         | |- context [?a =? ?b] => destruct (Z.eqb_spec a b)
         end;
  simpl; try reflexivity; try lia.

(** One step of a driver function: the monad operations and the calls on
    the target are unfolded, the outcome projections reduced, and nothing
    else. *)
Ltac mstep :=
  repeat (progress
    (unfold bind, ret, guard_ok, guard_ok_opt, get_bank, put_bank, modify_bank,
       get_target_state, tap, target_read_u32, target_read_u16, target_write_u32,
       target_write_u16, target_alloc_working_area, target_alloc_working_area_try,
       target_free_working_area, target_write_buffer, target_run_algorithm,
       alive_sleep, busy_sleep;
     cbn beta iota zeta;
     cbn [result bank_after trace fst snd rc out])).

(** ** Arrays of sectors *)

Lemma update_nth_length {A} (f : A -> A) (l : list A) (n : nat) :
  length (update_nth n f l) = length l.
Proof.
  revert n. induction l as [|x l IH]; intros [|n]; simpl; auto.
Qed.

Lemma nth_update_nth_same {A} (f : A -> A) (d : A) (l : list A) (n : nat) :
  (n < length l)%nat -> nth n (update_nth n f l) d = f (nth n l d).
Proof.
  revert n. induction l as [|x l IH]; intros [|n] H; simpl in *; try lia; auto.
  apply IH. lia.
Qed.

Lemma nth_update_nth_other {A} (f : A -> A) (d : A) (l : list A) (n j : nat) :
  n <> j -> nth j (update_nth n f l) d = nth j l d.
Proof.
  revert n j. induction l as [|x l IH]; intros [|n] [|j] H; simpl; auto; try lia.
Qed.

Lemma update_sector_length (i : Z) f (l : list flash_sector) :
  length (update_sector i f l) = length l.
Proof.
  unfold update_sector. destruct (i <? 0); [reflexivity | apply update_nth_length].
Qed.

Lemma sector_at_update_same (i : Z) f (l : list flash_sector) :
  0 <= i < Z.of_nat (length l) ->
  sector_at (update_sector i f l) i = f (sector_at l i).
Proof.
  intros H. unfold sector_at, update_sector.
  destruct (i <? 0) eqn:E; [lia|].
  apply nth_update_nth_same. lia.
Qed.

Lemma sector_at_update_other (i j : Z) f (l : list flash_sector) :
  i <> j -> sector_at (update_sector i f l) j = sector_at l j.
Proof.
  intros H. unfold sector_at, update_sector.
  destruct (j <? 0) eqn:Ej; [reflexivity|].
  destruct (i <? 0) eqn:Ei; [reflexivity|].
  apply nth_update_nth_other. lia.
Qed.

(** A loop that writes slot [a + i] in round [i]: afterwards the slots of
    the rounds that ran hold what their round wrote, the others are
    untouched. *)
Lemma for_count_update_length (a : Z) (F : Z -> flash_sector -> flash_sector) n :
  forall lo l,
    length (for_count n lo (fun i l => update_sector (a + i) (F i) l) l) = length l.
Proof.
  induction n as [|n IH]; intros lo l; simpl; [reflexivity|].
  rewrite IH. apply update_sector_length.
Qed.

Lemma for_count_update_at (a : Z) (F : Z -> flash_sector -> flash_sector) n :
  forall lo l j,
    0 <= j < Z.of_nat (length l) ->
    sector_at (for_count n lo (fun i l => update_sector (a + i) (F i) l) l) j =
    if (a + lo <=? j) && (j <? a + lo + Z.of_nat n)
    then F (j - a) (sector_at l j) else sector_at l j.
Proof.
  induction n as [|n IH]; intros lo l j Hj.
  - simpl. zcases.
  - simpl for_count. rewrite IH by (rewrite update_sector_length; exact Hj).
    destruct (Z.eq_dec (a + lo) j) as [He|Hne].
    + subst j. rewrite sector_at_update_same by exact Hj.
      replace (a + lo - a) with lo by lia. zcases.
    + rewrite sector_at_update_other by exact Hne. zcases.
Qed.

Lemma for_count_ext {A} (f g : Z -> A -> A) n :
  (forall i a, f i a = g i a) ->
  forall lo a, for_count n lo f a = for_count n lo g a.
Proof.
  intros H. induction n as [|n IH]; intros lo a; simpl; [reflexivity|].
  rewrite H. apply IH.
Qed.

(** ** Probe *)

Lemma malloc_sectors_length (n : Z) :
  0 <= n -> Z.of_nat (length (malloc_sectors n)) = n.
Proof.
  intros H. unfold malloc_sectors. rewrite repeat_length. lia.
Qed.

Lemma build_sectors_geometry {P} (base_address num_pages page_size : Z) (b : flash_bank P) :
  0 <= num_pages < 2 ^ 16 -> 0 < page_size <= 2048 ->
  probed_geometry page_size (build_sectors base_address num_pages page_size b).
Proof.
  intros Hn Hp. unfold probed_geometry, build_sectors; simpl.
  assert (Hlen : Z.of_nat (length (malloc_sectors num_pages)) = num_pages)
    by (apply malloc_sectors_length; lia).
  assert (Hext : forall l,
    for_range 0 num_pages
      (fun i l => update_sector i
         (fun _ => mk_flash_sector (u32 (i * page_size)) (u32 page_size) (-1) 1) l) l =
    for_count (Z.to_nat (num_pages - 0)) 0
      (fun i l => update_sector (0 + i)
         (fun _ => mk_flash_sector (u32 (i * page_size)) (u32 page_size) (-1) 1) l) l).
  { intros l. unfold for_range. apply for_count_ext. intros i a. reflexivity. }
  rewrite Hext. split; [|split].
  - symmetry. apply u32_small. nia.
  - rewrite for_count_update_length. exact Hlen.
  - intros i Hi. rewrite for_count_update_at by lia.
    replace (i - 0) with i by lia.
    rewrite !u32_small by nia. zcases.
Qed.

Lemma probed_geometry_priv {P} (page_size : Z) (p : P) (b : flash_bank P) :
  probed_geometry page_size b -> probed_geometry page_size (set_driver_priv p b).
Proof. unfold probed_geometry. simpl. auto. Qed.

Lemma u16_quot_pages (x d : Z) :
  0 <= x < 2 ^ 16 -> 0 < d -> u16 (Z.quot x d) = x / d.
Proof.
  intros Hx Hd. rewrite Z.quot_div_nonneg by lia. unfold u16. apply Z.mod_small.
  split; [apply Z.div_pos; lia|].
  apply Z.le_lt_trans with x; [|lia]. apply Z.div_le_upper_bound; nia.
Qed.

(** What a successful probe has built, by the device it found. *)
Lemma stm32x_probe_table (t : target) (b : Stm32x.bank) tr :
  let id := respond t tr (ReadU32 0xE0042000) in
  let size := respond t (after t tr (ReadU32 0xE0042000)) (ReadU16 0x1FFFF7E0) in
  let reported := if is_ok (rc size) then u16 (out size) else 0xffff in
  let b' := bank_after (Stm32x.stm32x_probe t b tr) in
  result (Stm32x.stm32x_probe t b tr) = ERROR_OK ->
  exists page_size max_kbytes,
    stm32x_family (u32 (out id)) = Some (page_size, max_kbytes) /\
    num_sectors b' =
      stm32x_bank_kbytes (u32 (out id)) max_kbytes reported (bank_base b)
      / (page_size / 1024) /\
    probed_geometry page_size b'.
Proof.
  intros id size reported b'. subst b'.
  unfold Stm32x.stm32x_probe, Stm32x.identify, bind, ret, target_read_u32,
    target_read_u16, tap.
  simpl. change (u32 3758366720) with 3758366720. change (u32 536868832) with 536868832.
  fold id.
  destruct (rc id) eqn:Hid; simpl; try discriminate.
  fold size.
  replace (if negb (is_ok (rc size)) then 65535 else u16 (out size)) with reported
    by (subst reported; destruct (is_ok (rc size)); reflexivity).
  assert (Hrep : 0 <= reported < 2 ^ 16).
  { subst reported. destruct (is_ok (rc size)); [apply u16_range | lia]. }
  unfold stm32x_family, stm32x_bank_kbytes. cbv zeta.
  set (dev := Z.land (u32 (out id)) 2047).
  change (Z.land (u32 (out id)) 0x7ff) with dev.
  clearbody dev.
  assert (Hq : forall x d, 0 <= x < 2 ^ 16 -> 0 < d -> u16 (Z.quot x d) = x / d)
    by (intros; apply u16_quot_pages; assumption).
  assert (Hk : forall m, 0 <= m < 2 ^ 16 ->
                 0 <= (if reported =? 65535 then m else reported) < 2 ^ 16)
    by (intros m Hm; destruct (reported =? 65535); lia).
  destruct (Z.eqb_spec dev 1040) as [E|E1]; [subst dev|
  destruct (Z.eqb_spec dev 1042) as [E|E2]; [subst dev|
  destruct (Z.eqb_spec dev 1044) as [E|E3]; [subst dev|
  destruct (Z.eqb_spec dev 1048) as [E|E4]; [subst dev|
  destruct (Z.eqb_spec dev 1056) as [E|E5]; [subst dev|
  destruct (Z.eqb_spec dev 1072) as [E|E6]; [subst dev|]]]]]]; simpl;
    try discriminate; intros _.
  1-5: eexists; eexists; (split; [reflexivity|]);
    (split; [apply Hq; [apply Hk; lia | reflexivity]
            | apply probed_geometry_priv, build_sectors_geometry; [apply u16_range | lia]]).
  exists 2048, 1024. split; [reflexivity|].
  destruct (bank_base b =? 134742016); simpl.
  - split; [apply Hq; [apply u16_range | reflexivity]
           | apply probed_geometry_priv, build_sectors_geometry; [apply u16_range | lia]].
  - split; [reflexivity
           | apply probed_geometry_priv, build_sectors_geometry; [apply u16_range | lia]].
Qed.

Lemma nucX1_probe_table (t : target) (b : NucX1.bank) tr :
  let id := u32 (out (respond t tr (ReadU32 0x50000000))) in
  let b' := bank_after (NucX1.nucX1_probe t b tr) in
  result (NucX1.nucX1_probe t b tr) = ERROR_OK ->
  id <> 0 /\
  num_sectors b' = (if id =? 0x00012000 then 256 else 64) /\
  probed_geometry 512 b'.
Proof.
  intros id b'. subst b'.
  unfold NucX1.nucX1_probe, bind, ret, target_read_u32, tap, get_target_state.
  simpl. change (u32 1342177280) with 1342177280.
  destruct (is_halted (state t)); simpl; try discriminate.
  destruct (rc (respond t tr (ReadU32 1342177280))) eqn:Hid; simpl;
    try discriminate.
  fold id. clearbody id.
  destruct (Z.eqb_spec id 73728) as [E|E]; simpl.
  - intros _. split; [lia|]. split; [reflexivity|].
    apply probed_geometry_priv, build_sectors_geometry; lia.
  - destruct (Z.eqb_spec id 0); simpl; try discriminate.
    intros _. split; [assumption|]. split; [reflexivity|].
    apply probed_geometry_priv, build_sectors_geometry; lia.
Qed.

(** On a known device id, once the id register could be read, the stm32x
    probe succeeds. *)
Lemma stm32x_probe_known_id (t : target) (b : Stm32x.bank) tr :
  rc (respond t tr (ReadU32 0xE0042000)) = ERROR_OK ->
  stm32x_known_id (u32 (out (respond t tr (ReadU32 0xE0042000)))) = true ->
  result (Stm32x.stm32x_probe t b tr) = ERROR_OK.
Proof.
  unfold Stm32x.stm32x_probe, Stm32x.identify, stm32x_known_id, bind, ret,
    target_read_u32, target_read_u16, tap.
  simpl. change (u32 3758366720) with 3758366720.
  intros Hrc. rewrite Hrc. simpl.
  set (id := Z.land _ 0x7ff).
  repeat (match goal with
          | |- context [if ?c =? ?d then _ else _] =>
              lazymatch c with id => destruct (c =? d) end
          end; simpl); try reflexivity; try discriminate.
  intros _. destruct (negb (bank_base b =? 134742016)); reflexivity.
Qed.

(** C10. A successful probe, of either driver, rebuilds the sector table
    for the device it has identified.  On an stm32x the device id selects a
    family, and with it the page size (1024 or 2048); the number of sectors
    is the flash size of the bank in kbytes (as reported by the chip, or
    the maximum of the family when the size cannot be read or reads 0xffff)
    divided by the kbytes of a page.  On a nucX1 the id is not 0, the page
    size is 512 and there are 256 sectors for a NUC120 and 64 otherwise.
    In each case the number of sectors times the page size is the size of
    the bank, the table holds that many sectors, sector [i] starts at
    [i * page_size] and is [page_size] long, and every sector has its
    erased state unknown ([-1]) and is marked protected ([1]). *)
Theorem probe_rebuilds_sector_table (t : target) (tr : list event) :
  (forall b : Stm32x.bank,
     let id := u32 (out (respond t tr (ReadU32 0xE0042000))) in
     let size := respond t (after t tr (ReadU32 0xE0042000)) (ReadU16 0x1FFFF7E0) in
     let reported := if is_ok (rc size) then u16 (out size) else 0xffff in
     let b' := bank_after (Stm32x.stm32x_probe t b tr) in
     result (Stm32x.stm32x_probe t b tr) = ERROR_OK ->
     exists page_size max_kbytes,
       stm32x_family id = Some (page_size, max_kbytes) /\
       num_sectors b' =
         stm32x_bank_kbytes id max_kbytes reported (bank_base b) / (page_size / 1024) /\
       probed_geometry page_size b') /\
  (forall b : NucX1.bank,
     let id := u32 (out (respond t tr (ReadU32 0x50000000))) in
     let b' := bank_after (NucX1.nucX1_probe t b tr) in
     result (NucX1.nucX1_probe t b tr) = ERROR_OK ->
     id <> 0 /\
     num_sectors b' = (if id =? 0x00012000 then 256 else 64) /\
     probed_geometry 512 b').
Proof.
  split; intros b.
  - apply stm32x_probe_table.
  - apply nucX1_probe_table.
Qed.

(** A medium-density stm32 reporting 128 kbytes gets 128 sectors of 1024
    bytes, a NUC120 gets 256 sectors of 512 bytes. *)
Lemma probe_rebuilds_sector_table_witness :
  let s := bank_after (Stm32x.stm32x_probe medium_density_target stm32x_fresh_bank []) in
  let n := bank_after (NucX1.nucX1_probe nuc120_target nucX1_fresh_bank []) in
  (num_sectors s = 128 /\ bank_size s = 131072 /\
   sector_at (sectors s) 127 = mk_flash_sector 130048 1024 (-1) 1) /\
  (num_sectors n = 256 /\ bank_size n = 131072 /\
   sector_at (sectors n) 255 = mk_flash_sector 130560 512 (-1) 1).
Proof.
  intros s n. split.
  - destruct (proj1 (probe_rebuilds_sector_table medium_density_target [])
                stm32x_fresh_bank eq_refl)
      as (page_size & max_kbytes & Hf & Hn & Hsize & _ & Hs).
    vm_compute in Hf. injection Hf as <- <-. fold s in Hn, Hsize, Hs.
    assert (Hn' : num_sectors s = 128) by (rewrite Hn; reflexivity).
    split; [exact Hn'|]. split; [rewrite <- Hsize, Hn'; reflexivity|].
    rewrite Hs by (rewrite Hn'; lia). reflexivity.
  - destruct (proj2 (probe_rebuilds_sector_table nuc120_target [])
                nucX1_fresh_bank eq_refl)
      as (_ & Hn & Hsize & _ & Hs).
    fold n in Hn, Hsize, Hs.
    assert (Hn' : num_sectors n = 256) by (rewrite Hn; reflexivity).
    split; [exact Hn'|]. split; [rewrite <- Hsize, Hn'; reflexivity|].
    rewrite Hs by (rewrite Hn'; lia). reflexivity.
Defined.

(** ** Write: alignment and the nucX1 stub *)

(** C2. On a 2-byte-aligned offset the nucX1 write routine returns
    [ERROR_OK] and has made no call on the target: the trace and the bank
    are as before, whatever the buffer and the count.  This holds for the
    routine of nucX1.c, whose body is compiled out, and for the stub of the
    tutorial version. *)
Theorem nucX1_write_block_is_a_stub
  (t : target) (b : NucX1.bank) (tr : list event) (buffer : list Z)
  (offset count : Z) :
  offset mod 2 = 0 ->
  NucX1.nucX1_write_block buffer offset count t b tr = mk_outcome ERROR_OK b tr /\
  NucX1.Tutorial.nucX1_write_block buffer offset count t b tr = mk_outcome ERROR_OK b tr.
Proof.
  intros H. unfold NucX1.nucX1_write_block, NucX1.Tutorial.nucX1_write_block.
  rewrite land_1_mod, H. simpl. split; reflexivity.
Qed.

Lemma nucX1_write_block_is_a_stub_witness :
  4 mod 2 = 0 /\
  NucX1.nucX1_write_block [1; 2; 3] 4 3 nuc120_target nucX1_fresh_bank [] =
    mk_outcome ERROR_OK nucX1_fresh_bank [] /\
  NucX1.Tutorial.nucX1_write_block [1; 2; 3] 4 3 nuc120_target nucX1_fresh_bank [] =
    mk_outcome ERROR_OK nucX1_fresh_bank [].
Proof.
  split; [reflexivity|].
  apply (nucX1_write_block_is_a_stub nuc120_target nucX1_fresh_bank [] [1; 2; 3] 4 3).
  reflexivity.
Defined.

(** On a target that is not halted the state test of [stm32x_write] comes
    before its alignment test. *)
Lemma stm32x_write_odd_offset_not_halted :
  result (Stm32x.stm32x_write [0xAA; 0xBB] 1 2 running_target stm32x_fresh_bank [])
    = Some ERROR_TARGET_NOT_HALTED /\
  result (Stm32x.stm32x_write [0xAA; 0xBB] 1 2 running_target stm32x_fresh_bank [])
    <> Some ERROR_FLASH_DST_BREAKS_ALIGNMENT.
Proof. split; [reflexivity | discriminate]. Qed.

(** C8 as stated fails on the write routine of the tutorial version of the
    nucX1 driver.  It is a stub that tests nothing: on a halted target, at
    the odd offset 1, it returns [ERROR_OK], not the alignment error. *)
Lemma tutorial_write_ignores_alignment :
  state nuc120_target = TARGET_HALTED /\ 1 mod 2 = 1 /\
  NucX1.Tutorial.nucX1_write_block [0xAA; 0xBB] 1 2 nuc120_target nuc120_bank [] =
    mk_outcome ERROR_OK nuc120_bank [] /\
  result (NucX1.Tutorial.nucX1_write_block [0xAA; 0xBB] 1 2 nuc120_target nuc120_bank [])
    <> ERROR_FLASH_DST_BREAKS_ALIGNMENT.
Proof. repeat split; try reflexivity. discriminate. Qed.

(** C8, amended.  On a halted target a write at an odd offset through
    [stm32x_write] or through the [nucX1_write_block] of nucX1.c fails with
    the alignment error, has made no call on the target and leaves the
    bank alone.  The stub of the tutorial version makes no call either, but
    returns [ERROR_OK]. *)
Theorem odd_offset_write_fails_untouched
  (t : target) (bs : Stm32x.bank) (bn : NucX1.bank) (tr : list event)
  (buffer : list Z) (offset count : Z) :
  state t = TARGET_HALTED ->
  offset mod 2 = 1 ->
  Stm32x.stm32x_write buffer offset count t bs tr =
    mk_outcome (Some ERROR_FLASH_DST_BREAKS_ALIGNMENT) bs tr /\
  NucX1.nucX1_write_block buffer offset count t bn tr =
    mk_outcome ERROR_FLASH_DST_BREAKS_ALIGNMENT bn tr /\
  NucX1.Tutorial.nucX1_write_block buffer offset count t bn tr =
    mk_outcome ERROR_OK bn tr.
Proof.
  intros Hh H.
  unfold Stm32x.stm32x_write, NucX1.nucX1_write_block, NucX1.Tutorial.nucX1_write_block.
  rewrite !land_1_mod, H.
  mstep. change (negb (1 =? 0)) with true. cbn iota.
  rewrite Hh. repeat split.
Qed.

Lemma odd_offset_write_fails_untouched_witness :
  Stm32x.stm32x_write [0xAA; 0xBB] 1 2 medium_density_target stm32x_fresh_bank [] =
    mk_outcome (Some ERROR_FLASH_DST_BREAKS_ALIGNMENT) stm32x_fresh_bank [] /\
  NucX1.nucX1_write_block [0xAA; 0xBB] 1 2 medium_density_target nucX1_fresh_bank [] =
    mk_outcome ERROR_FLASH_DST_BREAKS_ALIGNMENT nucX1_fresh_bank [] /\
  NucX1.Tutorial.nucX1_write_block [0xAA; 0xBB] 1 2 medium_density_target
    nucX1_fresh_bank [] =
    mk_outcome ERROR_OK nucX1_fresh_bank [].
Proof.
  apply (odd_offset_write_fails_untouched medium_density_target stm32x_fresh_bank
           nucX1_fresh_bank [] [0xAA; 0xBB] 1 2); reflexivity.
Defined.

(** ** Working areas *)

Lemma outstanding_after (t : target) (tr : list event) (c : call) :
  outstanding (after t tr c) = track (outstanding tr) (c, respond t tr c).
Proof. unfold outstanding, after. rewrite fold_left_app. reflexivity. Qed.

Lemma working_area_eqb_refl (a : working_area) : working_area_eqb a a = true.
Proof. unfold working_area_eqb. rewrite !Z.eqb_refl. reflexivity. Qed.

Lemma remove_area_head (a : working_area) (l : list working_area) :
  remove_area a (a :: l) = l.
Proof. simpl. rewrite working_area_eqb_refl. reflexivity. Qed.

Lemma calls_after (t : target) (tr : list event) (c : call) :
  calls (after t tr c) = calls tr ++ [c].
Proof. unfold calls, after. rewrite map_app. reflexivity. Qed.

(** ** The staging-area loop of [stm32x_write_block] *)

Lemma alloc_source_ok fuel buffer_size (t : target) (b : Stm32x.bank) tr :
  is_ok (rc (respond t tr (AllocWorkingAreaTry buffer_size))) = true ->
  Stm32x.alloc_source fuel buffer_size t b tr =
    mk_outcome
      (Some (inr (mk_working_area
                    (u32 (out (respond t tr (AllocWorkingAreaTry buffer_size))))
                    buffer_size, buffer_size)))
      b
      (after t tr (AllocWorkingAreaTry buffer_size)).
Proof.
  intros H. destruct fuel; simpl; mstep; rewrite H; reflexivity.
Qed.

Lemma alloc_source_retry fuel buffer_size (t : target) (b : Stm32x.bank) tr :
  is_ok (rc (respond t tr (AllocWorkingAreaTry buffer_size))) = false ->
  256 < buffer_size / 2 ->
  Stm32x.alloc_source (S fuel) buffer_size t b tr =
    Stm32x.alloc_source fuel (buffer_size / 2) t b
      (after t tr (AllocWorkingAreaTry buffer_size)).
Proof.
  intros H Hb. simpl. mstep. rewrite H.
  destruct (Z.leb_spec (buffer_size / 2) 256); [lia | reflexivity].
Qed.

Lemma alloc_source_give_up fuel buffer_size (t : target) (b : Stm32x.bank) tr :
  is_ok (rc (respond t tr (AllocWorkingAreaTry buffer_size))) = false ->
  buffer_size / 2 <= 256 ->
  Stm32x.alloc_source fuel buffer_size t b tr =
    let tr1 := after t tr (AllocWorkingAreaTry buffer_size) in
    mk_outcome (Some (inl ERROR_TARGET_RESOURCE_NOT_AVAILABLE)) b
      match Stm32x.write_algorithm (driver_priv b) with
      | Some a => after t tr1 (FreeWorkingArea a)
      | None => tr1
      end.
Proof.
  intros H Hb.
  destruct fuel; simpl; mstep; rewrite H;
    (destruct (Z.leb_spec (buffer_size / 2) 256); [|lia]);
    destruct (Stm32x.write_algorithm (driver_priv b)); reflexivity.
Qed.

Lemma u32_idem (x : Z) : u32 (u32 x) = u32 x.
Proof. unfold u32. apply Z.mod_mod. lia. Qed.

Lemma firstn_routine :
  firstn (Z.to_nat routine_size) Stm32x.stm32x_flash_write_code =
  Stm32x.stm32x_flash_write_code.
Proof. reflexivity. Qed.

Ltac wb_start :=
  unfold Stm32x.stm32x_write_block, Stm32x.modify_priv, Stm32x.algorithm_area;
  fold routine_size; mstep; rewrite ?firstn_routine.

Ltac wb_fields :=
  cbn [driver_priv set_driver_priv Stm32x.write_algorithm
       Stm32x.with_write_algorithm wa_address is_ok negb].

(** Every failed attempt halves the size once more; with a fuel of at
    least the size the loop ends, with the staging area on top of the
    outstanding areas or with the routine area given back. *)
Lemma alloc_source_spec fuel :
  forall buffer_size (t : target) (b : Stm32x.bank) tr,
    2 <= buffer_size <= Z.of_nat fuel ->
    let o := Stm32x.alloc_source fuel buffer_size t b tr in
    bank_after o = b /\
    ((exists source size,
        result o = Some (inr (source, size)) /\ 2 <= size /\
        outstanding (trace o) = source :: outstanding tr) \/
     (result o = Some (inl ERROR_TARGET_RESOURCE_NOT_AVAILABLE) /\
      outstanding (trace o) =
        match Stm32x.write_algorithm (driver_priv b) with
        | Some a => remove_area a (outstanding tr)
        | None => outstanding tr
        end)).
Proof.
  induction fuel as [|fuel IH]; intros buffer_size t b tr Hb; [lia|].
  destruct (is_ok (rc (respond t tr (AllocWorkingAreaTry buffer_size)))) eqn:Hok.
  - rewrite alloc_source_ok by exact Hok. cbn [bank_after result trace].
    split; [reflexivity|]. left. eexists. eexists.
    split; [reflexivity|]. split; [lia|].
    rewrite outstanding_after. cbn [track]. cbn [rc out]. rewrite Hok. reflexivity.
  - destruct (Z.leb_spec (buffer_size / 2) 256) as [Hs|Hs].
    + rewrite alloc_source_give_up by assumption.
      cbn [bank_after result trace]. cbv zeta.
      split; [reflexivity|]. right. split; [reflexivity|].
      destruct (Stm32x.write_algorithm (driver_priv b)).
      * rewrite !outstanding_after. cbn [track rc]. rewrite Hok. reflexivity.
      * rewrite !outstanding_after. cbn [track rc]. rewrite Hok. reflexivity.
    + rewrite alloc_source_retry by assumption.
      assert (Hb' : 2 <= buffer_size / 2 <= Z.of_nat fuel).
      { split; [lia|]. assert (buffer_size / 2 < buffer_size) by (apply Z.div_lt; lia). lia. }
      specialize (IH (buffer_size / 2) t b
                    (after t tr (AllocWorkingAreaTry buffer_size)) Hb').
      cbv zeta in IH. destruct IH as [IHb IH].
      split; [exact IHb|].
      rewrite outstanding_after in IH. cbn [track rc] in IH. rewrite Hok in IH.
      exact IH.
Qed.

(** The programming loop neither allocates nor frees, and leaves the bank
    alone. *)
Lemma write_chunks_keeps fuel :
  forall source buffer_size buffer address count (t : target) (b : Stm32x.bank) tr,
    let o := Stm32x.write_chunks fuel source buffer_size buffer address count t b tr in
    bank_after o = b /\ outstanding (trace o) = outstanding tr.
Proof.
  induction fuel as [|fuel IH]; intros source buffer_size buffer address count t b tr;
    cbn [Stm32x.write_chunks]; destruct (count >? 0); mstep; auto.
  set (thisrun_count := if count >? buffer_size / 2 then buffer_size / 2 else count).
  repeat match goal with
         | |- context [if negb ?c then _ else _] => destruct c; cbn [negb]; mstep
         end.
  all: try (rewrite ?outstanding_after; cbn [track]; auto; fail).
  match goal with
  | |- context [Stm32x.write_chunks fuel ?s ?bs ?bf ?a ?c ?t ?b ?tr] =>
      destruct (IH s bs bf a c t b tr) as [H1 H2]
  end.
  rewrite H1, H2, !outstanding_after. cbn [track]. auto.
Qed.

Lemma write_chunks_total fuel :
  forall source buffer_size buffer address count (t : target) (b : Stm32x.bank) tr,
    count <= Z.of_nat fuel -> 2 <= buffer_size ->
    exists retval,
      result (Stm32x.write_chunks fuel source buffer_size buffer address count t b tr)
      = Some retval.
Proof.
  induction fuel as [|fuel IH];
    intros source buffer_size buffer address count t b tr Hc Hb;
    cbn [Stm32x.write_chunks]; destruct (Z.gtb_spec count 0); mstep;
    try (eexists; reflexivity); try lia.
  set (thisrun_count := if count >? buffer_size / 2 then buffer_size / 2 else count).
  assert (Hrun : 1 <= thisrun_count).
  { unfold thisrun_count. assert (1 <= buffer_size / 2) by (apply Z.div_le_lower_bound; lia).
    destruct (count >? buffer_size / 2); lia. }
  repeat match goal with
         | |- context [if negb ?c then _ else _] => destruct c; cbn [negb]; mstep
         end;
    try (eexists; reflexivity).
  apply IH; lia.
Qed.

(** Where the routine area was obtained and the routine uploaded,
    [stm32x_write_block] returns and no working area is left behind,
    whether the staging area could be had or not and however the
    programming loop ended. *)
Lemma write_block_releases_after_upload
  (t : target) (b : Stm32x.bank) (buffer : list Z) (offset count : Z) :
  let routine := respond t [] (AllocWorkingArea routine_size) in
  is_ok (rc routine) = true ->
  is_ok (rc (respond t (after t [] (AllocWorkingArea routine_size))
               (WriteBuffer (u32 (out routine)) routine_size
                  Stm32x.stm32x_flash_write_code))) = true ->
  let o := Stm32x.stm32x_write_block buffer offset count t b [] in
  exists retval, result o = Some retval /\ outstanding (trace o) = [].
Proof.
  intros routine Ha Hu o. subst o routine.
  wb_start. rewrite Ha. wb_fields. mstep. wb_fields.
  rewrite u32_idem. rewrite Hu. mstep.
  match goal with
  | |- context [Stm32x.alloc_source ?f ?bs ?t ?b ?tr] =>
      destruct (alloc_source_spec f bs t b tr ltac:(cbn; lia)) as [Hbank Hcases];
      set (src := Stm32x.alloc_source f bs t b tr) in *
  end.
  rewrite !outstanding_after in Hcases. cbn [track rc out] in Hcases.
  change (outstanding []) with (@nil working_area) in Hcases.
  rewrite Ha in Hcases.
  cbn [driver_priv set_driver_priv Stm32x.write_algorithm
       Stm32x.with_write_algorithm] in Hcases.
  destruct Hcases as [(source & size & Hres & Hsize & Hout) | (Hres & Hout)].
  - rewrite Hres. rewrite Hbank.
    match goal with
    | |- context [Stm32x.write_chunks ?f ?s ?bs ?bf ?a ?c ?t ?b ?tr] =>
        destruct (write_chunks_total f s bs bf a c t b tr ltac:(lia) Hsize) as [r Hr];
        destruct (write_chunks_keeps f s bs bf a c t b tr) as [Hb2 Ho2];
        set (wr := Stm32x.write_chunks f s bs bf a c t b tr) in *
    end.
    rewrite Hr. mstep. exists r. split; [reflexivity|].
    rewrite !outstanding_after. cbn [track]. rewrite Ho2, Hout, Hb2.
    wb_fields.
    rewrite !remove_area_head. reflexivity.
  - rewrite Hres. mstep. eexists. split; [reflexivity|].
    rewrite Hout. apply remove_area_head.
Qed.

(** C1 at the failing input.  The routine area is obtained, the upload of
    the routine fails: [stm32x_write_block] returns the error of the
    upload at once, and the routine area (40 bytes at 0x20000000) is still
    allocated. *)
Theorem write_block_leaks_on_upload_failure :
  let o := Stm32x.stm32x_write_block [0xAA; 0xBB] 0 1
             (ram_target true true false) stm32x_fresh_bank [] in
  result o = Some ERROR_FAIL /\
  calls (trace o) =
    [AllocWorkingArea 40;
     WriteBuffer 0x20000000 40 Stm32x.stm32x_flash_write_code] /\
  outstanding (trace o) = [mk_working_area 0x20000000 40].
Proof. vm_compute. repeat split; reflexivity. Qed.

(** The same at any input: where the upload of the routine fails, the
    routine area stays allocated. *)
Lemma write_block_upload_failure
  (t : target) (b : Stm32x.bank) (buffer : list Z) (offset count : Z) :
  let routine := respond t [] (AllocWorkingArea routine_size) in
  is_ok (rc routine) = true ->
  is_ok (rc (respond t (after t [] (AllocWorkingArea routine_size))
               (WriteBuffer (u32 (out routine)) routine_size
                  Stm32x.stm32x_flash_write_code))) = false ->
  outstanding (trace (Stm32x.stm32x_write_block buffer offset count t b [])) =
    [mk_working_area (u32 (out routine)) routine_size].
Proof.
  intros routine Ha Hu. subst routine.
  wb_start. rewrite Ha. wb_fields. mstep. wb_fields.
  rewrite u32_idem. rewrite Hu. mstep.
  rewrite !outstanding_after. cbn [track rc out]. rewrite Ha. reflexivity.
Qed.

Lemma write_block_without_routine_area
  (t : target) (b : Stm32x.bank) (buffer : list Z) (offset count : Z) :
  is_ok (rc (respond t [] (AllocWorkingArea routine_size))) = false ->
  let o := Stm32x.stm32x_write_block buffer offset count t b [] in
  result o = Some ERROR_TARGET_RESOURCE_NOT_AVAILABLE /\
  calls (trace o) = [AllocWorkingArea routine_size] /\
  bank_after o = b.
Proof.
  intros Ha. wb_start. rewrite Ha. wb_fields. mstep.
  repeat split; reflexivity.
Qed.

Lemma write_block_without_staging_area
  (t : target) (b : Stm32x.bank) (buffer : list Z) (offset count : Z) :
  always_ok t is_alloc_routine ->
  always_ok t is_upload ->
  always_fails t is_alloc_try ->
  let o := Stm32x.stm32x_write_block buffer offset count t b [] in
  let area := mk_working_area
                (u32 (out (respond t [] (AllocWorkingArea routine_size))))
                routine_size in
  result o = Some ERROR_TARGET_RESOURCE_NOT_AVAILABLE /\
  calls (trace o) =
    [AllocWorkingArea routine_size;
     WriteBuffer (wa_address area) routine_size Stm32x.stm32x_flash_write_code;
     AllocWorkingAreaTry 16384; AllocWorkingAreaTry 8192;
     AllocWorkingAreaTry 4096; AllocWorkingAreaTry 2048;
     AllocWorkingAreaTry 1024; AllocWorkingAreaTry 512;
     FreeWorkingArea area] /\
  outstanding (trace o) = [].
Proof.
  intros Ha Hu Ht. cbv zeta.
  wb_start.
  rewrite (Ha _ (AllocWorkingArea _) eq_refl). wb_fields. mstep. wb_fields.
  rewrite (Hu _ (WriteBuffer _ _ _) eq_refl). cbn [is_ok]. mstep.
  change (Z.to_nat 16384) with (S (S (S (S (S (S (Z.to_nat 16378))))))).
  do 5 (rewrite alloc_source_retry
          by (first [apply Ht; reflexivity | reflexivity])).
  rewrite alloc_source_give_up by (first [apply Ht; reflexivity | discriminate]).
  cbv zeta. wb_fields. cbn [result trace]. mstep.
  split; [reflexivity|]. split.
  - rewrite !calls_after. cbn [calls map app]. rewrite u32_idem. reflexivity.
  - rewrite !outstanding_after. cbn [track rc out outstanding fold_left].
    rewrite !(Ht _ (AllocWorkingAreaTry _) eq_refl).
    rewrite (Ha _ (AllocWorkingArea _) eq_refl). cbn [is_ok].
    apply remove_area_head.
Qed.

(** C7. With an allocator that always fails, [stm32x_write_block] returns
    [ERROR_TARGET_RESOURCE_NOT_AVAILABLE] after the one failed allocation:
    nothing has been uploaded and the bank is as before.  With the routine
    area obtained (and the routine uploaded) but every staging allocation
    refused, the sizes 16384, 8192, 4096, 2048, 1024 and 512 are tried; the
    next halving reaches 256, the routine area is freed and the same error
    is returned, with no working area left allocated. *)
Theorem write_block_resource_unavailable
  (t : target) (b : Stm32x.bank) (buffer : list Z) (offset count : Z) :
  let o := Stm32x.stm32x_write_block buffer offset count t b [] in
  let area := mk_working_area
                (u32 (out (respond t [] (AllocWorkingArea routine_size))))
                routine_size in
  (always_fails t is_alloc ->
   result o = Some ERROR_TARGET_RESOURCE_NOT_AVAILABLE /\
   calls (trace o) = [AllocWorkingArea routine_size] /\
   existsb is_upload (calls (trace o)) = false /\
   bank_after o = b) /\
  (always_ok t is_alloc_routine -> always_ok t is_upload ->
   always_fails t is_alloc_try ->
   result o = Some ERROR_TARGET_RESOURCE_NOT_AVAILABLE /\
   calls (trace o) =
     [AllocWorkingArea routine_size;
      WriteBuffer (wa_address area) routine_size Stm32x.stm32x_flash_write_code;
      AllocWorkingAreaTry 16384; AllocWorkingAreaTry 8192;
      AllocWorkingAreaTry 4096; AllocWorkingAreaTry 2048;
      AllocWorkingAreaTry 1024; AllocWorkingAreaTry 512;
      FreeWorkingArea area] /\
   outstanding (trace o) = []).
Proof.
  intros o area. split.
  - intros Hf.
    destruct (write_block_without_routine_area t b buffer offset count
                (Hf [] (AllocWorkingArea routine_size) eq_refl))
      as (Hr & Hc & Hb).
    fold o in Hr, Hc, Hb. rewrite Hc. repeat split; assumption.
  - intros Ha Hu Ht.
    exact (write_block_without_staging_area t b buffer offset count Ha Hu Ht).
Qed.

Lemma write_block_resource_unavailable_witness :
  (let o := Stm32x.stm32x_write_block [0xAA; 0xBB] 0 1
              (ram_target false false true) stm32x_fresh_bank [] in
   result o = Some ERROR_TARGET_RESOURCE_NOT_AVAILABLE /\
   calls (trace o) = [AllocWorkingArea routine_size] /\
   existsb is_upload (calls (trace o)) = false /\
   bank_after o = stm32x_fresh_bank) /\
  (let o := Stm32x.stm32x_write_block [0xAA; 0xBB] 0 1
              (ram_target true false true) stm32x_fresh_bank [] in
   result o = Some ERROR_TARGET_RESOURCE_NOT_AVAILABLE /\
   outstanding (trace o) = []).
Proof.
  split.
  - apply (write_block_resource_unavailable (ram_target false false true)
             stm32x_fresh_bank [0xAA; 0xBB] 0 1).
    intros h c Hc. destruct c; try discriminate; reflexivity.
  - destruct (proj2 (write_block_resource_unavailable (ram_target true false true)
                       stm32x_fresh_bank [0xAA; 0xBB] 0 1))
      as (Hr & _ & Ho).
    + intros h c Hc. destruct c; try discriminate; reflexivity.
    + intros h c Hc. destruct c; try discriminate; reflexivity.
    + intros h c Hc. destruct c; try discriminate; reflexivity.
    + split; assumption.
Defined.

(** ** The monad, one operation at a time *)

Lemma guard_ok_run {S} (m k : M S error_code) (t : target) (b : S) tr :
  guard_ok m k t b tr =
  if is_ok (result (m t b tr))
  then k t (bank_after (m t b tr)) (trace (m t b tr))
  else mk_outcome (result (m t b tr)) (bank_after (m t b tr)) (trace (m t b tr)).
Proof. unfold guard_ok, bind, ret. destruct (is_ok (result (m t b tr))); reflexivity. Qed.

Lemma write_u32_run {S} (a v : Z) (t : target) (b : S) tr :
  target_write_u32 a v t b tr =
  mk_outcome (rc (respond t tr (WriteU32 (u32 a) (u32 v)))) b
    (after t tr (WriteU32 (u32 a) (u32 v))).
Proof. reflexivity. Qed.

(** A register write that the target accepts, then the rest. *)
Lemma guard_write_ok {S} (a v : Z) (k : M S error_code) (t : target) (b : S) tr :
  always_ok t is_write_u32 ->
  guard_ok (target_write_u32 a v) k t b tr =
  k t b (after t tr (WriteU32 (u32 a) (u32 v))).
Proof.
  intros Hw. rewrite guard_ok_run, write_u32_run. cbn [result bank_after trace].
  rewrite (Hw _ (WriteU32 _ _) eq_refl). reflexivity.
Qed.

Lemma bind_get_bank {S A} (f : S -> M S A) (t : target) (b : S) tr :
  bind get_bank f t b tr = f b t b tr.
Proof. reflexivity. Qed.

(** ** Counting calls *)

Lemma count_calls_after class (t : target) tr (c : call) :
  count_calls class (after t tr c) =
  (count_calls class tr + if class c then 1 else 0)%nat.
Proof.
  unfold count_calls. rewrite calls_after, filter_app, length_app. simpl.
  destruct (class c); reflexivity.
Qed.

Lemma reg_eqb (a c off : Z) :
  0 <= a < 2 ^ 32 -> 0 <= c < 2 ^ 32 ->
  (u32 (a + off) =? u32 (c + off)) = (a =? c).
Proof.
  intros Ha Hc. destruct (Z.eqb_spec a c) as [->|Hne].
  - apply Z.eqb_refl.
  - apply Z.eqb_neq. intros H. apply Hne. revert H. unfold u32.
    intros H. Z.to_euclidean_division_equations. lia.
Qed.

Ltac reg_range := vm_compute; split; [discriminate | reflexivity].

Lemma is_address_write_reg (off r v : Z) :
  0 <= r < 2 ^ 32 ->
  is_address_write off (WriteU32 (u32 (r + off)) v) = (r =? Stm32x.STM32_FLASH_AR).
Proof.
  intros Hr. unfold is_address_write. apply reg_eqb; [exact Hr | reg_range].
Qed.

Lemma is_lock_write_reg (off r v : Z) :
  0 <= r < 2 ^ 32 ->
  is_lock_write off (WriteU32 (u32 (r + off)) v) =
  (r =? Stm32x.STM32_FLASH_CR) && (v =? Stm32x.FLASH_LOCK).
Proof.
  intros Hr. unfold is_lock_write. rewrite reg_eqb; [reflexivity | exact Hr | reg_range].
Qed.

Lemma is_page_erase_write_reg (off r v : Z) :
  0 <= r < 2 ^ 32 ->
  is_page_erase_write off (WriteU32 (u32 (r + off)) v) =
  (r =? Stm32x.STM32_FLASH_CR) && Z.testbit v 1.
Proof.
  intros Hr. unfold is_page_erase_write.
  rewrite reg_eqb; [reflexivity | exact Hr | reg_range].
Qed.

(** ** Waiting for the flash *)

Section WaitBusy.
Variable class : call -> bool.
Hypothesis class_read : forall a, class (ReadU32 a) = false.
Hypothesis class_sleep : forall ms, class (AliveSleep ms) = false.

(** The polling loop reads and sleeps, and does nothing else. *)
Lemma wait_busy_loop_quiet n :
  forall (t : target) (b : Stm32x.bank) tr,
    let o := Stm32x.wait_busy_loop n t b tr in
    bank_after o = b /\ count_calls class (trace o) = count_calls class tr.
Proof.
  induction n as [|n IH]; intros t b tr; cbn [Stm32x.wait_busy_loop];
    unfold Stm32x.stm32x_get_flash_status; mstep.
  - repeat match goal with
           | |- context [if ?c then _ else _] => destruct c; mstep
           end;
      rewrite count_calls_after, class_read, Nat.add_0_r; auto.
  - repeat match goal with
           | |- context [if ?c then _ else _] => destruct c; mstep
           end.
    1,2: rewrite count_calls_after, class_read, Nat.add_0_r; auto.
    match goal with
    | |- context [Stm32x.wait_busy_loop n ?t ?b ?tr] =>
        destruct (IH t b tr) as [H1 H2]
    end.
    rewrite H1, H2. rewrite !count_calls_after.
    rewrite class_read, class_sleep, !Nat.add_0_r. auto.
Qed.
End WaitBusy.

(** A poll that only ever sees the busy bit gives up with [ERROR_FAIL]. *)
Lemma wait_busy_loop_stuck (t : target) (off : Z) (written : nat) n :
  (forall h, count_calls (is_address_write off) h = written ->
             rc (respond t h (status_read off)) = ERROR_OK /\
             flash_busy (u32 (out (respond t h (status_read off))))) ->
  forall (b : Stm32x.bank) tr,
    Stm32x.register_offset (driver_priv b) = off ->
    count_calls (is_address_write off) tr = written ->
    result (Stm32x.wait_busy_loop n t b tr) = inl ERROR_FAIL.
Proof.
  intros Hstuck. induction n as [|n IH]; intros b tr Hoff Htr;
    cbn [Stm32x.wait_busy_loop]; unfold Stm32x.stm32x_get_flash_status; mstep;
    unfold Stm32x.stm32x_get_flash_reg; rewrite Hoff;
    fold (status_read off);
    destruct (Hstuck tr Htr) as [Hrc Hbusy]; rewrite Hrc; cbn [is_ok negb];
    unfold flash_busy in Hbusy;
    (destruct (Z.eqb_spec (Z.land (u32 (out (respond t tr (status_read off))))
                             Stm32x.FLASH_BSY) 0);
       [contradiction|]); mstep.
  - reflexivity.
  - apply IH; [exact Hoff|].
    rewrite !count_calls_after. cbn [is_address_write status_read]. lia.
Qed.

Lemma wait_status_busy_stuck (t : target) (off : Z) (written : nat) timeout
  (class : call -> bool) :
  (forall a, class (ReadU32 a) = false) ->
  (forall ms, class (AliveSleep ms) = false) ->
  (forall h, count_calls (is_address_write off) h = written ->
             rc (respond t h (status_read off)) = ERROR_OK /\
             flash_busy (u32 (out (respond t h (status_read off))))) ->
  forall (b : Stm32x.bank) tr,
    Stm32x.register_offset (driver_priv b) = off ->
    count_calls (is_address_write off) tr = written ->
    let o := Stm32x.stm32x_wait_status_busy timeout t b tr in
    result o = ERROR_FAIL /\ bank_after o = b /\
    count_calls class (trace o) = count_calls class tr.
Proof.
  intros Hr Hs Hstuck b tr Hoff Htr.
  unfold Stm32x.stm32x_wait_status_busy. mstep.
  rewrite (wait_busy_loop_stuck t off written _ Hstuck b tr Hoff Htr).
  mstep.
  destruct (wait_busy_loop_quiet class Hr Hs (Z.to_nat timeout) t b tr) as [H1 H2].
  auto.
Qed.

Lemma budget_poll_counts (off : Z) n :
  length (filter is_read_u32 (budget_poll off n)) = S n /\
  length (filter is_sleep (budget_poll off n)) = n.
Proof.
  induction n as [|n [IH1 IH2]]; [split; reflexivity|].
  cbn [budget_poll filter is_read_u32 is_sleep status_read length].
  rewrite IH1, IH2. split; reflexivity.
Qed.

(** A poll that only ever sees the busy bit spends its whole budget:
    [n + 1] reads of the status register with a sleep between any two,
    then [ERROR_FAIL]. *)
Lemma wait_busy_loop_stuck_run (t : target) (off : Z) (written : nat) n :
  (forall h, count_calls (is_address_write off) h = written ->
             rc (respond t h (status_read off)) = ERROR_OK /\
             flash_busy (u32 (out (respond t h (status_read off))))) ->
  forall (b : Stm32x.bank) tr,
    Stm32x.register_offset (driver_priv b) = off ->
    count_calls (is_address_write off) tr = written ->
    exists tr',
      Stm32x.wait_busy_loop n t b tr = mk_outcome (inl ERROR_FAIL) b tr' /\
      calls tr' = calls tr ++ budget_poll off n.
Proof.
  intros Hstuck. induction n as [|n IH]; intros b tr Hoff Htr;
    cbn [Stm32x.wait_busy_loop]; unfold Stm32x.stm32x_get_flash_status; mstep;
    unfold Stm32x.stm32x_get_flash_reg; rewrite Hoff;
    fold (status_read off);
    destruct (Hstuck tr Htr) as [Hrc Hbusy]; rewrite Hrc; cbn [is_ok negb];
    unfold flash_busy in Hbusy;
    (destruct (Z.eqb_spec (Z.land (u32 (out (respond t tr (status_read off))))
                             Stm32x.FLASH_BSY) 0);
       [contradiction|]); mstep.
  - eexists. split; [reflexivity|]. apply calls_after.
  - match goal with
    | |- context [Stm32x.wait_busy_loop n t b ?tr0] =>
        destruct (IH b tr0 Hoff) as (tr' & He & Hc)
    end.
    { rewrite !count_calls_after. cbn [is_address_write status_read]. lia. }
    exists tr'. split; [exact He|].
    rewrite Hc, !calls_after, <- !app_assoc. reflexivity.
Qed.

Lemma wait_status_busy_stuck_run (t : target) (off : Z) (written : nat) timeout :
  (forall h, count_calls (is_address_write off) h = written ->
             rc (respond t h (status_read off)) = ERROR_OK /\
             flash_busy (u32 (out (respond t h (status_read off))))) ->
  forall (b : Stm32x.bank) tr,
    Stm32x.register_offset (driver_priv b) = off ->
    count_calls (is_address_write off) tr = written ->
    exists tr',
      Stm32x.stm32x_wait_status_busy timeout t b tr = mk_outcome ERROR_FAIL b tr' /\
      calls tr' = calls tr ++ budget_poll off (Z.to_nat timeout).
Proof.
  intros Hstuck b tr Hoff Htr.
  destruct (wait_busy_loop_stuck_run t off written (Z.to_nat timeout) Hstuck b tr Hoff Htr)
    as (tr' & He & Hc).
  unfold Stm32x.stm32x_wait_status_busy. unfold bind at 1. rewrite He.
  cbn [result bank_after trace]. exists tr'. split; [reflexivity | exact Hc].
Qed.

(** A poll that finds the flash idle at once returns [ERROR_OK] after that
    one read. *)
Lemma wait_status_busy_idle (t : target) timeout (b : Stm32x.bank) tr :
  let c := status_read (Stm32x.register_offset (driver_priv b)) in
  rc (respond t tr c) = ERROR_OK ->
  flash_idle (u32 (out (respond t tr c))) ->
  Stm32x.stm32x_wait_status_busy timeout t b tr =
    mk_outcome ERROR_OK b (after t tr c).
Proof.
  intros c Hrc (Hb & Hw & Hp). subst c.
  unfold Stm32x.stm32x_wait_status_busy.
  set (c := status_read (Stm32x.register_offset (driver_priv b))) in *.
  assert (Hloop : Stm32x.wait_busy_loop (Z.to_nat timeout) t b tr =
                  mk_outcome (inr (u32 (out (respond t tr c)))) b (after t tr c)).
  { destruct (Z.to_nat timeout); cbn [Stm32x.wait_busy_loop];
      unfold Stm32x.stm32x_get_flash_status; mstep;
      unfold Stm32x.stm32x_get_flash_reg;
      fold (status_read (Stm32x.register_offset (driver_priv b))); fold c;
      rewrite Hrc; cbn [is_ok negb]; rewrite Hb; reflexivity. }
  unfold bind at 1. rewrite Hloop. cbn [result bank_after trace].
  rewrite Hw, Hp.
  assert (Hl : Z.land (u32 (out (respond t tr c)))
                 (Z.lor Stm32x.FLASH_WRPRTERR Stm32x.FLASH_PGERR) = 0).
  { rewrite Z.land_lor_distr_r, Hw, Hp. reflexivity. }
  rewrite Hl. reflexivity.
Qed.

(** ** Erase *)

(** The three register writes that start the erase of a sector: one of
    them writes the address register, none is the lock. *)
Lemma erase_start_counts (t : target) (off : Z) (b : Stm32x.bank) (a : Z) tr :
  Stm32x.register_offset (driver_priv b) = off ->
  let tr3 :=
    after t
      (after t
         (after t tr
            (WriteU32 (u32 (Stm32x.stm32x_get_flash_reg b Stm32x.STM32_FLASH_CR))
               (u32 Stm32x.FLASH_PER)))
         (WriteU32 (u32 (Stm32x.stm32x_get_flash_reg b Stm32x.STM32_FLASH_AR)) (u32 a)))
      (WriteU32 (u32 (Stm32x.stm32x_get_flash_reg b Stm32x.STM32_FLASH_CR))
         (u32 (Z.lor Stm32x.FLASH_PER Stm32x.FLASH_STRT))) in
  count_calls (is_address_write off) tr3 = S (count_calls (is_address_write off) tr) /\
  count_calls (is_lock_write off) tr3 = count_calls (is_lock_write off) tr.
Proof.
  intros Hoff tr3. subst tr3. rewrite !count_calls_after.
  unfold Stm32x.stm32x_get_flash_reg. rewrite Hoff.
  rewrite !is_address_write_reg, !is_lock_write_reg by reg_range.
  change (Stm32x.STM32_FLASH_CR =? Stm32x.STM32_FLASH_AR) with false.
  change (Stm32x.STM32_FLASH_AR =? Stm32x.STM32_FLASH_AR) with true.
  change (Stm32x.STM32_FLASH_AR =? Stm32x.STM32_FLASH_CR) with false.
  change (u32 Stm32x.FLASH_PER =? Stm32x.FLASH_LOCK) with false.
  change (u32 (Z.lor Stm32x.FLASH_PER Stm32x.FLASH_STRT) =? Stm32x.FLASH_LOCK) with false.
  rewrite !andb_false_r. cbn [andb]. lia.
Qed.

Lemma sector_at_outside (l : list flash_sector) (j : Z) :
  ~ (0 <= j < Z.of_nat (length l)) -> sector_at l j = blank_sector.
Proof.
  intros H. unfold sector_at. destruct (Z.ltb_spec j 0); [reflexivity|].
  apply nth_overflow. lia.
Qed.

(** The sectors a run of successful erases has marked. *)
Lemma erased_run_at d (i : Z) (l : list flash_sector) (j : Z) :
  sector_at (for_count d i (fun j l => update_sector j (with_is_erased 1) l) l) j =
  if (i <=? j) && (j <? i + Z.of_nat d) && (0 <=? j) && (j <? Z.of_nat (length l))
  then with_is_erased 1 (sector_at l j) else sector_at l j.
Proof.
  rewrite (for_count_ext _ (fun j l => update_sector (0 + j) (with_is_erased 1) l))
    by reflexivity.
  destruct (Z.leb_spec 0 j) as [H0|H0]; destruct (Z.ltb_spec j (Z.of_nat (length l))) as [H1|H1].
  - rewrite for_count_update_at by lia. rewrite !andb_true_r. reflexivity.
  - rewrite !andb_false_r.
    rewrite !sector_at_outside; [reflexivity | lia |].
    rewrite for_count_update_length. lia.
  - rewrite andb_false_r, andb_false_l.
    rewrite !sector_at_outside; [reflexivity | lia |].
    rewrite for_count_update_length. lia.
  - lia.
Qed.

(** On a halted target that accepts the unlock, an erase that is not of
    the whole bank is the per-sector loop, then the lock. *)
Lemma stm32x_erase_per_sector (t : target) (b : Stm32x.bank) (first last : Z) tr :
  state t = TARGET_HALTED ->
  ~ (first = 0 /\ last = num_sectors b - 1) ->
  always_ok t is_write_u32 ->
  Stm32x.stm32x_erase first last t b tr =
  guard_ok (Stm32x.erase_sectors (Z.to_nat (last - first + 1)) first)
    (guard_ok
       (target_write_u32 (Stm32x.stm32x_get_flash_reg b Stm32x.STM32_FLASH_CR)
          Stm32x.FLASH_LOCK)
       (ret ERROR_OK))
    t b
    (after t
       (after t tr
          (WriteU32 (u32 (Stm32x.stm32x_get_flash_reg b Stm32x.STM32_FLASH_KEYR))
             (u32 Stm32x.KEY1)))
       (WriteU32 (u32 (Stm32x.stm32x_get_flash_reg b Stm32x.STM32_FLASH_KEYR))
          (u32 Stm32x.KEY2))).
Proof.
  intros Hh Hpart Hw.
  assert (Hsel : (first =? 0) && (last =? num_sectors b - 1) = false).
  { destruct (Z.eqb_spec first 0); destruct (Z.eqb_spec last (num_sectors b - 1));
      try reflexivity. exfalso. apply Hpart. auto. }
  unfold Stm32x.stm32x_erase.
  unfold bind at 1, get_target_state. cbn [result bank_after trace].
  rewrite Hh. cbn [is_halted negb]. rewrite bind_get_bank. cbv beta.
  rewrite Hsel. rewrite !guard_write_ok by exact Hw. reflexivity.
Qed.

(** Whatever it finds, the wait for the flash makes no call of a class
    that holds neither reads, nor sleeps, nor the write that clears the
    error bits of the status register. *)
Lemma wait_status_busy_quiet (class : call -> bool) timeout
  (t : target) (b : Stm32x.bank) tr :
  (forall a, class (ReadU32 a) = false) ->
  (forall ms, class (AliveSleep ms) = false) ->
  class (WriteU32 (u32 (Stm32x.stm32x_get_flash_reg b Stm32x.STM32_FLASH_SR))
           (u32 (Z.lor Stm32x.FLASH_WRPRTERR Stm32x.FLASH_PGERR))) = false ->
  let o := Stm32x.stm32x_wait_status_busy timeout t b tr in
  bank_after o = b /\ count_calls class (trace o) = count_calls class tr.
Proof.
  intros Hr Hs Hc.
  destruct (wait_busy_loop_quiet class Hr Hs (Z.to_nat timeout) t b tr) as [H1 H2].
  unfold Stm32x.stm32x_wait_status_busy. mstep.
  destruct (result (Stm32x.wait_busy_loop (Z.to_nat timeout) t b tr)) as [e|status];
    mstep; [auto|].
  destruct (negb (Z.land status (Z.lor Stm32x.FLASH_WRPRTERR Stm32x.FLASH_PGERR) =? 0));
    mstep; rewrite ?count_calls_after, H1, ?Hc, ?Nat.add_0_r; auto.
Qed.

Lemma mass_erase_quiet (class : call -> bool) (t : target) (b : Stm32x.bank) tr :
  (forall a, class (ReadU32 a) = false) ->
  (forall ms, class (AliveSleep ms) = false) ->
  (forall r v, class (WriteU32 (u32 (Stm32x.stm32x_get_flash_reg b r)) (u32 v)) = true ->
               In (r, v) [(Stm32x.STM32_FLASH_KEYR, Stm32x.KEY1);
                          (Stm32x.STM32_FLASH_KEYR, Stm32x.KEY2);
                          (Stm32x.STM32_FLASH_CR, Stm32x.FLASH_MER);
                          (Stm32x.STM32_FLASH_CR, Z.lor Stm32x.FLASH_MER Stm32x.FLASH_STRT);
                          (Stm32x.STM32_FLASH_CR, Stm32x.FLASH_LOCK);
                          (Stm32x.STM32_FLASH_SR,
                           Z.lor Stm32x.FLASH_WRPRTERR Stm32x.FLASH_PGERR)] ->
               False) ->
  exists e tr',
    Stm32x.stm32x_mass_erase t b tr = mk_outcome e b tr' /\
    count_calls class tr' = count_calls class tr.
Proof.
  intros Hr Hs Hc.
  assert (Hc' : forall r v,
             In (r, v) [(Stm32x.STM32_FLASH_KEYR, Stm32x.KEY1);
                        (Stm32x.STM32_FLASH_KEYR, Stm32x.KEY2);
                        (Stm32x.STM32_FLASH_CR, Stm32x.FLASH_MER);
                        (Stm32x.STM32_FLASH_CR, Z.lor Stm32x.FLASH_MER Stm32x.FLASH_STRT);
                        (Stm32x.STM32_FLASH_CR, Stm32x.FLASH_LOCK);
                        (Stm32x.STM32_FLASH_SR,
                         Z.lor Stm32x.FLASH_WRPRTERR Stm32x.FLASH_PGERR)] ->
             class (WriteU32 (u32 (Stm32x.stm32x_get_flash_reg b r)) (u32 v)) = false).
  { intros r v Hin.
    destruct (class (WriteU32 (u32 (Stm32x.stm32x_get_flash_reg b r)) (u32 v))) eqn:E;
      [exfalso; eapply Hc; eassumption | reflexivity]. }
  unfold Stm32x.stm32x_mass_erase.
  unfold bind at 1, get_target_state. cbn [result bank_after trace].
  destruct (negb (is_halted (state t))); [eexists; eexists; split; reflexivity|].
  rewrite bind_get_bank. cbv beta.
  do 4 (rewrite guard_ok_run, write_u32_run; cbn [result bank_after trace];
        match goal with
        | |- context [if is_ok ?c then _ else _] => destruct (is_ok c)
        end;
        [| eexists; eexists; split; [reflexivity|];
           rewrite ?count_calls_after; rewrite ?Hc' by (cbn; tauto); lia]).
  rewrite guard_ok_run.
  match goal with
  | |- context [Stm32x.stm32x_wait_status_busy ?to ?t ?b ?tr] =>
      destruct (wait_status_busy_quiet class to t b tr Hr Hs
                  ltac:(apply Hc'; cbn; tauto)) as [H1 H2];
      set (w := Stm32x.stm32x_wait_status_busy to t b tr) in *
  end.
  rewrite H1.
  destruct (is_ok (result w));
    [| eexists; eexists; split; [reflexivity|];
       rewrite H2, ?count_calls_after; rewrite ?Hc' by (cbn; tauto); lia].
  rewrite guard_ok_run, write_u32_run; cbn [result bank_after trace].
  match goal with
  | |- context [if is_ok ?c then _ else _] => destruct (is_ok c)
  end;
    eexists; eexists; (split; [reflexivity|]);
    rewrite ?count_calls_after, H2, ?count_calls_after; rewrite ?Hc' by (cbn; tauto); lia.
Qed.

(** C6, amended to the stm32x driver.  On a halted target, an erase of
    the whole bank ([first = 0] and [last = num_sectors - 1]) is the
    mass erase: same result, same calls, same bank.  No sector address is
    written, no command with the page-erase bit is written, and no sector
    flag changes. *)
Theorem stm32x_erase_whole_bank_is_mass_erase
  (t : target) (b : Stm32x.bank) (first last : Z) :
  let off := Stm32x.register_offset (driver_priv b) in
  state t = TARGET_HALTED ->
  first = 0 -> last = num_sectors b - 1 ->
  let o := Stm32x.stm32x_erase first last t b [] in
  o = Stm32x.stm32x_mass_erase t b [] /\
  bank_after o = b /\
  count_calls (is_address_write off) (trace o) = 0%nat /\
  count_calls (is_page_erase_write off) (trace o) = 0%nat.
Proof.
  intros off Hh Hf Hl o.
  assert (Ho : o = Stm32x.stm32x_mass_erase t b []).
  { subst o. unfold Stm32x.stm32x_erase.
    unfold bind at 1, get_target_state. cbn [result bank_after trace].
    rewrite Hh. cbn [is_halted negb]. rewrite bind_get_bank. cbv beta.
    rewrite Hf, Hl, !Z.eqb_refl. reflexivity. }
  split; [exact Ho|]. rewrite Ho.
  destruct (mass_erase_quiet (is_address_write off) t b [])
    as (e1 & tr1 & He1 & Hc1); [reflexivity | reflexivity | |].
  { intros r v H. unfold Stm32x.stm32x_get_flash_reg in H. fold off in H.
    intros Hin. cbn [In] in Hin.
    repeat (destruct Hin as [Hin|Hin];
            [inversion Hin; subst r v;
             rewrite is_address_write_reg in H by reg_range; discriminate|]).
    exact Hin. }
  destruct (mass_erase_quiet (is_page_erase_write off) t b [])
    as (e2 & tr2 & He2 & Hc2); [reflexivity | reflexivity | |].
  { intros r v H. unfold Stm32x.stm32x_get_flash_reg in H. fold off in H.
    intros Hin. cbn [In] in Hin.
    repeat (destruct Hin as [Hin|Hin];
            [inversion Hin; subst r v;
             rewrite is_page_erase_write_reg in H by reg_range; discriminate|]).
    exact Hin. }
  rewrite He1 in *. inversion He2; subst e2 tr2.
  cbn [result bank_after trace].
  split; [reflexivity|]. split; [exact Hc1 | exact Hc2].
Qed.


(** The erase of a sector whose poll never sees the busy bit clear: the
    three writes that start it, then the poll until its budget is spent,
    and [ERROR_FAIL]; the sector is not marked. *)
Lemma erase_sector_stuck (t : target) (b : Stm32x.bank) n (i : Z) tr :
  let off := Stm32x.register_offset (driver_priv b) in
  always_ok t is_write_u32 ->
  (forall h, count_calls (is_address_write off) h
             = S (count_calls (is_address_write off) tr) ->
             rc (respond t h (status_read off)) = ERROR_OK /\
             flash_busy (u32 (out (respond t h (status_read off))))) ->
  exists tr',
    Stm32x.erase_sectors (S n) i t b tr = mk_outcome ERROR_FAIL b tr' /\
    count_calls (is_address_write off) tr' = S (count_calls (is_address_write off) tr) /\
    count_calls (is_lock_write off) tr' = count_calls (is_lock_write off) tr /\
    calls tr' =
      calls tr ++
      sector_erase_start off (bank_base b + sector_offset (sector_at (sectors b) i)) ++
      budget_poll off 100.
Proof.
  intros off Hw Hstuck. cbn [Stm32x.erase_sectors].
  rewrite bind_get_bank. rewrite !guard_write_ok by exact Hw.
  rewrite guard_ok_run.
  match goal with
  | |- context [Stm32x.stm32x_wait_status_busy ?to ?t ?b ?tr0] =>
      destruct (erase_start_counts t off b
                  (bank_base b + sector_offset (sector_at (sectors b) i)) tr eq_refl)
        as [Hc3 Hl3];
      cbv zeta in Hc3, Hl3;
      set (tr3 := tr0) in *
  end.
  destruct (wait_status_busy_stuck t off _ 100 (is_address_write off)
              ltac:(reflexivity) ltac:(reflexivity) Hstuck b tr3 eq_refl Hc3)
    as (_ & _ & Hc).
  destruct (wait_status_busy_stuck t off _ 100 (is_lock_write off)
              ltac:(reflexivity) ltac:(reflexivity) Hstuck b tr3 eq_refl Hc3)
    as (_ & _ & Hc').
  destruct (wait_status_busy_stuck_run t off _ 100 Hstuck b tr3 eq_refl Hc3)
    as (tr' & He & Hcalls).
  rewrite He in *. cbn [result bank_after trace is_ok] in *.
  exists tr'. split; [reflexivity|].
  split; [rewrite Hc, Hc3; reflexivity|]. split; [rewrite Hc', Hl3; reflexivity|].
  rewrite Hcalls. subst tr3. rewrite !calls_after, <- !app_assoc.
  reflexivity.
Qed.

Lemma count_calls_calls (class : call -> bool) (tr tr0 : list event) (cs : list call) :
  calls tr = calls tr0 ++ cs ->
  count_calls class tr = (count_calls class tr0 + length (filter class cs))%nat.
Proof.
  intros H. unfold count_calls. rewrite H, filter_app. apply length_app.
Qed.

(** Where the loop over [d] sectors returns [ERROR_OK], each of them had
    its address written and is marked erased; the lock was not written. *)
Lemma erase_sectors_done (t : target) :
  always_ok t is_write_u32 ->
  forall d i (b : Stm32x.bank) tr,
    let off := Stm32x.register_offset (driver_priv b) in
    let o := Stm32x.erase_sectors d i t b tr in
    result o = ERROR_OK ->
    bank_after o =
      set_sectors (for_count d i (fun j l => update_sector j (with_is_erased 1) l)
                     (sectors b)) b /\
    count_calls (is_address_write off) (trace o) =
      (count_calls (is_address_write off) tr + d)%nat /\
    count_calls (is_lock_write off) (trace o) = count_calls (is_lock_write off) tr.
Proof.
  intros Hw. induction d as [|d IH]; intros i b tr off o; subst o.
  - intros _. cbn [Stm32x.erase_sectors for_count]. unfold ret.
    cbn [bank_after trace]. split; [destruct b; reflexivity|]. split; [lia | reflexivity].
  - cbn [Stm32x.erase_sectors].
    rewrite bind_get_bank. rewrite !guard_write_ok by exact Hw.
    rewrite guard_ok_run.
    match goal with
    | |- context [Stm32x.stm32x_wait_status_busy ?to ?t ?b ?tr0] =>
        destruct (erase_start_counts t off b
                    (bank_base b + sector_offset (sector_at (sectors b) i)) tr eq_refl)
          as [Hc3 Hl3];
        cbv zeta in Hc3, Hl3;
        set (tr3 := tr0) in *;
        destruct (wait_status_busy_quiet (is_address_write off) to t b tr3)
          as [Hb Hc];
        [reflexivity | reflexivity
         | unfold Stm32x.stm32x_get_flash_reg; fold off;
           rewrite is_address_write_reg by reg_range; reflexivity |];
        destruct (wait_status_busy_quiet (is_lock_write off) to t b tr3)
          as [_ Hl];
        [reflexivity | reflexivity
         | unfold Stm32x.stm32x_get_flash_reg; fold off;
           rewrite is_lock_write_reg by reg_range; reflexivity |];
        set (w := Stm32x.stm32x_wait_status_busy to t b tr3) in *
    end.
    destruct (is_ok (result w)) eqn:Hok.
    + rewrite Hb. unfold set_is_erased. mstep. intros Hres.
      match goal with
      | |- context [Stm32x.erase_sectors d ?i1 t ?b1 ?tr1] =>
          destruct (IH i1 b1 tr1 Hres) as (Hb1 & Hc1 & Hl1)
      end.
      cbn [driver_priv set_sectors sectors] in Hb1, Hc1, Hl1. fold off in Hc1, Hl1.
      rewrite Hb1, Hc1, Hl1, Hc, Hl, Hc3, Hl3. cbn [for_count].
      split; [reflexivity|]. split; [lia | reflexivity].
    + cbn [result]. intros Hres. rewrite Hres in Hok. discriminate.
Qed.

(** The loop over [d + n] sectors is the loop over the first [d], then,
    if that went well, the loop over the other [n]. *)
Lemma erase_sectors_split (t : target) :
  always_ok t is_write_u32 ->
  forall d n i (b : Stm32x.bank) tr,
    Stm32x.erase_sectors (d + n) i t b tr =
    let o := Stm32x.erase_sectors d i t b tr in
    if is_ok (result o)
    then Stm32x.erase_sectors n (i + Z.of_nat d) t (bank_after o) (trace o)
    else o.
Proof.
  intros Hw. induction d as [|d IH]; intros n i b tr.
  - cbn [Nat.add Stm32x.erase_sectors]. unfold ret. cbn.
    rewrite Z.add_0_r. reflexivity.
  - cbn [Nat.add Stm32x.erase_sectors].
    rewrite !bind_get_bank. rewrite !guard_write_ok by exact Hw.
    rewrite !guard_ok_run.
    match goal with
    | |- context [Stm32x.stm32x_wait_status_busy ?to ?t ?b ?tr0] =>
        set (w := Stm32x.stm32x_wait_status_busy to t b tr0)
    end.
    destruct (is_ok (result w)) eqn:Hok.
    + unfold bind. rewrite IH. cbv zeta.
      replace (i + 1 + Z.of_nat d) with (i + Z.of_nat (S d)) by lia.
      reflexivity.
    + cbv zeta. cbn [result]. rewrite Hok. reflexivity.
Qed.

(** The trace once the two keys have been written. *)
Lemma unlocked_counts (t : target) (b : Stm32x.bank) :
  let off := Stm32x.register_offset (driver_priv b) in
  count_calls (is_address_write off) (unlocked t b) = 0%nat /\
  count_calls (is_lock_write off) (unlocked t b) = 0%nat.
Proof.
  intros off. unfold unlocked. rewrite !count_calls_after.
  unfold Stm32x.stm32x_get_flash_reg. fold off.
  rewrite !is_address_write_reg, !is_lock_write_reg by reg_range.
  split; reflexivity.
Qed.

(** C4. A per-sector erase of [first..last] on a halted target that
    accepts every register write, where the sectors before [k] get erased
    and the busy poll for sector [k] never sees the busy bit clear: the
    retry budget runs out and the erase returns [ERROR_FAIL].  After the
    three writes that start the erase of sector [k], the rest of the run
    is the poll at its full budget: 101 reads of the status register with
    100 sleeps between them, and nothing after the last read.  The sectors
    before [k] are marked erased, sector [k] and every other sector keep
    their flags (an unknown erased state stays unknown), exactly
    [k - first + 1] sector addresses were written (no later sector was
    tried), and the lock was never written. *)
Theorem erase_timeout_aborts_range
  (t : target) (b : Stm32x.bank) (first last k : Z) :
  let off := Stm32x.register_offset (driver_priv b) in
  let before :=
    Stm32x.erase_sectors (Z.to_nat (k - first)) first t b (unlocked t b) in
  state t = TARGET_HALTED ->
  ~ (first = 0 /\ last = num_sectors b - 1) ->
  0 <= first <= k -> k <= last < Z.of_nat (length (sectors b)) ->
  always_ok t is_write_u32 ->
  result before = ERROR_OK ->
  (forall h, count_calls (is_address_write off) h = S (Z.to_nat (k - first)) ->
             rc (respond t h (status_read off)) = ERROR_OK /\
             flash_busy (u32 (out (respond t h (status_read off))))) ->
  let o := Stm32x.stm32x_erase first last t b [] in
  result o = ERROR_FAIL /\
  (forall j, first <= j < k -> is_erased (sector_at (sectors (bank_after o)) j) = 1) /\
  (forall j, ~ (first <= j < k) ->
             sector_at (sectors (bank_after o)) j = sector_at (sectors b) j) /\
  is_erased (sector_at (sectors (bank_after o)) k) = is_erased (sector_at (sectors b) k) /\
  count_calls (is_address_write off) (trace o) = S (Z.to_nat (k - first)) /\
  count_calls (is_lock_write off) (trace o) = 0%nat /\
  calls (trace o) =
    calls (trace before) ++
    sector_erase_start off (bank_base b + sector_offset (sector_at (sectors b) k)) ++
    budget_poll off 100 /\
  count_calls is_read_u32 (trace o) = (count_calls is_read_u32 (trace before) + 101)%nat /\
  count_calls is_sleep (trace o) = (count_calls is_sleep (trace before) + 100)%nat.
Proof.
  intros off before Hh Hpart Hk Hlast Hw Hbefore Hstuck o.
  destruct (unlocked_counts t b) as [Hu1 Hu2]. fold off in Hu1, Hu2.
  destruct (erase_sectors_done t Hw (Z.to_nat (k - first)) first b (unlocked t b) Hbefore)
    as (Hb & Hc & Hl).
  fold before off in Hb, Hc, Hl. rewrite Hu1 in Hc. rewrite Hu2 in Hl.
  assert (Hsame : sector_at (sectors (bank_after before)) k = sector_at (sectors b) k).
  { rewrite Hb. cbn [sectors set_sectors]. rewrite erased_run_at. zcases. }
  assert (Ho : exists tr',
             o = mk_outcome ERROR_FAIL (bank_after before) tr' /\
             count_calls (is_address_write off) tr' = S (Z.to_nat (k - first)) /\
             count_calls (is_lock_write off) tr' = 0%nat /\
             calls tr' =
               calls (trace before) ++
               sector_erase_start off
                 (bank_base b + sector_offset (sector_at (sectors b) k)) ++
               budget_poll off 100).
  { subst o. rewrite stm32x_erase_per_sector by assumption. fold (unlocked t b).
    rewrite guard_ok_run.
    replace (Z.to_nat (last - first + 1))
      with (Z.to_nat (k - first) + S (Z.to_nat (last - k)))%nat by lia.
    rewrite erase_sectors_split by exact Hw. cbv zeta. fold before.
    rewrite Hbefore. cbn [is_ok].
    destruct (erase_sector_stuck t (bank_after before) (Z.to_nat (last - k))
                (first + Z.of_nat (Z.to_nat (k - first))) (trace before))
      as (tr' & He & Hc' & Hl' & Hcalls).
    - exact Hw.
    - rewrite Hb. cbn [driver_priv set_sectors]. fold off. rewrite Hc. exact Hstuck.
    - rewrite He. cbn [result bank_after trace is_ok].
      exists tr'. split; [reflexivity|].
      replace (first + Z.of_nat (Z.to_nat (k - first))) with k in Hcalls by lia.
      rewrite Hsame in Hcalls.
      rewrite Hb in Hc', Hl', Hcalls.
      cbn [driver_priv set_sectors bank_base] in Hc', Hl', Hcalls.
      fold off in Hc', Hl', Hcalls. rewrite Hc', Hl', Hc, Hl. auto. }
  destruct Ho as (tr' & Ho & Hc' & Hl' & Hcalls). rewrite Ho. cbn [result bank_after trace].
  rewrite Hb. cbn [sectors set_sectors].
  destruct (budget_poll_counts off 100) as [Hreads Hsleeps].
  split; [reflexivity|]. split; [|split; [|split; [|split; [|split; [|split; [|split]]]]]].
  - intros j Hj. rewrite erased_run_at. zcases.
  - intros j Hj. rewrite erased_run_at. zcases.
  - rewrite erased_run_at. zcases.
  - exact Hc'.
  - exact Hl'.
  - exact Hcalls.
  - rewrite (count_calls_calls _ _ _ _ Hcalls), filter_app, length_app, Hreads.
    reflexivity.
  - rewrite (count_calls_calls _ _ _ _ Hcalls), filter_app, length_app, Hsleeps.
    reflexivity.
Qed.

Lemma stuck_target_writes (off : Z) (good : nat) :
  always_ok (stuck_target off good) is_write_u32.
Proof. intros h c Hc. destruct c; try discriminate. reflexivity. Qed.

Lemma stuck_target_poll (off : Z) (good : nat) :
  forall h, count_calls (is_address_write off) h = S good ->
            rc (respond (stuck_target off good) h (status_read off)) = ERROR_OK /\
            flash_busy (u32 (out (respond (stuck_target off good) h (status_read off)))).
Proof.
  intros h Hh. unfold stuck_target, status_read. cbn [respond].
  rewrite Hh, Nat.eqb_refl. split; [reflexivity|].
  unfold flash_busy. cbn. discriminate.
Qed.

(** Of the sectors [1..3], sector 1 is erased and marked, the poll for
    sector 2 never ends, sector 3 is not tried and the lock is not
    written. *)
Lemma erase_timeout_aborts_range_witness :
  let o := Stm32x.stm32x_erase 1 3 (stuck_target 0 1) medium_density_bank [] in
  result o = ERROR_FAIL /\
  is_erased (sector_at (sectors (bank_after o)) 1) = 1 /\
  is_erased (sector_at (sectors (bank_after o)) 2) = -1 /\
  is_erased (sector_at (sectors (bank_after o)) 3) = -1 /\
  count_calls (is_address_write 0) (trace o) = 2%nat /\
  count_calls (is_lock_write 0) (trace o) = 0%nat /\
  count_calls is_read_u32 (trace o) = 102%nat /\
  count_calls is_sleep (trace o) = 100%nat.
Proof.
  destruct (erase_timeout_aborts_range (stuck_target 0 1) medium_density_bank 1 3 2)
    as (Hr & He & Hn & Hk & Ha & Hl & _ & Hreads & Hsleeps).
  - reflexivity.
  - intros [H _]. discriminate H.
  - lia.
  - split; [lia | vm_compute; reflexivity].
  - apply stuck_target_writes.
  - vm_compute. reflexivity.
  - apply (stuck_target_poll 0 1).
  - cbv zeta. split; [exact Hr|]. split; [apply He; lia|].
    split; [rewrite Hk; vm_compute; reflexivity|].
    split; [rewrite Hn by lia; vm_compute; reflexivity|].
    split; [exact Ha|]. split; [exact Hl|].
    split; [rewrite Hreads; vm_compute; reflexivity
           | rewrite Hsleeps; vm_compute; reflexivity].
Defined.

(** The scenario of the specification: erase of sectors [2..2] with a
    busy bit that never clears.  The status register is read 101 times. *)
Example erase_2_2_never_ready :
  let o := Stm32x.stm32x_erase 2 2 (stuck_target 0 0) medium_density_bank [] in
  result o = ERROR_FAIL /\
  map is_erased (firstn 4 (sectors (bank_after o))) = [-1; -1; -1; -1] /\
  count_calls (is_address_write 0) (trace o) = 1%nat /\
  count_calls (is_lock_write 0) (trace o) = 0%nat /\
  count_calls is_read_u32 (trace o) = 101%nat.
Proof. vm_compute. repeat split; reflexivity. Qed.

Lemma stm32x_erase_whole_bank_is_mass_erase_witness :
  let o := Stm32x.stm32x_erase 0 127 medium_density_target medium_density_bank [] in
  o = Stm32x.stm32x_mass_erase medium_density_target medium_density_bank [] /\
  bank_after o = medium_density_bank /\
  count_calls (is_address_write 0) (trace o) = 0%nat /\
  count_calls (is_page_erase_write 0) (trace o) = 0%nat.
Proof.
  apply (stm32x_erase_whole_bank_is_mass_erase medium_density_target
           medium_density_bank 0 127); reflexivity.
Defined.

(** C6 as stated fails on the nucX1 driver, whose mass-erase dispatch is
    commented out: the erase of the whole NUC120 bank, sectors [0..255],
    succeeds after writing 256 sector addresses, one per sector. *)
Lemma nucX1_erase_whole_bank_is_per_sector :
  let o := NucX1.nucX1_erase 0 (num_sectors nuc120_bank - 1)
             nuc120_target nuc120_bank [] in
  num_sectors nuc120_bank = 256 /\
  result o = ERROR_OK /\
  count_calls is_ispadr_write (trace o) = 256%nat /\
  trace o <> trace (NucX1.nucX1_mass_erase nuc120_target nuc120_bank []).
Proof. vm_compute. repeat split; try reflexivity. discriminate. Qed.

(** ** Error bits during an erase *)

(** A poll that finds the flash idle with an error bit raised clears the
    error bits and returns [ERROR_FAIL]. *)
Lemma wait_status_busy_error (t : target) timeout (b : Stm32x.bank) tr :
  let off := Stm32x.register_offset (driver_priv b) in
  let c := status_read off in
  rc (respond t tr c) = ERROR_OK ->
  flash_error (u32 (out (respond t tr c))) ->
  Stm32x.stm32x_wait_status_busy timeout t b tr =
    mk_outcome ERROR_FAIL b
      (after t (after t tr c)
         (WriteU32 (u32 (Stm32x.STM32_FLASH_SR + off))
            (u32 (Z.lor Stm32x.FLASH_WRPRTERR Stm32x.FLASH_PGERR)))).
Proof.
  intros off c Hrc (Hb & He).
  unfold Stm32x.stm32x_wait_status_busy.
  assert (Hloop : Stm32x.wait_busy_loop (Z.to_nat timeout) t b tr =
                  mk_outcome (inr (u32 (out (respond t tr c)))) b (after t tr c)).
  { destruct (Z.to_nat timeout); cbn [Stm32x.wait_busy_loop];
      unfold Stm32x.stm32x_get_flash_status; mstep;
      unfold Stm32x.stm32x_get_flash_reg;
      fold off; fold (status_read off); fold c;
      rewrite Hrc; cbn [is_ok negb]; rewrite Hb; reflexivity. }
  unfold bind at 1. rewrite Hloop. cbn [result bank_after trace].
  set (s := u32 (out (respond t tr c))) in *.
  assert (Hl : Z.land s (Z.lor Stm32x.FLASH_WRPRTERR Stm32x.FLASH_PGERR) <> 0).
  { rewrite Z.land_lor_distr_r. intros H. apply Z.lor_eq_0_iff in H. tauto. }
  destruct (Z.eqb_spec (Z.land s (Z.lor Stm32x.FLASH_WRPRTERR Stm32x.FLASH_PGERR)) 0);
    [contradiction|].
  mstep. unfold Stm32x.stm32x_get_flash_reg. fold off.
  destruct (Z.eqb_spec (Z.land s Stm32x.FLASH_PGERR) 0);
    destruct (Z.eqb_spec (Z.land s Stm32x.FLASH_WRPRTERR) 0);
    cbn [negb]; try reflexivity.
  tauto.
Qed.

(** The stm32x erase does report a raised error bit: the bits are cleared by
    a write to the status register, the erase stops at that sector with
    [ERROR_FAIL], the sector is not marked and the lock is not written. *)
Lemma stm32x_erase_reports_status_error
  (t : target) (b : Stm32x.bank) (first last : Z) :
  let off := Stm32x.register_offset (driver_priv b) in
  state t = TARGET_HALTED ->
  ~ (first = 0 /\ last = num_sectors b - 1) ->
  first <= last ->
  always_ok t is_write_u32 ->
  (forall h, rc (respond t h (status_read off)) = ERROR_OK /\
             flash_error (u32 (out (respond t h (status_read off))))) ->
  let o := Stm32x.stm32x_erase first last t b [] in
  result o = ERROR_FAIL /\ bank_after o = b /\
  count_calls (is_status_clear off) (trace o) = 1%nat /\
  count_calls (is_address_write off) (trace o) = 1%nat /\
  count_calls (is_lock_write off) (trace o) = 0%nat.
Proof.
  intros off Hh Hpart Hfl Hw Hs o. subst o.
  rewrite stm32x_erase_per_sector by assumption.
  rewrite guard_ok_run.
  destruct (Z.to_nat (last - first + 1)) as [|n] eqn:En; [lia|].
  cbn [Stm32x.erase_sectors].
  rewrite bind_get_bank. rewrite !guard_write_ok by exact Hw.
  rewrite guard_ok_run.
  match goal with
  | |- context [Stm32x.stm32x_wait_status_busy ?to ?t ?b ?tr] =>
      destruct (Hs tr) as [H1 H2];
      rewrite (wait_status_busy_error t to b tr H1 H2)
  end.
  cbn [is_ok result bank_after trace].
  split; [reflexivity|]. split; [reflexivity|].
  rewrite !count_calls_after. unfold Stm32x.stm32x_get_flash_reg. fold off.
  unfold status_read.
  rewrite !is_address_write_reg, !is_lock_write_reg by reg_range.
  unfold is_status_clear. rewrite !reg_eqb by reg_range.
  repeat split; reflexivity.
Qed.

(** C5 at the failing input.  The NUC raises its fail flag for the erase
    of sector 1: [nucX1_erase] clears the flag with a write, leaves the
    sector unmarked, goes on, locks the chip and returns [ERROR_OK]. *)
Theorem nucX1_erase_swallows_fail_flag :
  let o := NucX1.nucX1_erase 1 1 nuc_failing_target nuc120_bank [] in
  result o = ERROR_OK /\
  is_erased (sector_at (sectors (bank_after o)) 1) = -1 /\
  In (WriteU32 NucX1.NUCX1_FLASH_ISPCON NucX1.ISPCON_ISPFF) (calls (trace o)) /\
  last (calls (trace o)) (AliveSleep 0) = WriteU32 NucX1.NUCX1_SYS_WRPROT NucX1.LOCK.
Proof.
  vm_compute. repeat split; try reflexivity.
  repeat (first [left; reflexivity | right]).
Qed.

(** ** Protection *)

Lemma bit_pow2 (i : Z) : 0 <= i < 32 -> Stm32x.bit i = 2 ^ i.
Proof.
  intros Hi. unfold Stm32x.bit. rewrite Z.shiftl_1_l. apply u32_small.
  split; [apply Z.pow_nonneg; lia | apply Z.pow_lt_mono_r; lia].
Qed.

Lemma land_bit (p i : Z) :
  0 <= i < 32 -> (Z.land p (Stm32x.bit i) =? 0) = negb (Z.testbit p i).
Proof.
  intros Hi. rewrite bit_pow2 by exact Hi.
  destruct (Z.testbit p i) eqn:E; cbn [negb].
  - apply Z.eqb_neq. intros H.
    assert (Ht : Z.testbit (Z.land p (2 ^ i)) i = true)
      by (rewrite Z.land_spec, E, Z.pow2_bits_true by lia; reflexivity).
    rewrite H, Z.bits_0 in Ht. discriminate.
  - apply Z.eqb_eq. apply Z.bits_inj'. intros n Hn.
    rewrite Z.land_spec, Z.bits_0, Z.pow2_bits_eqb by lia.
    destruct (Z.eqb_spec i n) as [->|]; [rewrite E; reflexivity | apply andb_false_r].
Qed.

Lemma protect_group_length ppage p i l :
  length (Stm32x.protect_group ppage p i l) = length l.
Proof. unfold Stm32x.protect_group, for_range. apply for_count_update_length. Qed.

Lemma protect_group_at ppage p i l j :
  0 < ppage -> 0 <= j < Z.of_nat (length l) ->
  sector_at (Stm32x.protect_group ppage p i l) j =
  if (i * ppage <=? j) && (j <? i * ppage + ppage)
  then with_is_protected (protection_of p i) (sector_at l j) else sector_at l j.
Proof.
  intros Hp Hj. unfold Stm32x.protect_group, for_range.
  rewrite (for_count_update_at (i * ppage)
             (fun _ => with_is_protected (protection_of p i))) by exact Hj.
  zcases.
Qed.

Lemma protect_groups_length ppage p n :
  forall lo l, length (for_count n lo (Stm32x.protect_group ppage p) l) = length l.
Proof.
  induction n as [|n IH]; intros lo l; simpl; [reflexivity|].
  rewrite IH. apply protect_group_length.
Qed.

(** Bit [i] governs the sectors [i * ppage .. (i + 1) * ppage - 1]. *)
Lemma protect_groups_at ppage p n :
  0 < ppage ->
  forall lo l j,
    0 <= lo -> 0 <= j < Z.of_nat (length l) ->
    sector_at (for_count n lo (Stm32x.protect_group ppage p) l) j =
    if (lo * ppage <=? j) && (j <? (lo + Z.of_nat n) * ppage)
    then with_is_protected (protection_of p (j / ppage)) (sector_at l j)
    else sector_at l j.
Proof.
  intros Hp. induction n as [|n IH]; intros lo l j Hlo Hj.
  - simpl. zcases.
  - simpl for_count. rewrite IH by (rewrite ?protect_group_length; lia).
    rewrite protect_group_at by assumption.
    destruct (Z.leb_spec (lo * ppage) j) as [H1|H1];
      destruct (Z.ltb_spec j (lo * ppage + ppage)) as [H2|H2]; cbn [andb].
    + assert (Hd : j / ppage = lo)
        by (symmetry; apply Z.div_unique with (r := j - lo * ppage); lia).
      rewrite Hd.
      destruct (Z.leb_spec ((lo + 1) * ppage) j); [lia|]. cbn [andb].
      destruct (Z.ltb_spec j ((lo + Z.of_nat (S n)) * ppage)); [reflexivity | nia].
    + destruct (Z.leb_spec ((lo + 1) * ppage) j); [|lia]. cbn [andb].
      replace ((lo + 1 + Z.of_nat n) * ppage) with ((lo + Z.of_nat (S n)) * ppage)
        by (f_equal; lia).
      reflexivity.
    + destruct (Z.leb_spec ((lo + 1) * ppage) j); [nia|]. reflexivity.
    + destruct (Z.leb_spec ((lo + 1) * ppage) j); [nia|]. reflexivity.
Qed.

Lemma testbit_fffffffe (i : Z) :
  0 <= i < 32 -> Z.testbit 0xFFFFFFFE i = negb (i =? 0).
Proof.
  intros Hi. change 0xFFFFFFFE with (Z.shiftl (Z.ones 31) 1).
  rewrite Z.shiftl_spec by lia.
  destruct (Z.eqb_spec i 0) as [->|Hne]; [reflexivity|].
  apply Z.ones_spec_low. lia.
Qed.

(** C3 as stated fails: with the bitmap 0xFFFFFFFE the sectors 0 to 3,
    whose bit is clear, come out protected, and the sectors from 4 on,
    whose bits are set, come out unprotected. *)
Lemma protect_check_clear_bit_means_protected :
  let o := Stm32x.stm32x_protect_check wrpr_target medium_density_bank [] in
  Stm32x.ppage_size (driver_priv medium_density_bank) = 4 /\
  num_sectors medium_density_bank = 128 /\
  result o = ERROR_OK /\
  map is_protected (sectors (bank_after o)) = repeat 1 4 ++ repeat 0 124 /\
  is_protected (sector_at (sectors (bank_after o)) 0) <> 0 /\
  is_protected (sector_at (sectors (bank_after o)) 4) <> 1.
Proof. vm_compute. repeat split; try reflexivity; discriminate. Qed.

(** C3, amended.  On a halted target, for a bank of 128 sectors with four
    sectors to a protection bit, protect-check reads the bitmap and gives
    sector [s] the flag of bit [s / 4]: protected ([1]) where the bit is
    clear, unprotected ([0]) where it is set.  With the bitmap 0xFFFFFFFE
    the sectors 0 to 3 are protected and the sectors 4 to 127 are not. *)
Theorem protect_check_medium_density (t : target) (b : Stm32x.bank) :
  let wrpr := respond t [] (ReadU32 Stm32x.STM32_FLASH_WRPR) in
  let p := u32 (out wrpr) in
  state t = TARGET_HALTED ->
  Stm32x.register_offset (driver_priv b) = Stm32x.FLASH_OFFSET_B0 ->
  Stm32x.ppage_size (driver_priv b) = 4 ->
  num_sectors b = 128 ->
  length (sectors b) = 128%nat ->
  rc wrpr = ERROR_OK ->
  let o := Stm32x.stm32x_protect_check t b [] in
  result o = ERROR_OK /\
  (forall s, 0 <= s < 128 ->
     is_protected (sector_at (sectors (bank_after o)) s) =
     if Z.testbit p (s / 4) then 0 else 1) /\
  (p = 0xFFFFFFFE ->
   (forall s, 0 <= s < 4 -> is_protected (sector_at (sectors (bank_after o)) s) = 1) /\
   (forall s, 4 <= s < 128 -> is_protected (sector_at (sectors (bank_after o)) s) = 0)).
Proof.
  intros wrpr p Hh Hoff Hpp Hn Hlen Hrc o.
  assert (Ho : o = mk_outcome ERROR_OK
                     (set_sectors
                        (for_count 32 0 (Stm32x.protect_group 4 p) (sectors b)) b)
                     (after t [] (ReadU32 Stm32x.STM32_FLASH_WRPR))).
  { subst o. unfold Stm32x.stm32x_protect_check, Stm32x.stm32x_check_operation_supported.
    mstep. rewrite Hh. cbn [is_halted negb]. mstep.
    rewrite Hoff, Z.eqb_refl. cbn [negb]. mstep. cbn [is_ok]. mstep.
    change (u32 Stm32x.STM32_FLASH_WRPR) with Stm32x.STM32_FLASH_WRPR.
    fold wrpr. rewrite Hrc. cbn [is_ok negb]. mstep.
    rewrite Hpp, Hn. reflexivity. }
  assert (Hs : forall s, 0 <= s < 128 ->
             is_protected (sector_at (sectors (bank_after o)) s) =
             if Z.testbit p (s / 4) then 0 else 1).
  { intros s Hs. rewrite Ho. cbn [bank_after sectors set_sectors].
    rewrite protect_groups_at by lia.
    destruct (Z.leb_spec (0 * 4) s); [|lia].
    destruct (Z.ltb_spec s ((0 + Z.of_nat 32) * 4)); [|lia].
    cbn [andb is_protected with_is_protected]. unfold protection_of.
    assert (0 <= s / 4 < 32)
      by (split; [apply Z.div_pos; lia | apply Z.div_lt_upper_bound; lia]).
    rewrite land_bit by assumption. rewrite negb_involutive. reflexivity. }
  split; [rewrite Ho; reflexivity|]. split; [exact Hs|].
  intros Hp. split; intros s Hr; rewrite Hs by lia; rewrite Hp.
  - rewrite testbit_fffffffe
      by (split; [apply Z.div_pos; lia | apply Z.div_lt_upper_bound; lia]).
    rewrite Z.div_small by lia. reflexivity.
  - rewrite testbit_fffffffe
      by (split; [apply Z.div_pos; lia | apply Z.div_lt_upper_bound; lia]).
    assert (1 <= s / 4) by (apply Z.div_le_lower_bound; lia).
    destruct (Z.eqb_spec (s / 4) 0); [lia | reflexivity].
Qed.

Lemma protect_check_medium_density_witness :
  let o := Stm32x.stm32x_protect_check wrpr_target medium_density_bank [] in
  result o = ERROR_OK /\
  (forall s, 0 <= s < 4 -> is_protected (sector_at (sectors (bank_after o)) s) = 1) /\
  (forall s, 4 <= s < 128 -> is_protected (sector_at (sectors (bank_after o)) s) = 0).
Proof.
  destruct (protect_check_medium_density wrpr_target medium_density_bank)
    as (Hr & _ & Hp); try reflexivity.
  cbv zeta. split; [exact Hr|]. apply Hp. reflexivity.
Defined.

(** ** Writing *)

Lemma programmed_after (t : target) tr (c : call) :
  programmed (after t tr c) = programmed tr ++ (if is_program c then [c] else []).
Proof.
  unfold programmed. rewrite calls_after, filter_app. simpl.
  destruct (is_program c); reflexivity.
Qed.

Lemma units_issued_app (l1 l2 : list call) :
  units_issued (l1 ++ l2) = units_issued l1 + units_issued l2.
Proof.
  induction l1 as [|c l1 IH]; simpl; [reflexivity|]. rewrite IH. lia.
Qed.

(** On a healthy target the programming loop hands all [count] halfwords
    to the routine. *)
Lemma write_chunks_healthy (t : target) :
  healthy_target t ->
  forall fuel source buffer_size buffer address count (b : Stm32x.bank) tr,
    0 <= count <= Z.of_nat fuel -> 2 <= buffer_size ->
    exists tr' runs,
      Stm32x.write_chunks fuel source buffer_size buffer address count t b tr =
        mk_outcome (Some ERROR_OK) b tr' /\
      programmed tr' = programmed tr ++ runs /\
      Forall (fun c => is_run c = true) runs /\
      units_issued runs = count.
Proof.
  intros (Hok & Hidle & Hrun).
  induction fuel as [|fuel IH];
    intros source buffer_size buffer address count b tr Hc Hb;
    cbn [Stm32x.write_chunks]; destruct (Z.gtb_spec count 0) as [Hpos|Hpos]; mstep;
    try lia;
    try (exists tr, []; rewrite app_nil_r; repeat split; [constructor | simpl; lia]).
  set (thisrun_count := if count >? buffer_size / 2 then buffer_size / 2 else count).
  assert (H1 : 1 <= thisrun_count <= count).
  { unfold thisrun_count.
    assert (1 <= buffer_size / 2) by (apply Z.div_le_lower_bound; lia).
    destruct (Z.gtb_spec count (buffer_size / 2)); lia. }
  rewrite (Hok _ (WriteBuffer _ _ _) eq_refl). cbn [is_ok negb]. mstep.
  rewrite (Hok _ (RunAlgorithm _ _ _ _ _ _ _) eq_refl). cbn [is_ok negb]. mstep.
  match goal with
  | |- context [respond t ?h (RunAlgorithm ?a ?b ?c ?d ?e ?f ?g)] =>
      destruct (Hrun h (RunAlgorithm a b c d e f g) eq_refl) as [Hp Hwp];
      rewrite Hp, Hwp
  end.
  cbn [Z.eqb negb]. mstep.
  match goal with
  | |- context [Stm32x.write_chunks fuel ?s ?bs ?bf ?a ?c t ?b ?tr0] =>
      destruct (IH s bs bf a c b tr0 ltac:(lia) Hb) as (tr' & runs & He & Hp' & Hf & Hu)
  end.
  rewrite He. eexists. eexists. split; [reflexivity|].
  rewrite Hp', !programmed_after. cbn [is_program]. rewrite app_nil_r, <- app_assoc.
  split; [reflexivity|]. split.
  - constructor; [reflexivity | exact Hf].
  - cbn [app units_issued fold_right units_of_call]. fold (units_issued runs). lia.
Qed.

(** The staging-area loop programs nothing, and ends with an area of at
    least two bytes or with [ERROR_TARGET_RESOURCE_NOT_AVAILABLE]. *)
Lemma alloc_source_cases fuel :
  forall buffer_size (t : target) (b : Stm32x.bank) tr,
    2 <= buffer_size <= Z.of_nat fuel ->
    exists r tr',
      Stm32x.alloc_source fuel buffer_size t b tr = mk_outcome (Some r) b tr' /\
      programmed tr' = programmed tr /\
      match r with
      | inl e => e = ERROR_TARGET_RESOURCE_NOT_AVAILABLE
      | inr (_, size) => 2 <= size
      end.
Proof.
  induction fuel as [|fuel IH]; intros buffer_size t b tr Hb; [lia|].
  destruct (is_ok (rc (respond t tr (AllocWorkingAreaTry buffer_size)))) eqn:Hok.
  - rewrite alloc_source_ok by exact Hok.
    eexists. eexists. split; [reflexivity|].
    rewrite programmed_after. cbn [is_program]. rewrite app_nil_r.
    split; [reflexivity | lia].
  - destruct (Z.leb_spec (buffer_size / 2) 256) as [Hs|Hs].
    + rewrite alloc_source_give_up by assumption. cbv zeta.
      eexists. eexists. split; [reflexivity|].
      split; [|reflexivity].
      destruct (Stm32x.write_algorithm (driver_priv b));
        rewrite !programmed_after; cbn [is_program]; rewrite !app_nil_r; reflexivity.
    + rewrite alloc_source_retry by assumption.
      assert (Hb' : 2 <= buffer_size / 2 <= Z.of_nat fuel).
      { split; [lia|].
        assert (buffer_size / 2 < buffer_size) by (apply Z.div_lt; lia). lia. }
      destruct (IH (buffer_size / 2) t b
                  (after t tr (AllocWorkingAreaTry buffer_size)) Hb')
        as (r & tr' & He & Hp & Hr).
      exists r, tr'. split; [exact He|]. split; [|exact Hr].
      rewrite Hp, programmed_after. cbn [is_program]. apply app_nil_r.
Qed.

(** [stm32x_write_block] on a healthy target: either the routine programs
    all [count] halfwords, or no area could be had and nothing was
    programmed.  The bank changes in [write_algorithm] at most. *)
Lemma write_block_healthy (t : target) (b : Stm32x.bank) (buffer : list Z)
  (offset count : Z) tr :
  healthy_target t -> 0 <= count ->
  exists e tr' runs wa,
    Stm32x.stm32x_write_block buffer offset count t b tr =
      mk_outcome (Some e)
        (set_driver_priv (Stm32x.with_write_algorithm wa (driver_priv b)) b) tr' /\
    programmed tr' = programmed tr ++ runs /\
    Forall (fun c => is_run c = true) runs /\
    ((e = ERROR_OK /\ units_issued runs = count) \/
     (e = ERROR_TARGET_RESOURCE_NOT_AVAILABLE /\ runs = [])).
Proof.
  intros Hh Hc. pose proof Hh as (Hok & Hidle & Hrun).
  wb_start.
  destruct (is_ok (rc (respond t tr (AllocWorkingArea routine_size)))) eqn:Ha;
    wb_fields; mstep.
  - rewrite (Hok _ (WriteBuffer _ _ _) eq_refl). cbn [is_ok]. mstep.
    match goal with
    | |- context [Stm32x.alloc_source ?f ?bs ?t ?b0 ?tr0] =>
        destruct (alloc_source_cases f bs t b0 tr0 ltac:(cbn; lia))
          as (r & tr1 & He & Hp & Hr)
    end.
    rewrite He. cbn [result bank_after trace].
    rewrite !programmed_after in Hp. cbn [is_program] in Hp.
    rewrite !app_nil_r in Hp.
    destruct r as [e|[source size]].
    + subst e. mstep. eexists. exists tr1, []. eexists.
      split; [reflexivity|]. rewrite app_nil_r.
      split; [exact Hp|]. split; [constructor|]. right. auto.
    + match goal with
      | |- context [Stm32x.write_chunks ?f ?s ?bs ?bf ?a ?c ?t ?b0 ?tr0] =>
          destruct (write_chunks_healthy t Hh f s bs bf a c b0 tr0 ltac:(lia) Hr)
            as (tr2 & runs & He2 & Hp2 & Hf & Hu)
      end.
      rewrite He2. mstep. eexists. eexists. exists runs. eexists.
      split; [reflexivity|].
      rewrite !programmed_after. cbn [is_program]. rewrite !app_nil_r.
      rewrite Hp2, Hp. split; [reflexivity|]. split; [exact Hf|]. left. auto.
  - eexists. exists (after t tr (AllocWorkingArea routine_size)), [].
    exists (Stm32x.write_algorithm (driver_priv b)).
    split; [destruct b as [? ? ? ? []]; reflexivity|].
    rewrite programmed_after. cbn [is_program]. 
    split; [reflexivity|]. split; [constructor|]. right. auto.
Qed.

Lemma healthy_writes (t : target) : healthy_target t -> always_ok t is_write_u32.
Proof.
  intros (Hok & _) h c Hc. apply Hok. destruct c; try discriminate; reflexivity.
Qed.

Lemma healthy_idle (t : target) timeout (b : Stm32x.bank) tr :
  healthy_target t ->
  Stm32x.stm32x_wait_status_busy timeout t b tr =
    mk_outcome ERROR_OK b
      (after t tr (status_read (Stm32x.register_offset (driver_priv b)))).
Proof.
  intros (Hok & Hidle & _). apply wait_status_busy_idle.
  - apply Hok. reflexivity.
  - apply Hidle.
Qed.

Lemma u32_add_idem (a c : Z) : u32 (u32 a + c) = u32 (a + c).
Proof. unfold u32. apply Zplus_mod_idemp_l. Qed.

(** On a healthy target the slow loop writes its [n] halfwords, one call
    each. *)
Lemma write_words_healthy (t : target) :
  healthy_target t ->
  forall n buffer address bytes_written (b : Stm32x.bank) tr,
    exists tr' ws,
      Stm32x.write_words n buffer (u32 address) (u32 bytes_written) t b tr =
        mk_outcome (inr (u32 (address + 2 * Z.of_nat n),
                         u32 (bytes_written + 2 * Z.of_nat n))) b tr' /\
      programmed tr' = programmed tr ++ ws /\
      units_issued ws = Z.of_nat n.
Proof.
  intros Hh. pose proof Hh as (Hok & Hidle & Hrun).
  induction n as [|n IH]; intros buffer address bytes_written b tr.
  - cbn [Stm32x.write_words]. exists tr, []. rewrite app_nil_r.
    unfold ret. rewrite !Z.add_0_r. repeat split.
  - cbn [Stm32x.write_words]. mstep.
    rewrite (Hok _ (WriteU32 _ _) eq_refl). cbn [is_ok negb]. mstep.
    rewrite (Hok _ (WriteU16 _ _) eq_refl). cbn [is_ok negb]. mstep.
    rewrite healthy_idle by exact Hh. cbn [result bank_after trace is_ok negb].
    rewrite !u32_add_idem.
    match goal with
    | |- context [Stm32x.write_words n ?bf (u32 ?a) (u32 ?w) t ?b0 ?tr0] =>
        destruct (IH bf a w b0 tr0) as (tr' & ws & He & Hp & Hu)
    end.
    rewrite He. exists tr'.
    exists (WriteU16 (u32 (u32 address))
              (u16 (Stm32x.load_u16 buffer (u32 bytes_written))) :: ws).
    split.
    + replace (address + 2 * Z.of_nat (S n)) with (address + 2 + 2 * Z.of_nat n) by lia.
      replace (bytes_written + 2 * Z.of_nat (S n))
        with (bytes_written + 2 + 2 * Z.of_nat n) by lia.
      reflexivity.
    + rewrite Hp, !programmed_after. cbn [is_program status_read].
      rewrite !app_nil_r, <- app_assoc. split; [reflexivity|].
      cbn [app units_issued fold_right units_of_call]. fold (units_issued ws). lia.
Qed.

Lemma guard_opt_write_ok {S} (a v : Z) (k : M S (option error_code))
  (t : target) (b : S) tr :
  always_ok t is_write_u32 ->
  guard_ok_opt (target_write_u32 a v) k t b tr =
  k t b (after t tr (WriteU32 (u32 a) (u32 v))).
Proof.
  intros Hw. unfold guard_ok_opt, bind. rewrite write_u32_run.
  cbn [result bank_after trace]. rewrite (Hw _ (WriteU32 _ _) eq_refl). reflexivity.
Qed.

Lemma byte_at_range (buffer : list Z) (i : Z) : 0 <= Stm32x.byte_at buffer i < 256.
Proof.
  unfold Stm32x.byte_at. destruct (i <? 0); [lia|]. apply Z.mod_pos_bound. lia.
Qed.

Lemma u16_last_byte (buffer : list Z) (i : Z) :
  u16 (Stm32x.load_last_byte buffer i) = Stm32x.byte_at buffer i + 0xFF00.
Proof.
  unfold Stm32x.load_last_byte, u16. pose proof (byte_at_range buffer i).
  rewrite Z.mod_small; lia.
Qed.

(** The second half of the write on a healthy target, for an odd count:
    the [n] remaining halfwords are written one by one, then the last
    byte, with 0xFF above it, then the lock. *)
Lemma write_single_healthy (t : target) (b : Stm32x.bank) (buffer : list Z)
  (address words : Z) tr :
  healthy_target t -> 0 <= words ->
  exists tr' ws,
    Stm32x.write_single buffer (u32 address) words 1 t b tr =
      mk_outcome (Some ERROR_OK) b tr' /\
    programmed tr' =
      programmed tr ++ ws ++
      [WriteU16 (u32 (address + 2 * words))
         (Stm32x.byte_at buffer (u32 (2 * words)) + 0xFF00)] /\
    units_issued ws = words.
Proof.
  intros Hh Hwords. pose proof Hh as (Hok & Hidle & Hrun).
  pose proof (healthy_writes t Hh) as Hw.
  unfold Stm32x.write_single. unfold bind at 1.
  destruct (write_words_healthy t Hh (Z.to_nat words) buffer address 0 b tr)
    as (tr1 & ws & He & Hp & Hu).
  change (u32 0) with 0 in He. rewrite He. cbn [result bank_after trace].
  rewrite Z2Nat.id in * by exact Hwords.
  rewrite bind_get_bank. cbv beta. change (negb (1 =? 0)) with true. cbv iota.
  unfold guard_ok_opt at 1. unfold bind at 1.
  rewrite guard_write_ok by exact Hw.
  mstep.
  rewrite (Hok _ (WriteU16 _ _) eq_refl). cbn [is_ok]. mstep.
  rewrite healthy_idle by exact Hh.
  cbn [result bank_after trace is_ok]. mstep.
  rewrite (Hok _ (WriteU32 _ _) eq_refl).
  eexists. exists ws. split; [reflexivity|]. split; [|exact Hu].
  rewrite !programmed_after. cbn [is_program status_read].
  rewrite !app_nil_r, Hp, u32_idem, u16_last_byte, <- app_assoc. reflexivity.
Qed.

Lemma byte_at_skipn (buffer : list Z) (k : Z) :
  0 <= k -> Stm32x.byte_at (skipn (Z.to_nat k) buffer) 0 = Stm32x.byte_at buffer k.
Proof.
  intros Hk. unfold Stm32x.byte_at.
  destruct (Z.ltb_spec k 0); [lia|]. cbn [Z.ltb Z.compare Z.to_nat].
  f_equal. revert buffer. generalize (Z.to_nat k) as n.
  induction n as [|n IH]; intros [|x l]; simpl; auto.
Qed.

Lemma last_snoc {A} (l : list A) (x d : A) : last (l ++ [x]) d = x.
Proof. apply last_last. Qed.


(** The whole write on a healthy target, for an odd count: the halfwords
    before the last byte are programmed, by the routine or one by one, and
    the last byte follows as a padded halfword. *)
Lemma stm32x_write_healthy
  (t : target) (b : Stm32x.bank) (buffer : list Z) (offset count : Z) :
  healthy_target t ->
  state t = TARGET_HALTED ->
  offset mod 2 = 0 ->
  0 < count < 2 ^ 32 -> count mod 2 = 1 ->
  exists b' tr' us,
    Stm32x.stm32x_write buffer offset count t b [] =
      mk_outcome (Some ERROR_OK) b' tr' /\
    programmed tr' =
      us ++ [WriteU16 (u32 (bank_base b + offset + (count - 1)))
               (Stm32x.byte_at buffer (count - 1) + 0xFF00)] /\
    units_issued us = count / 2.
Proof.
  intros Hh Hs Ho Hc Hodd. pose proof Hh as (Hok & Hidle & Hrun).
  pose proof (healthy_writes t Hh) as Hw.
  assert (Hdiv : count = 2 * (count / 2) + 1)
    by (pose proof (Z.div_mod count 2 ltac:(lia)); lia).
  assert (Hw2 : 0 <= count / 2) by (apply Z.div_pos; lia).
  unfold Stm32x.stm32x_write. rewrite bind_get_bank. cbv beta.
  rewrite !land_1_mod, Ho, Hodd.
  unfold bind at 1, get_target_state. cbn [result bank_after trace].
  rewrite Hs. cbn [is_halted negb Z.eqb].
  rewrite !guard_opt_write_ok by exact Hw.
  match goal with
  | |- context [after t (after t [] ?k1) ?k2] => set (tr0 := after t (after t [] k1) k2)
  end.
  assert (Hp0 : programmed tr0 = []).
  { subst tr0. rewrite !programmed_after. reflexivity. }
  destruct (Z.gtb_spec (count / 2) 0) as [Hpos|Hzero].
  - unfold bind at 1.
    destruct (write_block_healthy t b buffer offset (count / 2) tr0 Hh Hw2)
      as (e & tr1 & runs & wa & He & Hp & Hf & [[-> Hu] | [-> ->]]);
      rewrite He; cbn [result bank_after trace is_ok negb is_resource_not_available].
    + rewrite u32_add_idem.
      destruct (write_single_healthy t
                  (set_driver_priv (Stm32x.with_write_algorithm wa (driver_priv b)) b)
                  (skipn (Z.to_nat (u32 (count / 2 * 2))) buffer)
                  (bank_base b + offset + u32 (count / 2 * 2)) 0 tr1 Hh ltac:(lia))
        as (tr2 & ws & He2 & Hp2 & Hu2).
      rewrite He2. eexists. exists tr2, (runs ++ ws). split; [reflexivity|].
      rewrite Hp2, Hp, Hp0. cbn [app].
      rewrite !u32_small with (x := count / 2 * 2) by lia.
      change (u32 (2 * 0)) with 0. rewrite byte_at_skipn by lia.
      replace (bank_base b + offset + count / 2 * 2 + 2 * 0)
        with (bank_base b + offset + (count - 1)) by lia.
      replace (count / 2 * 2) with (count - 1) by lia.
      split; [apply app_assoc|].
      rewrite units_issued_app. lia.
    + destruct (write_single_healthy t
                  (set_driver_priv (Stm32x.with_write_algorithm wa (driver_priv b)) b)
                  buffer (bank_base b + offset) (count / 2) tr1 Hh Hw2)
        as (tr2 & ws & He2 & Hp2 & Hu2).
      rewrite He2. eexists. exists tr2, ws. split; [reflexivity|].
      rewrite Hp2, Hp, Hp0. cbn [app].
      rewrite u32_small with (x := 2 * (count / 2)) by lia.
      replace (bank_base b + offset + 2 * (count / 2))
        with (bank_base b + offset + (count - 1)) by lia.
      replace (2 * (count / 2)) with (count - 1) by lia.
      split; [reflexivity | exact Hu2].
  - assert (Hone : count = 1) by lia. subst count.
    change (1 / 2) with 0 in *. change (1 - 1) with 0.
    destruct (write_single_healthy t b buffer (bank_base b + offset) 0
                tr0 Hh Hw2) as (tr2 & ws & He2 & Hp2 & Hu2).
    rewrite He2. eexists. exists tr2, ws. split; [reflexivity|].
    rewrite Hp2, Hp0. cbn [app].
    change (2 * 0) with 0. change (u32 0) with 0.
    split; [reflexivity | exact Hu2].
Qed.


Lemma ram_target_healthy (alloc_ok try_ok : bool) :
  healthy_target (ram_target alloc_ok try_ok true).
Proof.
  split; [|split].
  - intros h c Hc. destruct c; try discriminate; reflexivity.
  - intros h a. unfold flash_idle. cbn. auto.
  - intros h c Hc. destruct c; try discriminate. cbn. auto.
Qed.


(** The same three bytes with working areas at hand: the routine programs
    the first halfword, the padded one is written singly. *)
Example stm32x_write_three_bytes_block :
  let o := Stm32x.stm32x_write [0x11; 0x22; 0x33] 0 3
             (ram_target true true true) stm32x_fresh_bank [] in
  result o = Some ERROR_OK /\
  programmed (trace o) =
    [RunAlgorithm 0x20000100 0x08000000 1 0 0x20000000 0 10000;
     WriteU16 0x08000002 0xFF33] /\
  outstanding (trace o) = [].
Proof. vm_compute. repeat split; reflexivity. Qed.

(** The fuel is enough: [stm32x_write_block] and [stm32x_write] always
    return. *)
Lemma stm32x_write_block_returns
  (t : target) (b : Stm32x.bank) (buffer : list Z) (offset count : Z) tr :
  exists retval,
    result (Stm32x.stm32x_write_block buffer offset count t b tr) = Some retval.
Proof.
  wb_start.
  destruct (is_ok (rc (respond t tr (AllocWorkingArea routine_size))));
    wb_fields; mstep; [|eexists; reflexivity].
  match goal with
  | |- context [if is_ok ?c then _ else _] => destruct (is_ok c)
  end; mstep; [|eexists; reflexivity].
  match goal with
  | |- context [Stm32x.alloc_source ?f ?bs ?t ?b0 ?tr0] =>
      destruct (alloc_source_cases f bs t b0 tr0 ltac:(cbn; lia))
        as (r & tr1 & He & _ & Hr)
  end.
  rewrite He. cbn [result bank_after trace].
  destruct r as [e|[source size]]; mstep; [eexists; reflexivity|].
  match goal with
  | |- context [Stm32x.write_chunks ?f ?s ?bs ?bf ?a ?c ?t ?b0 ?tr0] =>
      destruct (write_chunks_total f s bs bf a c t b0 tr0 ltac:(lia) Hr) as [r Hres]
  end.
  rewrite Hres. mstep. eexists. reflexivity.
Qed.

Lemma write_single_returns (t : target) (b : Stm32x.bank) (buffer : list Z)
  (address words bytes : Z) tr :
  exists retval,
    result (Stm32x.write_single buffer address words bytes t b tr) = Some retval.
Proof.
  unfold Stm32x.write_single. mstep.
  destruct (result (Stm32x.write_words (Z.to_nat words) buffer address 0 t b tr))
    as [e|[a w]]; mstep; [eexists; reflexivity|].
  match goal with
  | |- context [if is_ok ?c then _ else _] => destruct (is_ok c)
  end; mstep; eexists; reflexivity.
Qed.

Lemma stm32x_write_returns
  (t : target) (b : Stm32x.bank) (buffer : list Z) (offset count : Z) tr :
  exists retval,
    result (Stm32x.stm32x_write buffer offset count t b tr) = Some retval.
Proof.
  unfold Stm32x.stm32x_write. rewrite bind_get_bank. cbv beta.
  unfold bind at 1, get_target_state. cbn [result bank_after trace].
  destruct (negb (is_halted (state t))); [eexists; reflexivity|].
  destruct (negb (Z.land offset 1 =? 0)); [eexists; reflexivity|].
  unfold guard_ok_opt at 1. unfold bind at 1. rewrite write_u32_run.
  cbn [result bank_after trace].
  match goal with
  | |- context [if is_ok ?c then _ else _] => destruct (is_ok c)
  end; [|eexists; reflexivity].
  unfold guard_ok_opt at 1. unfold bind at 1. rewrite write_u32_run.
  cbn [result bank_after trace].
  match goal with
  | |- context [if is_ok ?c then _ else _] => destruct (is_ok c)
  end; [|eexists; reflexivity].
  destruct (count / 2 >? 0); [|apply write_single_returns].
  unfold bind at 1.
  match goal with
  | |- context [Stm32x.stm32x_write_block ?bf ?o ?c ?t ?b0 ?tr0] =>
      destruct (stm32x_write_block_returns t b0 bf o c tr0) as [e He];
      rewrite He
  end.
  destruct (negb (is_ok e)); [|apply write_single_returns].
  destruct (negb (is_resource_not_available e));
    [eexists; reflexivity | apply write_single_returns].
Qed.

(** * Further properties of the drivers *)

(** ** The poll for the flash *)

Lemma wait_busy_loop_budget (t : target) n :
  forall (b : Stm32x.bank) tr,
    let off := Stm32x.register_offset (driver_priv b) in
    let o := Stm32x.wait_busy_loop n t b tr in
    bank_after o = b /\
    (count_calls is_read_u32 (trace o) <= count_calls is_read_u32 tr + n + 1)%nat /\
    (count_calls is_sleep (trace o) <= count_calls is_sleep tr + n)%nat /\
    (forall status, result o = inr status ->
       exists tr0, trace o = after t tr0 (status_read off) /\
         rc (respond t tr0 (status_read off)) = ERROR_OK /\
         status = u32 (out (respond t tr0 (status_read off))) /\
         Z.land status Stm32x.FLASH_BSY = 0).
Proof.
  induction n as [|n IH]; intros b tr off;
    cbn [Stm32x.wait_busy_loop]; unfold Stm32x.stm32x_get_flash_status; mstep;
    unfold Stm32x.stm32x_get_flash_reg; fold off; fold (status_read off).
  - destruct (rc (respond t tr (status_read off))) eqn:Hrc; cbn [is_ok negb]; mstep;
      try (rewrite !count_calls_after; cbn [is_read_u32 is_sleep status_read];
           repeat split; try lia; intros s Hs; discriminate).
    destruct (Z.eqb_spec (Z.land (u32 (out (respond t tr (status_read off))))
                            Stm32x.FLASH_BSY) 0) as [Hb|Hb]; mstep;
      rewrite !count_calls_after; cbn [is_read_u32 is_sleep status_read];
      repeat split; try lia; intros s Hs; try discriminate.
    inversion Hs; subst s. exists tr. auto.
  - destruct (rc (respond t tr (status_read off))) eqn:Hrc; cbn [is_ok negb]; mstep;
      try (rewrite !count_calls_after; cbn [is_read_u32 is_sleep status_read];
           repeat split; try lia; intros s Hs; discriminate).
    destruct (Z.eqb_spec (Z.land (u32 (out (respond t tr (status_read off))))
                            Stm32x.FLASH_BSY) 0) as [Hb|Hb]; mstep.
    + rewrite !count_calls_after; cbn [is_read_u32 is_sleep status_read].
      repeat split; try lia. intros s Hs. inversion Hs; subst s. exists tr. auto.
    + match goal with
      | |- context [Stm32x.wait_busy_loop n t b ?tr1] =>
          destruct (IH b tr1) as (H1 & H2 & H3 & H4); fold off in H4
      end.
      rewrite !count_calls_after in H2, H3. cbn [is_read_u32 is_sleep status_read] in H2, H3.
      repeat split; [exact H1 | lia | lia | exact H4].
Qed.

(** X1. The poll for the flash never touches the bank, reads the status
    register at most [timeout + 1] times and sleeps at most [timeout]
    times (a negative timeout counts as 0).  When it returns [ERROR_OK],
    its last call was a status read that succeeded and showed the flash
    idle with no error bit. *)
Theorem wait_status_busy_budget
  (t : target) (b : Stm32x.bank) (tr : list event) (timeout : Z) :
  let off := Stm32x.register_offset (driver_priv b) in
  let o := Stm32x.stm32x_wait_status_busy timeout t b tr in
  bank_after o = b /\
  (count_calls is_read_u32 (trace o) <=
   count_calls is_read_u32 tr + Z.to_nat timeout + 1)%nat /\
  (count_calls is_sleep (trace o) <= count_calls is_sleep tr + Z.to_nat timeout)%nat /\
  (result o = ERROR_OK ->
   exists tr0, trace o = after t tr0 (status_read off) /\
     rc (respond t tr0 (status_read off)) = ERROR_OK /\
     flash_idle (u32 (out (respond t tr0 (status_read off))))).
Proof.
  intros off o. subst o.
  destruct (wait_busy_loop_budget t (Z.to_nat timeout) b tr) as (H1 & H2 & H3 & H4).
  fold off in H4.
  unfold Stm32x.stm32x_wait_status_busy. mstep.
  destruct (result (Stm32x.wait_busy_loop (Z.to_nat timeout) t b tr)) as [e|status] eqn:Hres;
    mstep.
  - repeat split; try assumption. intros He. subst e.
    exfalso. revert Hres. clear.
    generalize (Z.to_nat timeout) as n. intros n. revert b tr.
    induction n as [|n IH]; intros b tr; cbn [Stm32x.wait_busy_loop];
      unfold Stm32x.stm32x_get_flash_status; mstep;
      repeat match goal with
             | |- context [if negb (is_ok ?c) then _ else _] =>
                 destruct c eqn:?; cbn [is_ok negb]; mstep
             | |- context [if ?c =? ?d then _ else _] => destruct (c =? d); mstep
             end; try discriminate.
    apply IH.
  - destruct (H4 status eq_refl) as (tr0 & Htr & Hrc & Hst & Hb).
    destruct (Z.eqb_spec (Z.land status (Z.lor Stm32x.FLASH_WRPRTERR Stm32x.FLASH_PGERR)) 0)
      as [Hz|Hnz]; cbn [negb]; mstep.
    + repeat split; try assumption. intros _. exists tr0.
      rewrite Z.land_lor_distr_r in Hz. apply Z.lor_eq_0_iff in Hz.
      rewrite <- Hst. unfold flash_idle. tauto.
    + rewrite !count_calls_after. cbn [is_read_u32 is_sleep].
      repeat split; try assumption; try lia.
      intros Hok. exfalso.
      destruct (Z.eqb_spec (Z.land status Stm32x.FLASH_PGERR) 0) as [Hp|Hp];
        cbn [negb] in Hok; [|discriminate].
      destruct (Z.eqb_spec (Z.land status Stm32x.FLASH_WRPRTERR) 0) as [Hw|Hw];
        cbn [negb] in Hok; [|discriminate].
      apply Hnz. rewrite Z.land_lor_distr_r, Hw, Hp. reflexivity.
Qed.
(** ** Invariants, one operation at a time *)

Section Keeps.
Context {S : Type}.
Variable J : S -> list event -> Prop.
Variable t : target.

Lemma keeps_ret {A} (a : A) : keeps J t (ret a).
Proof. intros b tr H. exact H. Qed.

Lemma keeps_bind {A B} (m : M S A) (f : A -> M S B) :
  keeps J t m -> (forall a, keeps J t (f a)) -> keeps J t (bind m f).
Proof. intros Hm Hf b tr H. unfold bind. cbn beta zeta. apply Hf, Hm, H. Qed.

(** The continuation of [get_bank] runs on a bank at which [J] holds. *)
Lemma keeps_get_bank {B} (f : S -> M S B) :
  (forall b0, (exists tr0, J b0 tr0) -> keeps J t (f b0)) -> keeps J t (bind get_bank f).
Proof. intros Hf b tr H. apply (Hf b); [exists tr; exact H | exact H]. Qed.

Lemma keeps_get_target_state {B} (f : target_state -> M S B) :
  keeps J t (f (state t)) -> keeps J t (bind get_target_state f).
Proof. intros Hf b tr H. apply Hf, H. Qed.

Lemma keeps_guard_ok (m k : M S error_code) :
  keeps J t m -> keeps J t k -> keeps J t (guard_ok m k).
Proof.
  intros Hm Hk. unfold guard_ok. apply keeps_bind; [exact Hm|].
  intros a. destruct (is_ok a); [exact Hk | apply keeps_ret].
Qed.

Lemma keeps_guard_ok_opt (m : M S error_code) (k : M S (option error_code)) :
  keeps J t m -> keeps J t k -> keeps J t (guard_ok_opt m k).
Proof.
  intros Hm Hk. unfold guard_ok_opt. apply keeps_bind; [exact Hm|].
  intros a. destruct (is_ok a); [exact Hk | apply keeps_ret].
Qed.

Lemma keeps_modify_bank (f : S -> S) :
  (forall b tr, J b tr -> J (f b) tr) -> keeps J t (modify_bank f).
Proof. intros H b tr Hb. apply H, Hb. Qed.

Lemma keeps_put_bank (b' : S) :
  (forall b tr, J b tr -> J b' tr) -> keeps J t (put_bank b').
Proof. intros H b tr Hb. exact (H b tr Hb). Qed.

Lemma keeps_tap (c : call) : admits J t c -> keeps J t (tap c).
Proof. intros H b tr Hb. apply H, Hb. Qed.

Lemma keeps_read_u32 (a : Z) :
  admits J t (ReadU32 (u32 a)) -> keeps J t (target_read_u32 a).
Proof.
  intros H. unfold target_read_u32. apply keeps_bind; [apply keeps_tap, H|].
  intros r. apply keeps_ret.
Qed.

Lemma keeps_read_u16 (a : Z) :
  admits J t (ReadU16 (u32 a)) -> keeps J t (target_read_u16 a).
Proof.
  intros H. unfold target_read_u16. apply keeps_bind; [apply keeps_tap, H|].
  intros r. apply keeps_ret.
Qed.

Lemma keeps_write_u32 (a v : Z) :
  admits J t (WriteU32 (u32 a) (u32 v)) -> keeps J t (target_write_u32 a v).
Proof.
  intros H. unfold target_write_u32. apply keeps_bind; [apply keeps_tap, H|].
  intros r. apply keeps_ret.
Qed.

Lemma keeps_write_u16 (a v : Z) :
  admits J t (WriteU16 (u32 a) (u16 v)) -> keeps J t (target_write_u16 a v).
Proof.
  intros H. unfold target_write_u16. apply keeps_bind; [apply keeps_tap, H|].
  intros r. apply keeps_ret.
Qed.

Lemma keeps_alive_sleep (ms : Z) :
  admits J t (AliveSleep ms) -> keeps J t (alive_sleep ms).
Proof.
  intros H. unfold alive_sleep. apply keeps_bind; [apply keeps_tap, H|].
  intros r. apply keeps_ret.
Qed.

Lemma keeps_busy_sleep (ms : Z) :
  admits J t (BusySleep ms) -> keeps J t (busy_sleep ms).
Proof.
  intros H. unfold busy_sleep. apply keeps_bind; [apply keeps_tap, H|].
  intros r. apply keeps_ret.
Qed.

Lemma keeps_alloc (size : Z) :
  admits J t (AllocWorkingArea size) -> keeps J t (target_alloc_working_area size).
Proof.
  intros H. unfold target_alloc_working_area.
  apply keeps_bind; [apply keeps_tap, H|]. intros r. apply keeps_ret.
Qed.

Lemma keeps_alloc_try (size : Z) :
  admits J t (AllocWorkingAreaTry size) -> keeps J t (target_alloc_working_area_try size).
Proof.
  intros H. unfold target_alloc_working_area_try.
  apply keeps_bind; [apply keeps_tap, H|]. intros r. apply keeps_ret.
Qed.

Lemma keeps_free (a : working_area) :
  admits J t (FreeWorkingArea a) -> keeps J t (target_free_working_area a).
Proof.
  intros H. unfold target_free_working_area.
  apply keeps_bind; [apply keeps_tap, H|]. intros r. apply keeps_ret.
Qed.

Lemma keeps_write_buffer (a size : Z) (buffer : list Z) :
  admits J t (WriteBuffer (u32 a) size (firstn (Z.to_nat size) buffer)) ->
  keeps J t (target_write_buffer a size buffer).
Proof.
  intros H. unfold target_write_buffer.
  apply keeps_bind; [apply keeps_tap, H|]. intros r. apply keeps_ret.
Qed.

Lemma keeps_run (r0 r1 r2 r3 e x ms : Z) :
  admits J t (RunAlgorithm r0 r1 r2 r3 (u32 e) x ms) ->
  keeps J t (target_run_algorithm r0 r1 r2 r3 e x ms).
Proof.
  intros H. unfold target_run_algorithm.
  apply keeps_bind; [apply keeps_tap, H|]. intros r. apply keeps_ret.
Qed.

End Keeps.

(** A call of the class gets through [grown_by]. *)
Lemma admits_grown_by {S} (P : call -> bool) (I : S -> Prop) tr0 (t : target) (c : call) :
  P c = true -> admits (grown_by P I tr0) t c.
Proof.
  intros Hc b tr (Hi & ext & -> & Hall). split; [exact Hi|].
  exists (ext ++ [(c, respond t (tr0 ++ ext) c)]). split.
  - unfold after. rewrite app_assoc. reflexivity.
  - unfold calls in *. rewrite map_app, forallb_app.
    apply andb_true_intro. split; [exact Hall|]. simpl. rewrite Hc. reflexivity.
Qed.

(** Decompose a goal [keeps J t m] along the structure of [m]; [side]
    solves what the calls and the bank updates of [m] leave. *)
Ltac keeps_step side :=
  lazymatch goal with
  | |- keeps _ _ (ret _) => apply keeps_ret
  | |- keeps _ _ (bind get_bank _) => apply keeps_get_bank; intros ? ?
  | |- keeps _ _ (bind get_target_state _) => apply keeps_get_target_state
  | |- keeps _ _ (bind _ _) => apply keeps_bind; [|intros ?]
  | |- keeps _ _ (guard_ok _ _) => apply keeps_guard_ok
  | |- keeps _ _ (guard_ok_opt _ _) => apply keeps_guard_ok_opt
  | |- keeps _ _ (target_read_u32 _) => apply keeps_read_u32; side
  | |- keeps _ _ (target_read_u16 _) => apply keeps_read_u16; side
  | |- keeps _ _ (target_write_u32 _ _) => apply keeps_write_u32; side
  | |- keeps _ _ (target_write_u16 _ _) => apply keeps_write_u16; side
  | |- keeps _ _ (alive_sleep _) => apply keeps_alive_sleep; side
  | |- keeps _ _ (busy_sleep _) => apply keeps_busy_sleep; side
  | |- keeps _ _ (target_alloc_working_area _) => apply keeps_alloc; side
  | |- keeps _ _ (target_alloc_working_area_try _) => apply keeps_alloc_try; side
  | |- keeps _ _ (target_free_working_area _) => apply keeps_free; side
  | |- keeps _ _ (target_write_buffer _ _ _) => apply keeps_write_buffer; side
  | |- keeps _ _ (target_run_algorithm _ _ _ _ _ _ _) => apply keeps_run; side
  | |- keeps _ _ (modify_bank _) => apply keeps_modify_bank; side
  | |- keeps _ _ (put_bank _) => apply keeps_put_bank; side
  | |- keeps _ _ (if ?c then _ else _) => destruct c
  | |- keeps _ _ (match ?x with _ => _ end) => destruct x
  | |- keeps _ _ (let _ := _ in _) => cbv zeta
  end.

Ltac keeps_auto side := repeat (keeps_step side).

(** The poll for the flash keeps what admits status reads, sleeps and the
    write that clears the error bits. *)
Lemma wait_busy_loop_keeps (J : Stm32x.bank -> list event -> Prop) (t : target) n :
  (forall a, admits J t (ReadU32 a)) ->
  (forall ms, admits J t (AliveSleep ms)) ->
  keeps J t (Stm32x.wait_busy_loop n).
Proof.
  intros Hr Hs. induction n as [|n IH]; cbn [Stm32x.wait_busy_loop];
    unfold Stm32x.stm32x_get_flash_status;
    keeps_auto ltac:(first [apply Hr | apply Hs]); exact IH.
Qed.
Lemma wait_status_busy_keeps (J : Stm32x.bank -> list event -> Prop) (t : target) timeout :
  (forall a, admits J t (ReadU32 a)) ->
  (forall ms, admits J t (AliveSleep ms)) ->
  (forall b0, (exists tr0, J b0 tr0) ->
     admits J t (WriteU32 (u32 (Stm32x.stm32x_get_flash_reg b0 Stm32x.STM32_FLASH_SR))
                   (u32 (Z.lor Stm32x.FLASH_WRPRTERR Stm32x.FLASH_PGERR)))) ->
  keeps J t (Stm32x.stm32x_wait_status_busy timeout).
Proof.
  intros Hr Hs Hc. unfold Stm32x.stm32x_wait_status_busy.
  apply keeps_bind; [apply wait_busy_loop_keeps; assumption|].
  intros r. keeps_auto ltac:(first [apply Hr | apply Hs | apply Hc; assumption]).
Qed.

(** ** Writing to the second bank *)

Section WriteBank1.
Variable t : target.
Variable tr0 : list event.



Ltac bank1_side :=
  first
    [ apply admits_grown_by;
      repeat match goal with
             | H : exists _, bank1_not_locked _ _ _ |- _ => destruct H as (? & H & _)
             end;
      unfold Stm32x.stm32x_get_flash_reg;
      repeat match goal with
             | H : Stm32x.register_offset _ = _ |- _ => rewrite H
             end;
      reflexivity
    | intros ? ? (? & ?); split; [assumption | assumption] ].

Lemma wait_status_busy_bank1 timeout : keeps (bank1_not_locked tr0) t (Stm32x.stm32x_wait_status_busy timeout).
Proof.
  apply wait_status_busy_keeps; intros; bank1_side.
Qed.

Lemma alloc_source_bank1 fuel :
  forall buffer_size, keeps (bank1_not_locked tr0) t (Stm32x.alloc_source fuel buffer_size).
Proof.
  induction fuel as [|fuel IH]; intros buffer_size; cbn [Stm32x.alloc_source];
    keeps_auto bank1_side; apply IH.
Qed.

Lemma write_chunks_bank1 fuel :
  forall source buffer_size buffer address count,
    keeps (bank1_not_locked tr0) t (Stm32x.write_chunks fuel source buffer_size buffer address count).
Proof.
  induction fuel as [|fuel IH]; intros source buffer_size buffer address count;
    cbn [Stm32x.write_chunks]; keeps_auto bank1_side; apply IH.
Qed.

Lemma write_block_bank1 buffer offset count :
  keeps (bank1_not_locked tr0) t (Stm32x.stm32x_write_block buffer offset count).
Proof.
  unfold Stm32x.stm32x_write_block, Stm32x.modify_priv.
  keeps_auto bank1_side;
    first [apply alloc_source_bank1 | apply write_chunks_bank1].
Qed.

Lemma write_words_bank1 n :
  forall buffer address bytes_written,
    keeps (bank1_not_locked tr0) t (Stm32x.write_words n buffer address bytes_written).
Proof.
  induction n as [|n IH]; intros buffer address bytes_written;
    cbn [Stm32x.write_words]; keeps_auto bank1_side;
    first [apply wait_status_busy_bank1 | apply IH].
Qed.

Lemma write_single_bank1 buffer address words_remaining bytes_remaining :
  keeps (bank1_not_locked tr0) t (Stm32x.write_single buffer address words_remaining bytes_remaining).
Proof.
  unfold Stm32x.write_single.
  keeps_auto bank1_side;
    first [apply write_words_bank1 | apply wait_status_busy_bank1].
Qed.

Lemma stm32x_write_bank1 buffer offset count :
  keeps (bank1_not_locked tr0) t (Stm32x.stm32x_write buffer offset count).
Proof.
  unfold Stm32x.stm32x_write.
  keeps_auto bank1_side;
    first [apply write_block_bank1 | apply write_single_bank1].
Qed.

End WriteBank1.

Lemma count_calls_none class (ext : list event) :
  forallb (fun c => negb (class c)) (calls ext) = true -> count_calls class ext = 0%nat.
Proof.
  unfold count_calls. induction (calls ext) as [|c l IH]; simpl; [reflexivity|].
  intros H. apply andb_prop in H. destruct H as [Hc Hl].
  destruct (class c); [discriminate | apply IH, Hl].
Qed.

Lemma count_calls_app class (tr ext : list event) :
  count_calls class (tr ++ ext) = (count_calls class tr + count_calls class ext)%nat.
Proof. unfold count_calls, calls. rewrite map_app, filter_app, length_app. reflexivity. Qed.


(** ** What holds at the end of every run *)

Section Always.
Context {S : Type}.
Variable t : target.

Lemma always_ret {A} (a : A) (Q : A -> S -> list event -> Prop) :
  (forall b tr, Q a b tr) -> always t (ret a) Q.
Proof. intros H b tr. apply H. Qed.

Lemma always_bind {A B} (m : M S A) (f : A -> M S B) (Q : B -> S -> list event -> Prop) :
  (forall a, always t (f a) Q) -> always t (bind m f) Q.
Proof. intros H b tr. unfold bind. cbn beta zeta. apply H. Qed.

Lemma always_guard_ok (m k : M S error_code) (Q : error_code -> S -> list event -> Prop) :
  always t k Q -> (forall e b tr, is_ok e = false -> Q e b tr) ->
  always t (guard_ok m k) Q.
Proof.
  intros Hk He. unfold guard_ok. apply always_bind. intros a.
  destruct (is_ok a) eqn:E; [exact Hk | apply always_ret; intros; apply He, E].
Qed.

Lemma always_guard_ok_opt (m : M S error_code) (k : M S (option error_code))
  (Q : option error_code -> S -> list event -> Prop) :
  always t k Q -> (forall e b tr, is_ok e = false -> Q (Some e) b tr) ->
  always t (guard_ok_opt m k) Q.
Proof.
  intros Hk He. unfold guard_ok_opt. apply always_bind. intros a.
  destruct (is_ok a) eqn:E; [exact Hk | apply always_ret; intros; apply He, E].
Qed.

(** What is known of the result of [m] can be used for what follows. *)
Lemma always_bind_result {A B} (m : M S A) (f : A -> M S B) (P : A -> Prop)
  (Q : B -> S -> list event -> Prop) :
  always t m (fun r _ _ => P r) -> (forall a, P a -> always t (f a) Q) ->
  always t (bind m f) Q.
Proof. intros Hm Hf b tr. unfold bind. cbn beta zeta. apply Hf, Hm. Qed.

(** A register write whose return code is the result. *)
Lemma always_last_write {A} (a v : Z) (g : error_code -> A)
  (Q : A -> S -> list event -> Prop) :
  (forall b tr, Q (g (rc (respond t tr (WriteU32 (u32 a) (u32 v))))) b
                  (after t tr (WriteU32 (u32 a) (u32 v)))) ->
  always t (bind (target_write_u32 a v) (fun retval => ret (g retval))) Q.
Proof. intros H b tr. apply H. Qed.

End Always.

Lemma not_ok_neq (e : error_code) : is_ok e = false -> e <> ERROR_OK.
Proof. intros H ->. discriminate. Qed.

Ltac always_step :=
  lazymatch goal with
  | |- always _ (ret _) _ => apply always_ret; intros ? ?
  | |- always _ (bind (target_write_u32 _ _) (fun retval => ret _)) _ =>
      apply always_last_write; intros ? ?
  | |- always _ (bind _ _) _ => apply always_bind; intros ?
  | |- always _ (guard_ok _ _) _ => apply always_guard_ok; [|intros ? ? ? ?]
  | |- always _ (guard_ok_opt _ _) _ => apply always_guard_ok_opt; [|intros ? ? ? ?]
  | |- always _ (if negb (is_ok ?c) then _ else _) _ =>
      let E := fresh "E" in destruct (is_ok c) eqn:E; cbn [negb]
  | |- always _ (if ?c then _ else _) _ => destruct c
  | |- always _ (match ?x with _ => _ end) _ => destruct x
  | |- always _ (let _ := _ in _) _ => cbv zeta
  end.

(** The loop over the halfwords leaves with [inl] on an error only. *)
Lemma write_words_inl (t : target) n :
  forall buffer address bytes_written,
    always t (Stm32x.write_words n buffer address bytes_written)
      (fun r _ _ => forall e, r = inl e -> e <> ERROR_OK).
Proof.
  induction n as [|n IH]; intros buffer address bytes_written;
    cbn [Stm32x.write_words]; repeat always_step;
    try (intros e He; inversion He; subst; apply not_ok_neq; assumption);
    try discriminate.
  apply IH.
Qed.

(** A write that returns [ERROR_OK] has ended on the write of
    [FLASH_LOCK] to [STM32_FLASH_CR], with no register offset. *)
Lemma write_single_ends_locked (t : target) buffer address words_remaining bytes_remaining :
  always t (Stm32x.write_single buffer address words_remaining bytes_remaining)
    (fun r _ tr =>
       r = Some ERROR_OK ->
       ends_with t (WriteU32 Stm32x.STM32_FLASH_CR Stm32x.FLASH_LOCK) tr).
Proof.
  unfold Stm32x.write_single. cbv zeta.
  eapply always_bind_result; [apply write_words_inl|].
  intros [e|[a bw]] Hp; repeat always_step.
  all: intros He;
    first [ eexists; reflexivity
          | inversion He; subst;
            first [exfalso; exact (Hp _ eq_refl eq_refl) | discriminate] ].
Qed.

Lemma stm32x_write_ends_locked (t : target) buffer offset count :
  always t (Stm32x.stm32x_write buffer offset count)
    (fun r _ tr =>
       r = Some ERROR_OK ->
       ends_with t (WriteU32 Stm32x.STM32_FLASH_CR Stm32x.FLASH_LOCK) tr).
Proof.
  unfold Stm32x.stm32x_write.
  repeat always_step; try apply write_single_ends_locked.
  all: intros He; inversion He; subst; discriminate.
Qed.

(** X2. A write to the second bank of a dual-bank device (registers at
    offset [FLASH_OFFSET_B1]) never writes [FLASH_LOCK] to the control
    register of that bank, whatever the target answers; when it returns
    [ERROR_OK], its last call is the write of [FLASH_LOCK] to the control
    register of the first bank. *)
Theorem stm32x_write_locks_first_bank_only
  (t : target) (b : Stm32x.bank) (tr : list event) (buffer : list Z) (offset count : Z) :
  Stm32x.register_offset (driver_priv b) = Stm32x.FLASH_OFFSET_B1 ->
  let o := Stm32x.stm32x_write buffer offset count t b tr in
  count_calls (is_lock_write Stm32x.FLASH_OFFSET_B1) (trace o) =
    count_calls (is_lock_write Stm32x.FLASH_OFFSET_B1) tr /\
  (result o = Some ERROR_OK ->
   ends_with t (WriteU32 Stm32x.STM32_FLASH_CR Stm32x.FLASH_LOCK) (trace o)).
Proof.
  intros Hoff o. split.
  - destruct (stm32x_write_bank1 t tr buffer offset count b tr) as (_ & ext & Hext & Hall).
    + split; [exact Hoff|]. exists []. split; [symmetry; apply app_nil_r | reflexivity].
    + fold o in Hext. rewrite Hext, count_calls_app.
      rewrite (count_calls_none _ ext Hall). lia.
  - apply (stm32x_write_ends_locked t buffer offset count b tr).
Qed.

Lemma stm32x_write_locks_first_bank_only_witness :
  let o := Stm32x.stm32x_write [0xAA; 0xBB; 0xCC] 0 3 xl_target xl_bank1 [] in
  Stm32x.register_offset (driver_priv xl_bank1) = Stm32x.FLASH_OFFSET_B1 /\
  result o = Some ERROR_OK /\
  count_calls (is_lock_write Stm32x.FLASH_OFFSET_B1) (trace o) = 0%nat /\
  ends_with xl_target (WriteU32 Stm32x.STM32_FLASH_CR Stm32x.FLASH_LOCK) (trace o).
Proof.
  assert (Hoff : Stm32x.register_offset (driver_priv xl_bank1) = Stm32x.FLASH_OFFSET_B1)
    by (vm_compute; reflexivity).
  assert (Hok : result (Stm32x.stm32x_write [0xAA; 0xBB; 0xCC] 0 3 xl_target xl_bank1 [])
                = Some ERROR_OK) by (vm_compute; reflexivity).
  destruct (stm32x_write_locks_first_bank_only xl_target xl_bank1 [] [0xAA; 0xBB; 0xCC] 0 3 Hoff)
    as [Hc Hl].
  cbv zeta. split; [exact Hoff|]. split; [exact Hok|]. split; [exact Hc | exact (Hl Hok)].
Defined.
(** ** From a precondition to a postcondition *)

Section Hoare.
Context {S : Type}.
Variable t : target.

Lemma hoare_ret {A} (J : S -> list event -> Prop) (a : A) Q :
  (forall b tr, J b tr -> Q a b tr) -> hoare t J (ret a) Q.
Proof. intros H b tr Hj. apply H, Hj. Qed.

Lemma hoare_bind {A B} (J : S -> list event -> Prop) (m : M S A) (f : A -> M S B) K Q :
  hoare t J m K -> (forall a, hoare t (K a) (f a) Q) -> hoare t J (bind m f) Q.
Proof. intros Hm Hf b tr Hj. unfold bind. cbn beta zeta. apply Hf, Hm, Hj. Qed.

Lemma hoare_keep_bind {A B} (J : S -> list event -> Prop) (m : M S A) (f : A -> M S B) Q :
  keeps J t m -> (forall a, hoare t J (f a) Q) -> hoare t J (bind m f) Q.
Proof. intros Hm Hf b tr Hj. unfold bind. cbn beta zeta. apply Hf, Hm, Hj. Qed.

Lemma hoare_get_bank {B} (J : S -> list event -> Prop) (f : S -> M S B) Q :
  (forall b0, (exists tr0, J b0 tr0) -> hoare t J (f b0) Q) ->
  hoare t J (bind get_bank f) Q.
Proof. intros Hf b tr Hj. apply (Hf b); [exists tr; exact Hj | exact Hj]. Qed.

Lemma hoare_get_target_state {B} (J : S -> list event -> Prop)
  (f : target_state -> M S B) Q :
  hoare t J (f (state t)) Q -> hoare t J (bind get_target_state f) Q.
Proof. intros Hf b tr Hj. apply Hf, Hj. Qed.

Lemma hoare_guard_ok (J : S -> list event -> Prop) (m k : M S error_code) Q :
  keeps J t m -> hoare t J k Q ->
  (forall e b tr, is_ok e = false -> J b tr -> Q e b tr) ->
  hoare t J (guard_ok m k) Q.
Proof.
  intros Hm Hk He. unfold guard_ok. apply hoare_keep_bind; [exact Hm|].
  intros a. destruct (is_ok a) eqn:E; [exact Hk|].
  apply hoare_ret. intros b tr Hj. apply He; assumption.
Qed.

Lemma hoare_guard_ok_opt (J : S -> list event -> Prop) (m : M S error_code)
  (k : M S (option error_code)) Q :
  keeps J t m -> hoare t J k Q ->
  (forall e b tr, is_ok e = false -> J b tr -> Q (Some e) b tr) ->
  hoare t J (guard_ok_opt m k) Q.
Proof.
  intros Hm Hk He. unfold guard_ok_opt. apply hoare_keep_bind; [exact Hm|].
  intros a. destruct (is_ok a) eqn:E; [exact Hk|].
  apply hoare_ret. intros b tr Hj. apply He; assumption.
Qed.

Lemma hoare_guard_ok_bind (J : S -> list event -> Prop) (m k : M S error_code) K Q :
  hoare t J m K -> hoare t (K ERROR_OK) k Q ->
  (forall e b tr, is_ok e = false -> K e b tr -> Q e b tr) ->
  hoare t J (guard_ok m k) Q.
Proof.
  intros Hm Hk He. unfold guard_ok. apply hoare_bind with (K := K); [exact Hm|].
  intros a. destruct a; try (apply hoare_ret; intros b tr Hj; apply He; [reflexivity | exact Hj]).
  exact Hk.
Qed.

Lemma hoare_weaken {A} (J J' : S -> list event -> Prop) (m : M S A) Q :
  (forall b tr, J b tr -> J' b tr) -> hoare t J' m Q -> hoare t J m Q.
Proof. intros H Hm b tr Hj. apply Hm, H, Hj. Qed.

Lemma hoare_conseq {A} (J : S -> list event -> Prop) (m : M S A) (Q Q' : A -> S -> list event -> Prop) :
  hoare t J m Q' -> (forall r b tr, Q' r b tr -> Q r b tr) -> hoare t J m Q.
Proof. intros Hm H b tr Hj. apply H, Hm, Hj. Qed.

Lemma hoare_modify_bank (J : S -> list event -> Prop) (f : S -> S) Q :
  (forall b tr, J b tr -> Q tt (f b) tr) -> hoare t J (modify_bank f) Q.
Proof. intros H b tr Hj. apply H, Hj. Qed.

End Hoare.

(** Whatever does not look at the trace admits every call. *)
Lemma admits_bank_only {S} (I : S -> Prop) (t : target) (c : call) :
  admits (fun b _ => I b) t c.
Proof. intros b tr H. exact H. Qed.

Ltac hoare_step keep :=
  lazymatch goal with
  | |- hoare _ _ (ret _) _ => apply hoare_ret; intros ? ? ?
  | |- hoare _ _ (bind get_bank _) _ => apply hoare_get_bank; intros ? ?
  | |- hoare _ _ (bind get_target_state _) _ => apply hoare_get_target_state
  | |- hoare _ _ (bind _ _) _ => apply hoare_keep_bind; [keep | intros ?]
  | |- hoare _ _ (guard_ok (target_write_u32 _ _) (ret ERROR_OK)) _ =>
      fail "the last write"
  | |- hoare _ _ (guard_ok _ _) _ => apply hoare_guard_ok; [keep | | intros ? ? ? ? ?]
  | |- hoare _ _ (guard_ok_opt _ _) _ =>
      apply hoare_guard_ok_opt; [keep | | intros ? ? ? ? ?]
  | |- hoare _ _ (if negb (is_ok ?c) then _ else _) _ =>
      let E := fresh "E" in destruct (is_ok c) eqn:E; cbn [negb]
  | |- hoare _ _ (if ?c then _ else _) _ => let E := fresh "E" in destruct c eqn:E
  | |- hoare _ _ (match ?x with _ => _ end) _ => destruct x
  | |- hoare _ _ (let _ := _ in _) _ => cbv zeta
  end.

(** ** Erase: what it changes *)

Lemma erase_frame_refl {P} (first last : Z) (b : flash_bank P) : erase_frame first last b b.
Proof. unfold erase_frame. repeat split; auto. Qed.

Lemma erase_frame_mark {P} (first last i : Z) (b0 b : flash_bank P) :
  first <= i <= last ->
  erase_frame first last b0 b ->
  erase_frame first last b0
    (set_sectors (update_sector i (with_is_erased 1) (sectors b)) b).
Proof.
  intros Hi (H1 & H2 & H3 & H4 & H5 & H6). unfold erase_frame. cbn [bank_base bank_size
    num_sectors driver_priv sectors set_sectors].
  repeat split; try assumption.
  - rewrite update_sector_length. exact H5.
  - intros j. destruct (Z.eq_dec i j) as [<-|Hne].
    + destruct (Z_lt_dec i 0) as [Hn|Hn];
        [|destruct (Z_lt_dec i (Z.of_nat (length (sectors b)))) as [Hl|Hl]].
      * unfold update_sector. destruct (Z.ltb_spec i 0); [apply H6 | lia].
      * rewrite sector_at_update_same by lia.
        destruct (H6 i) as [He|(_ & He)]; rewrite He; right; split; auto.
      * rewrite sector_at_outside by (rewrite update_sector_length; lia).
        rewrite <- (sector_at_outside (sectors b) i) by lia. apply H6.
    + rewrite sector_at_update_other by exact Hne. apply H6.
Qed.

Section EraseFrame.
Variable t : target.
Variables first last : Z.

Ltac frame_side := first [ apply admits_bank_only | idtac ].

Lemma stm32x_wait_frame (b0 : Stm32x.bank) timeout :
  keeps (fun b _ => erase_frame first last b0 b) t (Stm32x.stm32x_wait_status_busy timeout).
Proof.
  apply wait_status_busy_keeps; intros; apply (admits_bank_only (erase_frame first last b0)).
Qed.

Lemma stm32x_erase_sectors_frame (b0 : Stm32x.bank) n :
  forall i, first <= i -> (n = 0%nat \/ i + Z.of_nat n <= last + 1) ->
    keeps (fun b _ => erase_frame first last b0 b) t (Stm32x.erase_sectors n i).
Proof.
  induction n as [|n IH]; intros i H1 H2; cbn [Stm32x.erase_sectors].
  - apply keeps_ret.
  - unfold set_is_erased.
    keeps_auto ltac:(first [ apply (admits_bank_only (erase_frame first last b0))
                           | intros ? ? ?; apply erase_frame_mark; [lia | assumption] ]).
    + apply stm32x_wait_frame.
    + apply IH; [lia|]. destruct n; [left; reflexivity | right; lia].
Qed.

Lemma stm32x_mass_erase_frame (b0 : Stm32x.bank) :
  keeps (fun b _ => erase_frame first last b0 b) t Stm32x.stm32x_mass_erase.
Proof.
  unfold Stm32x.stm32x_mass_erase.
  keeps_auto ltac:(apply (admits_bank_only (erase_frame first last b0))).
  apply stm32x_wait_frame.
Qed.

Lemma stm32x_erase_frame (b0 : Stm32x.bank) :
  keeps (fun b _ => erase_frame first last b0 b) t (Stm32x.stm32x_erase first last).
Proof.
  unfold Stm32x.stm32x_erase.
  keeps_auto ltac:(apply (admits_bank_only (erase_frame first last b0))).
  - apply stm32x_mass_erase_frame.
  - apply stm32x_erase_sectors_frame; [lia|].
    destruct (Z_le_dec (last - first + 1) 0) as [Hle|Hgt].
    + left. destruct (last - first + 1); try reflexivity. lia.
    + right. lia.
Qed.

Lemma wait_go_loop_frame (b0 : NucX1.bank) n :
  keeps (fun b _ => erase_frame first last b0 b) t (NucX1.wait_go_loop n).
Proof.
  induction n as [|n IH]; cbn [NucX1.wait_go_loop];
    keeps_auto ltac:(apply (admits_bank_only (erase_frame first last b0))); exact IH.
Qed.

Lemma nucX1_erase_sectors_frame (b0 : NucX1.bank) n :
  forall i, first <= i -> (n = 0%nat \/ i + Z.of_nat n <= last + 1) ->
    keeps (fun b _ => erase_frame first last b0 b) t (NucX1.erase_sectors n i).
Proof.
  induction n as [|n IH]; intros i H1 H2; cbn [NucX1.erase_sectors].
  - apply keeps_ret.
  - unfold set_is_erased.
    keeps_auto ltac:(first [ apply (admits_bank_only (erase_frame first last b0))
                           | intros ? ? ?; apply erase_frame_mark; [lia | assumption] ]);
      first [ apply wait_go_loop_frame
            | apply IH; [lia|]; destruct n; [left; reflexivity | right; lia] ].
Qed.

Lemma nucX1_erase_frame (b0 : NucX1.bank) :
  keeps (fun b _ => erase_frame first last b0 b) t (NucX1.nucX1_erase first last).
Proof.
  unfold NucX1.nucX1_erase.
  keeps_auto ltac:(apply (admits_bank_only (erase_frame first last b0))).
  all: apply nucX1_erase_sectors_frame; [lia|].
  all: destruct (Z_le_dec (last - first + 1) 0) as [Hle|Hgt];
    [ left; destruct (last - first + 1); try reflexivity; lia | right; lia ].
Qed.

End EraseFrame.

(** X3. Whatever the target answers, an erase of the sectors
    [first..last], by either driver, leaves the base, the size, the number
    of sectors, the private data and the length of the sector table of the
    bank as they were, and every sector as it was, except that sectors in
    [first..last] may have had [is_erased] set to 1: no other flag, no
    offset, no size and no sector out of the range changes. *)
Theorem erase_changes_erased_flags_only
  (t : target) (first last : Z) (tr : list event) :
  (forall b : Stm32x.bank,
     erase_frame first last b (bank_after (Stm32x.stm32x_erase first last t b tr))) /\
  (forall b : NucX1.bank,
     erase_frame first last b (bank_after (NucX1.nucX1_erase first last t b tr))).
Proof.
  split; intros b.
  - apply (stm32x_erase_frame t first last b b tr). apply erase_frame_refl.
  - apply (nucX1_erase_frame t first last b b tr). apply erase_frame_refl.
Qed.

(** ** Erase: what success means *)

Lemma set_sectors_twice {P} (l l' : list flash_sector) (b : flash_bank P) :
  set_sectors l' (set_sectors l b) = set_sectors l' b.
Proof. reflexivity. Qed.

Lemma stm32x_wait_same_bank (t : target) (b1 : Stm32x.bank) timeout :
  keeps (fun b _ => b = b1) t (Stm32x.stm32x_wait_status_busy timeout).
Proof.
  apply wait_status_busy_keeps; intros; apply (admits_bank_only (fun b => b = b1)).
Qed.

(** A run of the per-sector loop that returns [ERROR_OK] has marked all
    its sectors. *)
Lemma stm32x_erase_sectors_ok (t : target) n :
  forall i (b1 : Stm32x.bank),
    hoare t (fun b _ => b = b1) (Stm32x.erase_sectors n i)
      (fun r b _ => r = ERROR_OK -> b = set_sectors (mark_erased n i (sectors b1)) b1).
Proof.
  induction n as [|n IH]; intros i b1; cbn [Stm32x.erase_sectors].
  - apply hoare_ret. intros b tr -> _. destruct b1; reflexivity.
  - repeat hoare_step
      ltac:(solve [ apply stm32x_wait_same_bank
                  | keeps_auto ltac:(apply (admits_bank_only (fun b => b = b1))) ]).
    all: try (intros He; subst; discriminate).
    apply hoare_bind with
      (K := fun _ b _ => b = set_sectors (update_sector i (with_is_erased 1) (sectors b1)) b1).
    + unfold set_is_erased. apply hoare_modify_bank.
      intros b tr ->. reflexivity.
    + intros []. intros b tr Hb Hr. exact (IH (i + 1) _ b tr Hb Hr).
Qed.

(** The guarded register write a driver function ends on. *)
Lemma hoare_last_write {S} (t : target) (I : S -> Prop) (a v : Z) :
  hoare t (fun b _ => I b) (guard_ok (target_write_u32 a v) (ret ERROR_OK))
    (fun r b tr => I b /\ (r = ERROR_OK -> ends_with t (WriteU32 (u32 a) (u32 v)) tr)).
Proof.
  intros b tr Hi. rewrite guard_ok_run, write_u32_run. cbn [result bank_after trace].
  destruct (is_ok (rc (respond t tr (WriteU32 (u32 a) (u32 v))))) eqn:E;
    cbn [result bank_after trace ret].
  - split; [exact Hi|]. intros _. eexists. reflexivity.
  - split; [exact Hi|]. intros He. rewrite He in E. discriminate.
Qed.

Lemma stm32x_mass_erase_ok (t : target) (b1 : Stm32x.bank) :
  hoare t (fun b _ => b = b1) Stm32x.stm32x_mass_erase
    (fun r b tr =>
       b = b1 /\
       (r = ERROR_OK ->
        ends_with t
          (WriteU32 (u32 (Stm32x.stm32x_get_flash_reg b1 Stm32x.STM32_FLASH_CR))
             (u32 Stm32x.FLASH_LOCK)) tr)).
Proof.
  unfold Stm32x.stm32x_mass_erase.
  repeat hoare_step
      ltac:(solve [ apply stm32x_wait_same_bank
                  | keeps_auto ltac:(apply (admits_bank_only (fun b => b = b1))) ]).
  all: try (split; [assumption | intros He; subst; discriminate]).
  destruct H as [_ ->].
  apply (hoare_last_write t (fun b => b = b1)).
Qed.

Lemma stm32x_erase_ok (t : target) (b1 : Stm32x.bank) (first last : Z) :
  hoare t (fun b _ => b = b1) (Stm32x.stm32x_erase first last)
    (fun r b tr =>
       r = ERROR_OK ->
       ends_with t
         (WriteU32 (u32 (Stm32x.stm32x_get_flash_reg b1 Stm32x.STM32_FLASH_CR))
            (u32 Stm32x.FLASH_LOCK)) tr /\
       ((first =? 0) && (last =? num_sectors b1 - 1) = false ->
        b = set_sectors (mark_erased (Z.to_nat (last - first + 1)) first (sectors b1)) b1)).
Proof.
  unfold Stm32x.stm32x_erase.
  hoare_step idtac. hoare_step idtac.
  { hoare_step idtac. discriminate. }
  hoare_step idtac. destruct H as [_ ->].
  hoare_step idtac.
  - eapply hoare_conseq; [apply stm32x_mass_erase_ok|].
    cbv beta. intros r b tr [Hb Hl] Hr. split; [apply Hl, Hr | discriminate].
  - repeat hoare_step
      ltac:(solve [keeps_auto ltac:(apply (admits_bank_only (fun b => b = b1)))]).
    all: try (intros He; subst; discriminate).
    eapply hoare_guard_ok_bind.
    + apply stm32x_erase_sectors_ok.
    + cbv beta. eapply hoare_conseq.
      * eapply hoare_weaken;
          [|apply (hoare_last_write t
                     (fun b => b = set_sectors
                                    (mark_erased (Z.to_nat (last - first + 1)) first
                                       (sectors b1)) b1))].
        cbv beta. intros b tr Hb. apply Hb. reflexivity.
      * cbv beta. intros r b tr [Hb Hl] Hr. split; [apply Hl, Hr | intros _; exact Hb].
    + cbv beta. intros e b tr He _ Hr. subst. discriminate.
Qed.

(** X4. When [stm32x_erase] returns [ERROR_OK], whatever the target did
    on the way, its last call was the write of [FLASH_LOCK] to the control
    register of the bank; and unless the range was the whole bank, every
    sector of the range that the table holds is marked erased. *)
Theorem stm32x_erase_ok_marks_and_locks
  (t : target) (b : Stm32x.bank) (first last : Z) (tr : list event) :
  let off := Stm32x.register_offset (driver_priv b) in
  let o := Stm32x.stm32x_erase first last t b tr in
  result o = ERROR_OK ->
  ends_with t (WriteU32 (u32 (Stm32x.STM32_FLASH_CR + off)) Stm32x.FLASH_LOCK) (trace o) /\
  (~ (first = 0 /\ last = num_sectors b - 1) ->
   forall j, first <= j <= last -> 0 <= j < Z.of_nat (length (sectors b)) ->
     is_erased (sector_at (sectors (bank_after o)) j) = 1).
Proof.
  intros off o Hr.
  destruct (stm32x_erase_ok t b first last b tr eq_refl Hr) as [Hl Hm].
  split; [exact Hl|].
  intros Hpart j Hj Hlen.
  assert (Hsel : (first =? 0) && (last =? num_sectors b - 1) = false).
  { destruct (Z.eqb_spec first 0); destruct (Z.eqb_spec last (num_sectors b - 1));
      try reflexivity. exfalso. apply Hpart. auto. }
  fold o in Hm. rewrite (Hm Hsel). cbn [sectors set_sectors]. unfold mark_erased.
  rewrite erased_run_at.
  destruct (Z.leb_spec first j); [|lia].
  destruct (Z.ltb_spec j (first + Z.of_nat (Z.to_nat (last - first + 1)))); [|lia].
  destruct (Z.leb_spec 0 j); [|lia].
  destruct (Z.ltb_spec j (Z.of_nat (length (sectors b)))); [|lia].
  reflexivity.
Qed.

Lemma stm32x_erase_ok_marks_and_locks_witness :
  let o := Stm32x.stm32x_erase 1 3 medium_density_target medium_density_bank [] in
  result o = ERROR_OK /\
  ends_with medium_density_target
    (WriteU32 Stm32x.STM32_FLASH_CR Stm32x.FLASH_LOCK) (trace o) /\
  is_erased (sector_at (sectors (bank_after o)) 2) = 1.
Proof.
  assert (Hr : result (Stm32x.stm32x_erase 1 3 medium_density_target medium_density_bank [])
               = ERROR_OK) by (vm_compute; reflexivity).
  destruct (stm32x_erase_ok_marks_and_locks medium_density_target medium_density_bank 1 3 [] Hr)
    as [Hl Hm].
  cbv zeta. split; [exact Hr|]. split; [exact Hl|].
  apply Hm.
  - intros [H _]. discriminate.
  - lia.
  - vm_compute. split; [discriminate | reflexivity].
Defined.
(** ** The protection bitmap in the option bytes *)

Lemma u16_testbit (v k : Z) : 0 <= k < 16 -> Z.testbit (u16 v) k = Z.testbit v k.
Proof.
  intros Hk. unfold u16. change (2 ^ 16) with (2 ^ 16). rewrite Z.mod_pow2_bits_low by lia.
  reflexivity.
Qed.

Lemma update_reg_length reg f (l : list Z) : length (Stm32x.update_reg reg f l) = length l.
Proof.
  unfold Stm32x.update_reg. destruct (reg <? 0); [reflexivity | apply update_nth_length].
Qed.

Lemma update_reg_nth reg (f : Z -> Z) (l : list Z) (k : nat) :
  0 <= reg < Z.of_nat (length l) ->
  nth k (Stm32x.update_reg reg f l) 0 =
  if (Z.of_nat k =? reg) then f (nth k l 0) else nth k l 0.
Proof.
  intros Hr. unfold Stm32x.update_reg. destruct (Z.ltb_spec reg 0); [lia|].
  destruct (Z.eqb_spec (Z.of_nat k) reg) as [He|Hne].
  - replace (Z.to_nat reg) with k by lia. apply nth_update_nth_same. lia.
  - apply nth_update_nth_other. lia.
Qed.

(** One round of the loop of [stm32x_protect], bit by bit. *)
Lemma protect_sector_bit (set i : Z) (prot_reg : list Z) (g : Z) :
  length prot_reg = 4%nat -> 0 <= i < 128 -> 0 <= g < 32 ->
  protection_bit (Stm32x.protect_sector 4 set i prot_reg) g =
  if g =? i / 4 then (set =? 0) else protection_bit prot_reg g.
Proof.
  intros Hlen Hi Hg. unfold Stm32x.protect_sector, Stm32x.prot_reg_set, protection_bit.
  rewrite !(Z.quot_div_nonneg i 4) by lia.
  rewrite !(Z.quot_div_nonneg (i / 4) 8) by (try lia; apply Z.div_pos; lia).
  set (q := i / 4).
  assert (Hq : 0 <= q < 32) by (subst q; split; [apply Z.div_pos; lia | apply Z.div_lt_upper_bound; lia]).
  replace (q - q / 8 * 8) with (q mod 8) by (pose proof (Z.div_mod q 8); lia).
  assert (Hq8 : 0 <= q / 8 < 4) by (split; [apply Z.div_pos; lia | apply Z.div_lt_upper_bound; lia]).
  assert (Hg8 : 0 <= g / 8 < 4) by (split; [apply Z.div_pos; lia | apply Z.div_lt_upper_bound; lia]).
  assert (Hqm : 0 <= q mod 8 < 8) by (apply Z.mod_pos_bound; lia).
  assert (Hgm : 0 <= g mod 8 < 8) by (apply Z.mod_pos_bound; lia).
  assert (Hsame : g = q <-> (g / 8 = q / 8 /\ g mod 8 = q mod 8)).
  { split; [intros ->; auto|]. intros [H1 H2].
    rewrite (Z.div_mod g 8), (Z.div_mod q 8) by lia. rewrite H1, H2. reflexivity. }
  destruct (Z.eqb_spec set 0) as [Hs|Hs]; cbn [negb];
    rewrite update_reg_nth by (rewrite Hlen; lia);
    rewrite Z2Nat.id by lia.
  - (* clear protection: the bit is set *)
    destruct (Z.eqb_spec (g / 8) (q / 8)) as [H8|H8].
    + rewrite u16_testbit by lia. rewrite Z.lor_spec, Z.shiftl_1_l, Z.pow2_bits_eqb by lia.
      destruct (Z.eqb_spec (q mod 8) (g mod 8)) as [Hm|Hm].
      * destruct (Z.eqb_spec g q) as [_|Hne]; [apply orb_true_r | exfalso; apply Hne, Hsame; auto].
      * destruct (Z.eqb_spec g q) as [He|_]; [exfalso; apply Hm; subst; reflexivity|].
        apply orb_false_r.
    + destruct (Z.eqb_spec g q) as [He|_]; [exfalso; apply H8; subst; reflexivity|].
      reflexivity.
  - (* set protection: the bit is cleared *)
    destruct (Z.eqb_spec (g / 8) (q / 8)) as [H8|H8].
    + rewrite u16_testbit by lia.
      rewrite Z.land_spec, Z.lnot_spec, Z.shiftl_1_l, Z.pow2_bits_eqb by lia.
      destruct (Z.eqb_spec (q mod 8) (g mod 8)) as [Hm|Hm].
      * destruct (Z.eqb_spec g q) as [_|Hne]; [apply andb_false_r | exfalso; apply Hne, Hsame; auto].
      * destruct (Z.eqb_spec g q) as [He|_]; [exfalso; apply Hm; subst; reflexivity|].
        apply andb_true_r.
    + destruct (Z.eqb_spec g q) as [He|_]; [exfalso; apply H8; subst; reflexivity|].
      reflexivity.
Qed.

Lemma protect_sector_length pp set i prot_reg :
  length (Stm32x.protect_sector pp set i prot_reg) = length prot_reg.
Proof.
  unfold Stm32x.protect_sector, Stm32x.prot_reg_set.
  destruct (negb (set =? 0)); apply update_reg_length.
Qed.

(** The loop over the sectors [lo .. lo + n - 1]: the bits of the groups
    the sectors lie in get the new value, the others keep theirs. *)
Lemma protect_sectors_bit (set : Z) n :
  forall lo prot_reg g,
    length prot_reg = 4%nat -> 0 <= lo -> lo + Z.of_nat n <= 128 -> 0 <= g < 32 ->
    protection_bit (for_count n lo (Stm32x.protect_sector 4 set) prot_reg) g =
    if (0 <? Z.of_nat n) && (lo / 4 <=? g) && (g <=? (lo + Z.of_nat n - 1) / 4)
    then (set =? 0) else protection_bit prot_reg g.
Proof.
  induction n as [|n IH]; intros lo prot_reg g Hlen Hlo Hhi Hg.
  - reflexivity.
  - cbn [for_count]. rewrite IH by (rewrite ?protect_sector_length; lia).
    rewrite protect_sector_bit by lia.
    destruct (Z.ltb_spec 0 (Z.of_nat (S n))); [|lia]. cbn [andb].
    destruct (Z.ltb_spec 0 (Z.of_nat n)); cbn [andb];
      repeat match goal with
             | |- context [?a <=? ?b] => destruct (Z.leb_spec a b)
             | |- context [?a =? ?b] => destruct (Z.eqb_spec a b)
             end; cbn [andb]; try reflexivity; exfalso;
      Z.to_euclidean_division_equations; lia.
Qed.
(** ** Option bytes on a compliant target *)

Lemma run_calls_app (t : target) tr (l1 l2 : list call) :
  run_calls t tr (l1 ++ l2) = run_calls t (run_calls t tr l1) l2.
Proof. unfold run_calls. apply fold_left_app. Qed.

Lemma calls_run_calls (t : target) (cs : list call) :
  forall tr, calls (run_calls t tr cs) = calls tr ++ cs.
Proof.
  induction cs as [|c cs IH]; intros tr; cbn [run_calls fold_left].
  - symmetry. apply app_nil_r.
  - fold (run_calls t (after t tr c) cs). rewrite IH, calls_after, <- app_assoc. reflexivity.
Qed.

Lemma run_calls_grows (t : target) (cs : list call) :
  forall tr, exists ext, run_calls t tr cs = tr ++ ext /\ calls ext = cs.
Proof.
  induction cs as [|c cs IH]; intros tr; cbn [run_calls fold_left].
  - exists []. split; [symmetry; apply app_nil_r | reflexivity].
  - fold (run_calls t (after t tr c) cs).
    destruct (IH (after t tr c)) as (ext & He & Hc).
    exists ((c, respond t tr c) :: ext). split.
    + rewrite He. unfold after. rewrite <- app_assoc. reflexivity.
    + cbn [calls map fst]. f_equal. exact Hc.
Qed.

(** [u32 c] is [c] for the constants of the driver. *)
Ltac u32_consts :=
  repeat match goal with
         | |- context [u32 ?c] =>
             let v := eval vm_compute in (u32 c) in
             let v' := eval vm_compute in c in
             unify v v'; change (u32 c) with c
         end.

Section Compliant.
Variable t : target.
Hypothesis Ht : compliant_target t.

Lemma compliant_write_u32 {S} (a v : Z) (k : M S error_code) (b : S) tr :
  guard_ok (target_write_u32 a v) k t b tr =
  k t b (after t tr (WriteU32 (u32 a) (u32 v))).
Proof.
  rewrite guard_ok_run, write_u32_run. cbn [result bank_after trace].
  rewrite (proj1 Ht). reflexivity.
Qed.

Lemma compliant_write_u16 {S} (a v : Z) (k : M S error_code) (b : S) tr :
  guard_ok (target_write_u16 a v) k t b tr =
  k t b (after t tr (WriteU16 (u32 a) (u16 v))).
Proof.
  rewrite guard_ok_run. unfold target_write_u16, bind, ret, tap.
  cbn [result bank_after trace]. rewrite (proj1 Ht). reflexivity.
Qed.

Lemma compliant_wait (timeout : Z) (k : M Stm32x.bank error_code) (b : Stm32x.bank) tr :
  Stm32x.register_offset (driver_priv b) = Stm32x.FLASH_OFFSET_B0 ->
  guard_ok (Stm32x.stm32x_wait_status_busy timeout) k t b tr =
  k t b (after t tr (ReadU32 Stm32x.STM32_FLASH_SR)).
Proof.
  intros Hoff. rewrite guard_ok_run.
  rewrite (wait_status_busy_idle t timeout b tr);
    rewrite Hoff; change (status_read Stm32x.FLASH_OFFSET_B0) with (ReadU32 Stm32x.STM32_FLASH_SR).
  - reflexivity.
  - apply (proj1 Ht).
  - apply (proj2 Ht).
Qed.

Lemma land_shiftl_1 (x n : Z) : 0 <= n -> (Z.land x (Z.shiftl 1 n) =? 0) = negb (Z.testbit x n).
Proof.
  intros Hn. rewrite Z.shiftl_1_l.
  destruct (Z.testbit x n) eqn:E; cbn [negb].
  - apply Z.eqb_neq. intros H.
    assert (Ht' : Z.testbit (Z.land x (2 ^ n)) n = true)
      by (rewrite Z.land_spec, E, Z.pow2_bits_true by lia; reflexivity).
    rewrite H, Z.bits_0 in Ht'. discriminate.
  - apply Z.eqb_eq. apply Z.bits_inj'. intros m Hm.
    rewrite Z.land_spec, Z.bits_0, Z.pow2_bits_eqb by lia.
    destruct (Z.eqb_spec n m) as [->|]; [rewrite E; reflexivity | apply andb_false_r].
Qed.

Lemma user_options_value (x : Z) :
  u16 (Z.lor 0xFFF8 (Z.land (Z.shiftr x 2) 0x07)) = 0xFFF8 + Z.land (Z.shiftr x 2) 7.
Proof.
  assert (Hr : 0 <= Z.land (Z.shiftr x 2) 7 < 8).
  { change 7 with (Z.ones 3). rewrite Z.land_ones by lia. apply Z.mod_pos_bound. lia. }
  assert (Hd : Z.land 0xFFF8 (Z.land (Z.shiftr x 2) 7) = 0); [|
    rewrite <- (Z.lxor_lor _ _ Hd), <- (Z.add_nocarry_lxor _ _ Hd);
    unfold u16; apply Z.mod_small; lia ].
  apply Z.bits_inj'. intros n Hn. rewrite Z.land_spec, Z.bits_0.
  destruct (Z_lt_dec n 3).
  - replace n with (Z.of_nat (Z.to_nat n)) by lia.
    destruct (Z.to_nat n) as [|[|[|k]]] eqn:E; try reflexivity. lia.
  - change 7 with (Z.ones 3). rewrite (Z.land_spec (Z.shiftr x 2)).
    rewrite Z.ones_spec_high by lia. rewrite andb_false_r. apply andb_false_r.
Qed.

(** With both registers readable, [stm32x_read_options] is the two reads
    and the option bytes decoded from them. *)
Lemma read_options_run (b : Stm32x.bank) tr :
  let tr1 := after t tr (ReadU32 Stm32x.STM32_FLASH_OBR) in
  let obr := u32 (out (respond t tr (ReadU32 Stm32x.STM32_FLASH_OBR))) in
  let wrpr := u32 (out (respond t tr1 (ReadU32 Stm32x.STM32_FLASH_WRPR))) in
  Stm32x.stm32x_read_options t b tr =
  mk_outcome ERROR_OK (set_option_bytes (options_read_from obr wrpr) b)
    (after t tr1 (ReadU32 Stm32x.STM32_FLASH_WRPR)).
Proof.
  intros tr1 obr wrpr. unfold Stm32x.stm32x_read_options, Stm32x.modify_options,
    Stm32x.modify_priv. mstep.
  change (u32 Stm32x.STM32_FLASH_OBR) with Stm32x.STM32_FLASH_OBR.
  change (u32 Stm32x.STM32_FLASH_WRPR) with Stm32x.STM32_FLASH_WRPR.
  repeat (rewrite (proj1 Ht); cbn [is_ok negb]; mstep).
  fold tr1. fold obr. fold wrpr.
  unfold set_option_bytes, options_read_from, set_driver_priv, Stm32x.with_option_bytes,
    Stm32x.with_protection, Stm32x.with_RDP, Stm32x.with_user_options.
  cbn [driver_priv bank_base bank_size num_sectors sectors Stm32x.option_bytes
       Stm32x.write_algorithm Stm32x.ppage_size Stm32x.probed Stm32x.has_dual_banks
       Stm32x.register_offset Stm32x.RDP Stm32x.user_options Stm32x.protection].
  rewrite user_options_value.
  change Stm32x.OPT_READOUT with 1. rewrite land_shiftl_1 by lia. rewrite negb_involutive.
  reflexivity.
Qed.

(** On a compliant target an erase of the option bytes is nine calls; it
    leaves the option bytes as read from the chip, but for [RDP]. *)
Lemma erase_options_run (b : Stm32x.bank) tr :
  Stm32x.register_offset (driver_priv b) = Stm32x.FLASH_OFFSET_B0 ->
  let tr1 := after t tr (ReadU32 Stm32x.STM32_FLASH_OBR) in
  let obr := u32 (out (respond t tr (ReadU32 Stm32x.STM32_FLASH_OBR))) in
  let wrpr := u32 (out (respond t tr1 (ReadU32 Stm32x.STM32_FLASH_WRPR))) in
  Stm32x.stm32x_erase_options t b tr =
  mk_outcome ERROR_OK
    (set_option_bytes (Stm32x.with_RDP 0x5AA5 (options_read_from obr wrpr)) b)
    (run_calls t tr erase_options_calls).
Proof.
  intros Hoff tr1 obr wrpr. unfold Stm32x.stm32x_erase_options.
  unfold bind at 1. rewrite read_options_run. cbn [result bank_after trace].
  fold tr1. fold obr. fold wrpr.
  rewrite !compliant_write_u32.
  rewrite compliant_wait by exact Hoff.
  unfold erase_options_calls, run_calls. cbn [fold_left]. u32_consts.
  reflexivity.
Qed.

(** On a compliant target the option bytes are programmed in eighteen
    calls, and the bank is not touched. *)
Lemma write_options_run (b : Stm32x.bank) tr :
  Stm32x.register_offset (driver_priv b) = Stm32x.FLASH_OFFSET_B0 ->
  Stm32x.stm32x_write_options t b tr =
  mk_outcome ERROR_OK b
    (run_calls t tr (write_options_calls (Stm32x.option_bytes (driver_priv b)))).
Proof.
  intros Hoff. unfold Stm32x.stm32x_write_options.
  rewrite !compliant_write_u32. rewrite bind_get_bank. cbv zeta beta.
  repeat (rewrite compliant_write_u16; rewrite compliant_wait by exact Hoff).
  rewrite compliant_write_u32.
  unfold write_options_calls, option_halfwords, run_calls.
  cbn [flat_map app fold_left ret]. u32_consts.
  reflexivity.
Qed.

End Compliant.

(** ** Protecting sectors *)

Lemma shiftr_testbit_byte (w g : Z) :
  0 <= g < 32 ->
  protection_bit [u16 w; u16 (Z.shiftr w 8); u16 (Z.shiftr w 16); u16 (Z.shiftr w 24)] g =
  Z.testbit w g.
Proof.
  intros Hg. unfold protection_bit.
  assert (Hm : 0 <= g mod 8 < 8) by (apply Z.mod_pos_bound; lia).
  assert (Hd : g = 8 * (g / 8) + g mod 8) by (apply Z.div_mod; lia).
  assert (Hq : 0 <= g / 8 < 4)
    by (split; [apply Z.div_pos; lia | apply Z.div_lt_upper_bound; lia]).
  destruct (Z.to_nat (g / 8)) as [|[|[|[|k]]]] eqn:E; cbn [nth]; try lia;
    rewrite u16_testbit by lia; rewrite ?Z.shiftr_spec by lia; f_equal; lia.
Qed.

Lemma protection_bit_copy (l : list Z) (g : Z) :
  0 <= g < 32 ->
  protection_bit [nth 0 l 0; nth 1 l 0; nth 2 l 0; nth 3 l 0] g = protection_bit l g.
Proof.
  intros Hg. unfold protection_bit.
  assert (Hq : 0 <= g / 8 < 4)
    by (split; [apply Z.div_pos; lia | apply Z.div_lt_upper_bound; lia]).
  destruct (Z.to_nat (g / 8)) as [|[|[|[|k]]]] eqn:E; cbn [nth]; try reflexivity. lia.
Qed.

(** The range of [stm32x_protect] once both ends are aligned, for four
    sectors to a bit. *)
Lemma protect_aligned_range (first last : Z) :
  0 <= first -> 0 <= last ->
  (if negb (Z.rem first 4 =? 0) then first - Z.rem first 4 else first) = 4 * (first / 4) /\
  (if negb (Z.rem (last + 1) 4 =? 0)
   then (let last := last + 1 in let last := last - Z.rem last 4 in last - 1)
   else last) = 4 * ((last + 1) / 4) - 1.
Proof.
  intros Hf Hl. cbv zeta. rewrite !Z.rem_mod_nonneg by lia.
  pose proof (Z.div_mod first 4). pose proof (Z.div_mod (last + 1) 4).
  split.
  - destruct (Z.eqb_spec (first mod 4) 0); cbn [negb]; lia.
  - destruct (Z.eqb_spec ((last + 1) mod 4) 0); cbn [negb]; lia.
Qed.

Section ProtectRun.
Variable t : target.
Hypothesis Ht : compliant_target t.

(** On a compliant, halted target [stm32x_protect], for a bank with four
    sectors to a bit, is the read of the protection register, the erase of
    the option bytes and their programming. *)
Lemma protect_run (b : Stm32x.bank) (set first last : Z) tr :
  state t = TARGET_HALTED ->
  Stm32x.register_offset (driver_priv b) = Stm32x.FLASH_OFFSET_B0 ->
  Stm32x.ppage_size (driver_priv b) = 4 ->
  0 <= first -> 0 <= last ->
  let w := u32 (out (respond t tr (ReadU32 Stm32x.STM32_FLASH_WRPR))) in
  let prot_reg :=
    for_range (4 * (first / 4)) (4 * ((last + 1) / 4))
      (Stm32x.protect_sector 4 set)
      [u16 w; u16 (Z.shiftr w 8); u16 (Z.shiftr w 16); u16 (Z.shiftr w 24)] in
  exists obr wrpr,
    let ob :=
      Stm32x.with_protection
        [nth 0 prot_reg 0; nth 1 prot_reg 0; nth 2 prot_reg 0; nth 3 prot_reg 0]
        (Stm32x.with_RDP 0x5AA5 (options_read_from obr wrpr)) in
    Stm32x.stm32x_protect set first last t b tr =
    mk_outcome ERROR_OK (set_option_bytes ob b)
      (run_calls t tr
         ([ReadU32 Stm32x.STM32_FLASH_WRPR] ++ erase_options_calls ++ write_options_calls ob)).
Proof.
  intros Hh Hoff Hpp Hf Hl w prot_reg.
  unfold Stm32x.stm32x_protect, Stm32x.stm32x_check_operation_supported.
  unfold bind at 1, get_target_state. cbn [result bank_after trace].
  rewrite Hh. cbn [is_halted negb].
  rewrite guard_ok_run. rewrite bind_get_bank. rewrite Hoff, Z.eqb_refl. cbn [negb].
  cbn [ret result bank_after trace is_ok].
  rewrite bind_get_bank. cbv zeta. rewrite Hpp.
  destruct (protect_aligned_range first last Hf Hl) as [Ha1 Ha2].
  cbv zeta in Ha2. rewrite Ha1, Ha2.
  change (4 =? 2) with false. cbv iota.
  replace (4 * ((last + 1) / 4) - 1 + 1) with (4 * ((last + 1) / 4)) by lia.
  unfold bind at 1. unfold target_read_u32 at 1. unfold bind at 1, tap, ret.
  cbn [result bank_after trace fst snd rc out].
  change (u32 Stm32x.STM32_FLASH_WRPR) with Stm32x.STM32_FLASH_WRPR.
  rewrite (proj1 Ht). cbn [is_ok negb]. fold w. fold prot_reg.
  rewrite guard_ok_run. rewrite (erase_options_run t Ht) by exact Hoff.
  cbn [result bank_after trace is_ok].
  unfold bind at 1. unfold Stm32x.modify_options, Stm32x.modify_priv, modify_bank.
  cbn [result bank_after trace].
  rewrite (write_options_run t Ht) by exact Hoff.
  eexists. eexists. cbv zeta.
  rewrite !run_calls_app. reflexivity.
Qed.

End ProtectRun.

Lemma filter_write_options_calls (o : Stm32x.stm32x_options) :
  filter is_write_u16
    ([ReadU32 Stm32x.STM32_FLASH_WRPR] ++ erase_options_calls ++ write_options_calls o) =
  option_halfwords o.
Proof. reflexivity. Qed.

(** The bits of the option bytes [stm32x_protect] leaves, for four
    sectors to a bit. *)
Lemma protect_bits_medium (set first last w g : Z) :
  0 <= first -> 0 <= last < 128 -> 0 <= g < 32 ->
  let prot_reg :=
    for_range (4 * (first / 4)) (4 * ((last + 1) / 4))
      (Stm32x.protect_sector 4 set)
      [u16 w; u16 (Z.shiftr w 8); u16 (Z.shiftr w 16); u16 (Z.shiftr w 24)] in
  protection_bit [nth 0 prot_reg 0; nth 1 prot_reg 0; nth 2 prot_reg 0; nth 3 prot_reg 0] g =
  if (first / 4 <=? g) && (g <? (last + 1) / 4) then (set =? 0) else Z.testbit w g.
Proof.
  intros Hf Hl Hg prot_reg. subst prot_reg.
  rewrite protection_bit_copy by exact Hg.
  unfold for_range.
  assert (H0 : 0 <= first / 4) by (apply Z.div_pos; lia).
  assert (H1 : (last + 1) / 4 <= 32) by (apply Z.div_le_upper_bound; lia).
  destruct (Z_le_dec ((last + 1) / 4) (first / 4)) as [Hempty|Hsome].
  - replace (Z.to_nat (4 * ((last + 1) / 4) - 4 * (first / 4))) with 0%nat by lia.
    cbn [for_count]. rewrite shiftr_testbit_byte by exact Hg.
    destruct (Z.leb_spec (first / 4) g); destruct (Z.ltb_spec g ((last + 1) / 4));
      cbn [andb]; try reflexivity. lia.
  - rewrite protect_sectors_bit; try reflexivity; try lia.
    rewrite shiftr_testbit_byte by exact Hg.
    rewrite Z2Nat.id by lia.
    replace (4 * (first / 4) / 4) with (first / 4)
      by (rewrite Z.mul_comm, Z.div_mul by lia; reflexivity).
    replace ((4 * (first / 4) + (4 * ((last + 1) / 4) - 4 * (first / 4)) - 1) / 4)
      with ((last + 1) / 4 - 1).
    2:{ apply Z.div_unique with (r := 3); lia. }
    destruct (Z.ltb_spec 0 (4 * ((last + 1) / 4) - 4 * (first / 4))); [|lia].
    cbn [andb].
    destruct (Z.leb_spec (first / 4) g); destruct (Z.ltb_spec g ((last + 1) / 4));
      destruct (Z.leb_spec g ((last + 1) / 4 - 1)); cbn [andb]; try reflexivity; lia.
Qed.


Lemma wrpr_target_compliant : compliant_target wrpr_target.
Proof.
  split.
  - intros h c. destruct c; cbn; try reflexivity.
    destruct (address =? Stm32x.STM32_FLASH_WRPR); reflexivity.
  - intros h. vm_compute. repeat split; reflexivity.
Qed.


(** ** Reading the protection back *)

(** On a halted target whose protection register can be read,
    [stm32x_protect_check] for the first bank is that read and the loops
    over the bits. *)
Lemma protect_check_run (t : target) (b : Stm32x.bank) tr :
  state t = TARGET_HALTED ->
  Stm32x.register_offset (driver_priv b) = Stm32x.FLASH_OFFSET_B0 ->
  rc (respond t tr (ReadU32 Stm32x.STM32_FLASH_WRPR)) = ERROR_OK ->
  let p := u32 (out (respond t tr (ReadU32 Stm32x.STM32_FLASH_WRPR))) in
  let ppage := Stm32x.ppage_size (driver_priv b) in
  let num_bits := Z.quot (num_sectors b) ppage in
  Stm32x.stm32x_protect_check t b tr =
  mk_outcome ERROR_OK
    (set_sectors
       (if ppage =? 2 then
          for_range 0 (if num_sectors b >? 61 then 31 else num_bits)
            (Stm32x.protect_group ppage p)
            (for_range 62 (num_sectors b)
               (fun s l => update_sector s (with_is_protected (protection_of p 31)) l)
               (sectors b))
        else for_range 0 num_bits (Stm32x.protect_group ppage p) (sectors b)) b)
    (after t tr (ReadU32 Stm32x.STM32_FLASH_WRPR)).
Proof.
  intros Hh Hoff Hrc p ppage num_bits.
  unfold Stm32x.stm32x_protect_check, Stm32x.stm32x_check_operation_supported.
  mstep. rewrite Hh. cbn [is_halted negb]. mstep.
  rewrite Hoff, Z.eqb_refl. cbn [negb]. mstep. cbn [is_ok]. mstep.
  change (u32 Stm32x.STM32_FLASH_WRPR) with Stm32x.STM32_FLASH_WRPR.
  rewrite Hrc. cbn [is_ok negb]. mstep.
  fold p. fold ppage. fold num_bits.
  destruct (ppage =? 2); reflexivity.
Qed.


Lemma forall_below_32 (P : Z -> bool) :
  forallb P (map Z.of_nat (seq 0 32)) = true ->
  forall g, 0 <= g < 32 -> P g = true.
Proof.
  intros H g Hg. rewrite forallb_forall in H. apply H.
  apply in_map_iff. exists (Z.to_nat g). split; [lia|].
  apply in_seq. lia.
Qed.

(** ** Probing once *)

Lemma stm32x_probe_marks (t : target) (b : Stm32x.bank) tr :
  let o := Stm32x.stm32x_probe t b tr in
  (result o = ERROR_OK -> Stm32x.probed (driver_priv (bank_after o)) = 1) /\
  (result o <> ERROR_OK ->
   Stm32x.probed (driver_priv (bank_after o)) = 0 /\
   sectors (bank_after o) = sectors b /\ num_sectors (bank_after o) = num_sectors b /\
   bank_base (bank_after o) = bank_base b /\ bank_size (bank_after o) = bank_size b).
Proof.
  unfold Stm32x.stm32x_probe, Stm32x.identify, bind, ret, target_read_u32,
    target_read_u16, tap.
  simpl.
  destruct (rc (respond t tr (ReadU32 (u32 0xE0042000)))) eqn:Hid; simpl;
    try (split; [discriminate | intros _; repeat split; reflexivity]).
  set (id := Z.land _ 0x7ff).
  repeat (match goal with
          | |- context [if ?c =? ?d then _ else _] =>
              lazymatch c with id => destruct (c =? d) end
          end; simpl).
  all: try (split; [intros _; reflexivity | intros H; exfalso; apply H; reflexivity]).
  - destruct (negb (bank_base b =? 0x08080000)); simpl;
      (split; [intros _; reflexivity | intros H; exfalso; apply H; reflexivity]).
  - split; [discriminate | intros _; repeat split; reflexivity].
Qed.

Lemma nucX1_probe_marks (t : target) (b : NucX1.bank) tr :
  let o := NucX1.nucX1_probe t b tr in
  (result o = ERROR_OK -> NucX1.probed (driver_priv (bank_after o)) = 1) /\
  (result o <> ERROR_OK ->
   NucX1.probed (driver_priv (bank_after o)) = 0 /\
   sectors (bank_after o) = sectors b /\ num_sectors (bank_after o) = num_sectors b /\
   bank_base (bank_after o) = bank_base b /\ bank_size (bank_after o) = bank_size b).
Proof.
  unfold NucX1.nucX1_probe, bind, ret, target_read_u32, tap, get_target_state.
  simpl.
  destruct (is_halted (state t)); simpl;
    try (split; [discriminate | intros _; repeat split; reflexivity]).
  destruct (rc (respond t tr (ReadU32 (u32 0x50000000)))) eqn:Hid; simpl;
    try (split; [discriminate | intros _; repeat split; reflexivity]).
  set (id := u32 _).
  destruct (id =? 73728); simpl;
    [split; [intros _; reflexivity | intros H; exfalso; apply H; reflexivity]|].
  destruct (id =? 0); simpl.
  - split; [discriminate | intros _; repeat split; reflexivity].
  - split; [intros _; reflexivity | intros H; exfalso; apply H; reflexivity].
Qed.

(** X7. Auto-probe probes until a probe succeeds, and never after.  Once
    an auto-probe has returned [ERROR_OK], the next one returns [ERROR_OK]
    without a call on the target and without touching the bank.  When an
    auto-probe fails, the bank is left marked as not probed, so that the
    next auto-probe probes again, and its sector table, base and size are
    as they were.  This holds for both drivers and whatever the target
    answers. *)
Theorem auto_probe_probes_once (t : target) (tr : list event) :
  (forall b : Stm32x.bank,
     let o := Stm32x.stm32x_auto_probe t b tr in
     (result o = ERROR_OK ->
      forall t', Stm32x.stm32x_auto_probe t' (bank_after o) (trace o) =
                 mk_outcome ERROR_OK (bank_after o) (trace o)) /\
     (result o <> ERROR_OK ->
      Stm32x.probed (driver_priv (bank_after o)) = 0 /\
      sectors (bank_after o) = sectors b /\ num_sectors (bank_after o) = num_sectors b /\
      bank_base (bank_after o) = bank_base b /\ bank_size (bank_after o) = bank_size b)) /\
  (forall b : NucX1.bank,
     let o := NucX1.nucX1_auto_probe t b tr in
     (result o = ERROR_OK ->
      forall t', NucX1.nucX1_auto_probe t' (bank_after o) (trace o) =
                 mk_outcome ERROR_OK (bank_after o) (trace o)) /\
     (result o <> ERROR_OK ->
      NucX1.probed (driver_priv (bank_after o)) = 0 /\
      sectors (bank_after o) = sectors b /\ num_sectors (bank_after o) = num_sectors b /\
      bank_base (bank_after o) = bank_base b /\ bank_size (bank_after o) = bank_size b)).
Proof.
  split; intros b o; subst o.
  - unfold Stm32x.stm32x_auto_probe. rewrite !bind_get_bank.
    destruct (Z.eqb_spec (Stm32x.probed (driver_priv b)) 0) as [Hz|Hnz]; cbn [negb].
    + destruct (stm32x_probe_marks t b tr) as [Hok Hfail]. split.
      * intros Hr t'. rewrite bind_get_bank. rewrite (Hok Hr). reflexivity.
      * exact Hfail.
    + cbn [ret result bank_after trace]. split.
      * intros _ t'. rewrite bind_get_bank.
        destruct (Z.eqb_spec (Stm32x.probed (driver_priv b)) 0); [contradiction|].
        reflexivity.
      * intros H. exfalso. apply H. reflexivity.
  - unfold NucX1.nucX1_auto_probe. rewrite !bind_get_bank.
    destruct (Z.eqb_spec (NucX1.probed (driver_priv b)) 0) as [Hz|Hnz]; cbn [negb].
    + destruct (nucX1_probe_marks t b tr) as [Hok Hfail]. split.
      * intros Hr t'. rewrite bind_get_bank. rewrite (Hok Hr). reflexivity.
      * exact Hfail.
    + cbn [ret result bank_after trace]. split.
      * intros _ t'. rewrite bind_get_bank.
        destruct (Z.eqb_spec (NucX1.probed (driver_priv b)) 0); [contradiction|].
        reflexivity.
      * intros H. exfalso. apply H. reflexivity.
Qed.
(** ** The second bank of a dual-bank device *)

(** X8. The operations on the option bytes refuse a bank whose registers
    are not at offset [FLASH_OFFSET_B0], that is the second bank of a
    dual-bank device: on a halted target, protect-check, protect and the
    lock, unlock and options_write commands return
    [ERROR_FLASH_OPERATION_FAILED] without a call on the target, without a
    line printed and without touching the bank. *)
Theorem option_bytes_need_first_bank
  (t : target) (b : Stm32x.bank) (tr : list event) (set first last : Z)
  (argv : list String.string) :
  state t = TARGET_HALTED ->
  Stm32x.register_offset (driver_priv b) <> Stm32x.FLASH_OFFSET_B0 ->
  Stm32x.stm32x_protect_check t b tr = mk_outcome ERROR_FLASH_OPERATION_FAILED b tr /\
  Stm32x.stm32x_protect set first last t b tr =
    mk_outcome ERROR_FLASH_OPERATION_FAILED b tr /\
  (1 <= CMD_ARGC argv ->
   Stm32x.stm32x_handle_lock_command argv ERROR_OK t b tr =
     mk_outcome (ERROR_FLASH_OPERATION_FAILED, []) b tr /\
   Stm32x.stm32x_handle_unlock_command argv ERROR_OK t b tr =
     mk_outcome (ERROR_FLASH_OPERATION_FAILED, []) b tr) /\
  (4 <= CMD_ARGC argv ->
   Stm32x.stm32x_handle_options_write_command argv ERROR_OK t b tr =
     mk_outcome (ERROR_FLASH_OPERATION_FAILED, []) b tr).
Proof.
  intros Hh Hoff.
  assert (Hsup : Stm32x.stm32x_check_operation_supported t b tr =
                 mk_outcome ERROR_FLASH_OPERATION_FAILED b tr).
  { unfold Stm32x.stm32x_check_operation_supported. rewrite bind_get_bank.
    destruct (Z.eqb_spec (Stm32x.register_offset (driver_priv b)) Stm32x.FLASH_OFFSET_B0);
      [contradiction | reflexivity]. }
  repeat split.
  - unfold Stm32x.stm32x_protect_check. unfold bind at 1, get_target_state.
    cbn [result bank_after trace]. rewrite Hh. cbn [is_halted negb].
    rewrite guard_ok_run, Hsup. reflexivity.
  - unfold Stm32x.stm32x_protect. unfold bind at 1, get_target_state.
    cbn [result bank_after trace]. rewrite Hh. cbn [is_halted negb].
    rewrite guard_ok_run, Hsup. reflexivity.
  - unfold Stm32x.stm32x_handle_lock_command.
    destruct (Z.ltb_spec (CMD_ARGC argv) 1); [lia|]. cbn [is_ok negb].
    unfold bind at 1, get_target_state. cbn [result bank_after trace].
    rewrite Hh. cbn [is_halted negb]. unfold bind at 1. rewrite Hsup. reflexivity.
  - unfold Stm32x.stm32x_handle_unlock_command.
    destruct (Z.ltb_spec (CMD_ARGC argv) 1); [lia|]. cbn [is_ok negb].
    unfold bind at 1, get_target_state. cbn [result bank_after trace].
    rewrite Hh. cbn [is_halted negb]. unfold bind at 1. rewrite Hsup. reflexivity.
  - intros Hargc. unfold Stm32x.stm32x_handle_options_write_command. cbv zeta.
    destruct (Z.ltb_spec (CMD_ARGC argv) 4); [lia|]. cbn [is_ok negb].
    rewrite bind_get_bank.
    unfold bind at 1, get_target_state. cbn [result bank_after trace].
    rewrite Hh. cbn [is_halted negb]. unfold bind at 1. rewrite Hsup. reflexivity.
Qed.

Lemma option_bytes_need_first_bank_witness :
  Stm32x.register_offset (driver_priv xl_bank1) = Stm32x.FLASH_OFFSET_B1 /\
  Stm32x.stm32x_protect_check xl_target xl_bank1 [] =
    mk_outcome ERROR_FLASH_OPERATION_FAILED xl_bank1 [] /\
  Stm32x.stm32x_protect 1 0 1 xl_target xl_bank1 [] =
    mk_outcome ERROR_FLASH_OPERATION_FAILED xl_bank1 [] /\
  Stm32x.stm32x_handle_lock_command ["1"] ERROR_OK xl_target xl_bank1 [] =
    mk_outcome (ERROR_FLASH_OPERATION_FAILED, []) xl_bank1 [].
Proof.
  destruct (option_bytes_need_first_bank xl_target xl_bank1 [] 1 0 1 ["1"] eq_refl)
    as (H1 & H2 & H3 & _).
  - vm_compute. discriminate.
  - split; [vm_compute; reflexivity|]. split; [exact H1|]. split; [exact H2|].
    apply H3. vm_compute. discriminate.
Defined.

(** X9. The two banks of an XL-density device (device id 0x430), once the
    id register could be read.  A bank configured at any base but
    0x08080000 is probed as the first bank: base 0x08000000, 256 sectors
    of 2048 bytes, registers at offset 0.  A bank configured at 0x08080000
    is probed as the second bank: it keeps its base, its registers are at
    offset 0x40, and it gets the reported size less 512 kbytes, as a
    16-bit number, in 2-kbyte sectors; the reported size is taken as 1024
    kbytes when it cannot be read or reads 0xffff. *)
Theorem stm32x_probe_xl_banks (t : target) (b : Stm32x.bank) (tr : list event) :
  let id := respond t tr (ReadU32 0xE0042000) in
  let size := respond t (after t tr (ReadU32 0xE0042000)) (ReadU16 0x1FFFF7E0) in
  let kbytes :=
    if is_ok (rc size) then (if u16 (out size) =? 0xffff then 1024 else u16 (out size))
    else 1024 in
  rc id = ERROR_OK -> Z.land (u32 (out id)) 0x7ff = 0x430 ->
  let o := Stm32x.stm32x_probe t b tr in
  let p := driver_priv (bank_after o) in
  result o = ERROR_OK /\
  Stm32x.ppage_size p = 2 /\ Stm32x.has_dual_banks p = true /\
  (bank_base b <> 0x08080000 ->
   bank_base (bank_after o) = 0x08000000 /\ num_sectors (bank_after o) = 256 /\
   bank_size (bank_after o) = 0x80000 /\
   Stm32x.register_offset p = Stm32x.FLASH_OFFSET_B0) /\
  (bank_base b = 0x08080000 ->
   bank_base (bank_after o) = 0x08080000 /\
   num_sectors (bank_after o) = u16 (kbytes - 512) / 2 /\
   Stm32x.register_offset p = Stm32x.FLASH_OFFSET_B1).
Proof.
  intros id size kbytes Hrc Hid o p. subst o p.
  unfold Stm32x.stm32x_probe, Stm32x.identify, bind, ret, target_read_u32,
    target_read_u16, tap.
  simpl. change (u32 3758366720) with 3758366720. change (u32 536868832) with 536868832.
  fold id. rewrite Hrc. simpl. rewrite Hid. simpl.
  fold size.
  destruct (Z.eqb_spec (bank_base b) 134742016) as [Hb|Hb]; simpl.
  - repeat split; try reflexivity; try contradiction.
    subst kbytes. change (Z.quot 2048 1024) with 2.
    assert (Hq : forall x, u16 (Z.quot (u16 x) 2) = u16 x / 2).
    { intros x. pose proof (u16_range x).
      rewrite Z.quot_div_nonneg by lia. unfold u16 at 1. apply Z.mod_small.
      split; [apply Z.div_pos; lia | apply Z.div_lt_upper_bound; lia]. }
    destruct (is_ok (rc size)); simpl.
    + destruct (u16 (out size) =? 65535); apply Hq.
    + apply Hq.
  - repeat split; try reflexivity; try contradiction.
Qed.

Lemma stm32x_probe_xl_banks_witness :
  result (Stm32x.stm32x_probe xl_target xl_fresh_bank1 []) = ERROR_OK /\
  bank_base xl_bank1 = 0x08080000 /\ num_sectors xl_bank1 = 256 /\
  Stm32x.register_offset (driver_priv xl_bank1) = Stm32x.FLASH_OFFSET_B1 /\
  bank_base xl_bank0 = 0x08000000 /\ num_sectors xl_bank0 = 256 /\
  Stm32x.register_offset (driver_priv xl_bank0) = Stm32x.FLASH_OFFSET_B0.
Proof.
  destruct (stm32x_probe_xl_banks xl_target xl_fresh_bank1 [] eq_refl eq_refl)
    as (Hr & _ & _ & _ & H1).
  destruct (stm32x_probe_xl_banks xl_target xl_fresh_bank0 [] eq_refl eq_refl)
    as (_ & _ & _ & H0 & _).
  destruct (H1 eq_refl) as (Hb1 & Hn1 & Ho1).
  destruct H0 as (Hb0 & Hn0 & _ & Ho0); [discriminate|].
  split; [exact Hr|].
  split; [exact Hb1|]. split; [exact Hn1|]. split; [exact Ho1|].
  split; [exact Hb0|]. split; [exact Hn0 | exact Ho0].
Defined.
(** ** Info and probe *)

Lemma stm32x_probe_result (t : target) (b : Stm32x.bank) tr :
  let id := respond t tr (ReadU32 0xE0042000) in
  result (Stm32x.stm32x_probe t b tr) =
  if is_ok (rc id)
  then (if stm32x_known_id (u32 (out id)) then ERROR_OK else ERROR_FAIL)
  else rc id.
Proof.
  intros id. unfold Stm32x.stm32x_probe, Stm32x.identify, stm32x_known_id, bind, ret,
    target_read_u32, target_read_u16, tap.
  simpl. change (u32 3758366720) with 3758366720. fold id.
  destruct (is_ok (rc id)); simpl; [|reflexivity].
  set (x := Z.land _ 0x7ff).
  repeat (match goal with
          | |- context [if ?c =? ?d then _ else _] =>
              lazymatch c with x => destruct (c =? d) end
          end; simpl); try reflexivity.
  destruct (negb (bank_base b =? 134742016)); reflexivity.
Qed.

Lemma get_stm32x_info_result (t : target) (b : Stm32x.bank) tr buf buf_size :
  let id := respond t tr (ReadU32 0xE0042000) in
  fst (result (Stm32x.get_stm32x_info buf buf_size t b tr)) =
  if is_ok (rc id)
  then (if stm32x_known_id (u32 (out id)) then ERROR_OK else ERROR_FAIL)
  else rc id.
Proof.
  intros id. unfold Stm32x.get_stm32x_info, stm32x_known_id. mstep.
  change (u32 3758366720) with 3758366720. fold id.
  destruct (is_ok (rc id)); cbn [negb]; mstep; [|reflexivity].
  set (x := Z.land _ 0x7ff).
  repeat (match goal with
          | |- context [if ?c =? ?d then _ else _] =>
              lazymatch c with x => destruct (c =? d) end
          end; mstep; cbn [orb]); reflexivity.
Qed.

(** X10. The info functions and the probes agree on what they accept.
    Started at the same point, [get_stm32x_info] returns the code
    [stm32x_probe] returns: the error of the read of the id register,
    [ERROR_OK] for the six families, [ERROR_FAIL] for any other id.  On a
    halted target [nucX1_info] returns the code [nucX1_probe] returns; for
    the NUC120 id it returns [ERROR_OK] and leaves the text buffer as it
    found it. *)
Theorem info_agrees_with_probe
  (t : target) (tr : list event) (buf : String.string) (buf_size : Z) :
  (forall b : Stm32x.bank,
     fst (result (Stm32x.get_stm32x_info buf buf_size t b tr)) =
     result (Stm32x.stm32x_probe t b tr)) /\
  (forall b : NucX1.bank,
     state t = TARGET_HALTED ->
     fst (result (NucX1.nucX1_info buf buf_size t b tr)) =
     result (NucX1.nucX1_probe t b tr)) /\
  (forall b : NucX1.bank,
     rc (respond t tr (ReadU32 0x50000000)) = ERROR_OK ->
     u32 (out (respond t tr (ReadU32 0x50000000))) = 0x00012000 ->
     result (NucX1.nucX1_info buf buf_size t b tr) = (ERROR_OK, buf)).
Proof.
  split; [|split]; intros b.
  - rewrite get_stm32x_info_result, stm32x_probe_result. reflexivity.
  - intros Hh.
    unfold NucX1.nucX1_info, NucX1.nucX1_probe, NucX1.modify_priv. mstep.
    rewrite Hh. cbn [is_halted negb]. mstep.
    change (u32 1342177280) with 1342177280.
    destruct (rc (respond t tr (ReadU32 1342177280))) eqn:Hid; cbn [is_ok negb]; mstep;
      try reflexivity.
    set (id := u32 _).
    destruct (id =? 73728); mstep; [reflexivity|].
    destruct (id =? 0); reflexivity.
  - intros Hrc Hid.
    unfold NucX1.nucX1_info. mstep. change (u32 1342177280) with 1342177280.
    rewrite Hrc. cbn [is_ok negb]. mstep. rewrite Hid. reflexivity.
Qed.

Lemma info_agrees_with_probe_witness :
  fst (result (NucX1.nucX1_info "old text" 64 nuc120_target nucX1_fresh_bank [])) =
    result (NucX1.nucX1_probe nuc120_target nucX1_fresh_bank []) /\
  result (NucX1.nucX1_info "old text" 64 nuc120_target nucX1_fresh_bank []) =
    (ERROR_OK, "old text") /\
  result (Stm32x.get_stm32x_info "" 64 medium_density_target stm32x_fresh_bank []) =
    (ERROR_OK, "stm32x (Medium Density) - Rev: Y").
Proof.
  destruct (info_agrees_with_probe nuc120_target [] "old text" 64) as (_ & H2 & H3).
  split; [apply H2; reflexivity|].
  split; [apply H3; reflexivity|].
  vm_compute. reflexivity.
Defined.

(** ** The mass erase commands *)

Lemma all_marked_at (n : Z) (l : list flash_sector) (j : Z) :
  sector_at (for_range 0 n (fun i l => update_sector i (with_is_erased 1) l) l) j =
  if (0 <=? j) && (j <? n) && (j <? Z.of_nat (length l))
  then with_is_erased 1 (sector_at l j) else sector_at l j.
Proof.
  unfold for_range. rewrite erased_run_at.
  destruct (Z.leb_spec 0 j); destruct (Z.ltb_spec j (0 + Z.of_nat (Z.to_nat (n - 0))));
    destruct (Z.ltb_spec j n); destruct (Z.ltb_spec j (Z.of_nat (length l)));
    cbn [andb]; try reflexivity; lia.
Qed.

(** X11. The nucX1 mass erase erases nothing and reports success.  On a
    halted target the mass_erase command makes no call on the target,
    marks every sector of the bank as erased, prints that the mass erase is
    complete and returns [ERROR_OK]; the offsets, sizes and protection
    flags of the sectors are as they were. *)
Theorem nucX1_mass_erase_command_erases_nothing
  (t : target) (b : NucX1.bank) (tr : list event) (argv : list String.string) :
  state t = TARGET_HALTED -> 1 <= CMD_ARGC argv ->
  let o := NucX1.nucX1_handle_mass_erase_command argv ERROR_OK t b tr in
  result o = (ERROR_OK, ["nucX1 mass erase complete"]) /\
  trace o = tr /\
  forall j, 0 <= j < num_sectors b -> j < Z.of_nat (length (sectors b)) ->
    sector_at (sectors (bank_after o)) j = with_is_erased 1 (sector_at (sectors b) j).
Proof.
  intros Hh Hargc o. subst o.
  unfold NucX1.nucX1_handle_mass_erase_command, NucX1.nucX1_mass_erase.
  destruct (Z.ltb_spec (CMD_ARGC argv) 1); [lia|]. cbn [is_ok negb].
  mstep. rewrite Hh. cbn [is_halted negb]. mstep. cbn [is_ok]. mstep.
  split; [reflexivity|]. split; [reflexivity|].
  intros j Hj Hlen. cbn [sectors set_sectors]. rewrite all_marked_at.
  destruct (Z.leb_spec 0 j); [|lia]. destruct (Z.ltb_spec j (num_sectors b)); [|lia].
  destruct (Z.ltb_spec j (Z.of_nat (length (sectors b)))); [|lia]. reflexivity.
Qed.

Lemma nucX1_mass_erase_command_erases_nothing_witness :
  let o := NucX1.nucX1_handle_mass_erase_command ["0"] ERROR_OK nuc120_target nuc120_bank [] in
  result o = (ERROR_OK, ["nucX1 mass erase complete"]) /\
  trace o = [] /\
  is_erased (sector_at (sectors nuc120_bank) 7) = -1 /\
  is_erased (sector_at (sectors (bank_after o)) 7) = 1.
Proof.
  destruct (nucX1_mass_erase_command_erases_nothing nuc120_target nuc120_bank [] ["0"] eq_refl)
    as (Hr & Ht & Hs); [vm_compute; discriminate|].
  cbv zeta. split; [exact Hr|]. split; [exact Ht|]. split; [reflexivity|].
  rewrite Hs; [reflexivity | vm_compute; split; [discriminate | reflexivity]
              | vm_compute; reflexivity].
Defined.

(** X12. The stm32x mass_erase command is the mass erase, then the
    marking: its calls and its return code are those of
    [stm32x_mass_erase]; when that returns [ERROR_OK] every sector of the
    bank is marked erased, and when it fails the bank is left as it was.
    This holds whatever the target answers. *)
Theorem stm32x_mass_erase_command_marks_all
  (t : target) (b : Stm32x.bank) (tr : list event) (argv : list String.string) :
  1 <= CMD_ARGC argv ->
  let e := Stm32x.stm32x_mass_erase t b tr in
  let o := Stm32x.stm32x_handle_mass_erase_command argv ERROR_OK t b tr in
  fst (result o) = result e /\ trace o = trace e /\
  (result e = ERROR_OK ->
   snd (result o) = ["stm32x mass erase complete"] /\
   forall j, 0 <= j < num_sectors b -> j < Z.of_nat (length (sectors b)) ->
     sector_at (sectors (bank_after o)) j = with_is_erased 1 (sector_at (sectors b) j)) /\
  (result e <> ERROR_OK ->
   snd (result o) = ["stm32x mass erase failed"] /\ bank_after o = b).
Proof.
  intros Hargc e o. subst o.
  unfold Stm32x.stm32x_handle_mass_erase_command.
  destruct (Z.ltb_spec (CMD_ARGC argv) 1); [lia|]. cbn [is_ok negb].
  assert (Hb : bank_after e = b).
  { destruct (stm32x_mass_erase_ok t b b tr eq_refl) as [Hb _]. exact Hb. }
  unfold bind. cbv beta.
  change (Stm32x.stm32x_mass_erase t b tr) with e. clearbody e.
  destruct e as [r b' tr']. cbn [result bank_after trace] in *. subst b'.
  destruct r; cbn [is_ok]; mstep;
    (split; [reflexivity|]); (split; [reflexivity|]);
    (split; [|intros Hne; try (exfalso; apply Hne; reflexivity); split; reflexivity]);
    try discriminate.
  intros _. split; [reflexivity|].
  intros j Hj Hlen. cbn [sectors set_sectors]. rewrite all_marked_at.
  destruct (Z.leb_spec 0 j); [|lia]. destruct (Z.ltb_spec j (num_sectors b)); [|lia].
  destruct (Z.ltb_spec j (Z.of_nat (length (sectors b)))); [|lia]. reflexivity.
Qed.

Lemma stm32x_mass_erase_command_marks_all_witness :
  let o := Stm32x.stm32x_handle_mass_erase_command ["0"] ERROR_OK
             medium_density_target medium_density_bank [] in
  result o = (ERROR_OK, ["stm32x mass erase complete"]) /\
  is_erased (sector_at (sectors (bank_after o)) 127) = 1.
Proof.
  destruct (stm32x_mass_erase_command_marks_all medium_density_target medium_density_bank
              [] ["0"]) as (H1 & _ & H3 & _); [vm_compute; discriminate|].
  assert (He : result (Stm32x.stm32x_mass_erase medium_density_target medium_density_bank [])
               = ERROR_OK) by (vm_compute; reflexivity).
  destruct (H3 He) as [Hm Hs].
  cbv zeta. split.
  - rewrite <- He, <- H1, <- Hm. apply surjective_pairing.
  - rewrite Hs; [reflexivity | vm_compute; split; [discriminate | reflexivity]
                | vm_compute; reflexivity].
Defined.
(** ** The option byte commands *)

Lemma calls_since_run (t : target) (class : call -> bool) tr (cs : list call) :
  calls_since class tr (run_calls t tr cs) (filter class cs).
Proof.
  destruct (run_calls_grows t cs tr) as (ext & Hext & Hcalls).
  exists ext. split; [exact Hext | rewrite Hcalls; reflexivity].
Qed.

Section OptionCommands.
Variable t : target.
Hypothesis Ht : compliant_target t.
Hypothesis Hh : state t = TARGET_HALTED.

Lemma lock_command_run (b : Stm32x.bank) tr (argv : list String.string) :
  Stm32x.register_offset (driver_priv b) = Stm32x.FLASH_OFFSET_B0 ->
  1 <= CMD_ARGC argv ->
  let obr := u32 (out (respond t tr (ReadU32 Stm32x.STM32_FLASH_OBR))) in
  let wrpr := u32 (out (respond t (after t tr (ReadU32 Stm32x.STM32_FLASH_OBR))
                          (ReadU32 Stm32x.STM32_FLASH_WRPR))) in
  let ob := Stm32x.with_RDP 0 (options_read_from obr wrpr) in
  Stm32x.stm32x_handle_lock_command argv ERROR_OK t b tr =
  mk_outcome (ERROR_OK, ["stm32x locked"]) (set_option_bytes ob b)
    (run_calls t tr (erase_options_calls ++ write_options_calls ob)).
Proof.
  intros Hoff Hargc obr wrpr ob.
  unfold Stm32x.stm32x_handle_lock_command, Stm32x.stm32x_check_operation_supported.
  destruct (Z.ltb_spec (CMD_ARGC argv) 1); [lia|]. cbn [is_ok negb].
  unfold bind at 1, get_target_state. cbn [result bank_after trace].
  rewrite Hh. cbn [is_halted negb].
  unfold bind at 1. rewrite bind_get_bank. rewrite Hoff, Z.eqb_refl. cbn [negb].
  cbn [ret result bank_after trace is_ok negb].
  unfold bind at 1. rewrite (erase_options_run t Ht) by exact Hoff.
  cbn [result bank_after trace is_ok negb].
  unfold bind at 1. unfold Stm32x.modify_options, Stm32x.modify_priv, modify_bank.
  cbn [result bank_after trace].
  unfold bind at 1. rewrite (write_options_run t Ht) by exact Hoff.
  cbn [result bank_after trace is_ok negb ret].
  rewrite run_calls_app. reflexivity.
Qed.

Lemma unlock_command_run (b : Stm32x.bank) tr (argv : list String.string) :
  Stm32x.register_offset (driver_priv b) = Stm32x.FLASH_OFFSET_B0 ->
  1 <= CMD_ARGC argv ->
  let obr := u32 (out (respond t tr (ReadU32 Stm32x.STM32_FLASH_OBR))) in
  let wrpr := u32 (out (respond t (after t tr (ReadU32 Stm32x.STM32_FLASH_OBR))
                          (ReadU32 Stm32x.STM32_FLASH_WRPR))) in
  let ob := Stm32x.with_RDP 0x5AA5 (options_read_from obr wrpr) in
  exists text,
    Stm32x.stm32x_handle_unlock_command argv ERROR_OK t b tr =
    mk_outcome (ERROR_OK, [text]) (set_option_bytes ob b)
      (run_calls t tr (erase_options_calls ++ write_options_calls ob)).
Proof.
  intros Hoff Hargc obr wrpr ob.
  unfold Stm32x.stm32x_handle_unlock_command, Stm32x.stm32x_check_operation_supported.
  destruct (Z.ltb_spec (CMD_ARGC argv) 1); [lia|]. cbn [is_ok negb].
  unfold bind at 1, get_target_state. cbn [result bank_after trace].
  rewrite Hh. cbn [is_halted negb].
  unfold bind at 1. rewrite bind_get_bank. rewrite Hoff, Z.eqb_refl. cbn [negb].
  cbn [ret result bank_after trace is_ok negb].
  unfold bind at 1. rewrite (erase_options_run t Ht) by exact Hoff.
  cbn [result bank_after trace is_ok negb].
  unfold bind at 1. rewrite (write_options_run t Ht) by exact Hoff.
  cbn [result bank_after trace is_ok negb ret].
  eexists. rewrite run_calls_app. reflexivity.
Qed.

End OptionCommands.

Lemma filter_option_calls (o : Stm32x.stm32x_options) :
  filter is_write_u16 (erase_options_calls ++ write_options_calls o) = option_halfwords o.
Proof. reflexivity. Qed.


Lemma last_halfword (o : Stm32x.stm32x_options) :
  last (option_halfwords o) (AliveSleep 0) = WriteU16 Stm32x.STM32_OB_RDP (u16 (Stm32x.RDP o)).
Proof. reflexivity. Qed.

Lemma options_write_command_run (t : target) (b : Stm32x.bank) tr
  (argv : list String.string) :
  compliant_target t -> state t = TARGET_HALTED ->
  Stm32x.register_offset (driver_priv b) = Stm32x.FLASH_OFFSET_B0 ->
  4 <= CMD_ARGC argv ->
  let obr := u32 (out (respond t tr (ReadU32 Stm32x.STM32_FLASH_OBR))) in
  let wrpr := u32 (out (respond t (after t tr (ReadU32 Stm32x.STM32_FLASH_OBR))
                          (ReadU32 Stm32x.STM32_FLASH_WRPR))) in
  let ob :=
    Stm32x.with_user_options
      (user_option_byte argv (Stm32x.has_dual_banks (driver_priv b)))
      (Stm32x.with_RDP 0x5AA5 (options_read_from obr wrpr)) in
  exists text,
    Stm32x.stm32x_handle_options_write_command argv ERROR_OK t b tr =
    mk_outcome (ERROR_OK, [text]) (set_option_bytes ob b)
      (run_calls t tr (erase_options_calls ++ write_options_calls ob)).
Proof.
  intros Ht Hh Hoff Hargc obr wrpr ob.
  unfold Stm32x.stm32x_handle_options_write_command,
    Stm32x.stm32x_check_operation_supported.
  cbv zeta.
  destruct (Z.ltb_spec (CMD_ARGC argv) 4); [lia|]. cbn [is_ok negb].
  rewrite bind_get_bank.
  unfold bind at 1, get_target_state. cbn [result bank_after trace].
  rewrite Hh. cbn [is_halted negb].
  unfold bind at 1. rewrite bind_get_bank. rewrite Hoff, Z.eqb_refl. cbn [negb].
  cbn [ret result bank_after trace is_ok negb].
  unfold bind at 1. rewrite (erase_options_run t Ht) by exact Hoff.
  cbn [result bank_after trace is_ok negb].
  unfold bind at 1. unfold Stm32x.modify_options, Stm32x.modify_priv, modify_bank.
  cbn [result bank_after trace].
  unfold bind at 1. rewrite (write_options_run t Ht) by exact Hoff.
  cbn [result bank_after trace is_ok negb ret].
  match goal with
  | |- context [Stm32x.with_user_options ?x _] =>
      lazymatch x with
      | user_option_byte _ _ => fail
      | _ => replace x with (user_option_byte argv (Stm32x.has_dual_banks (driver_priv b)))
      end
  end.
  2:{ unfold user_option_byte.
      destruct (CMD_ARGC argv >? 4); destruct (Stm32x.has_dual_banks (driver_priv b));
        destruct (String.eqb (CMD_ARGV argv 1) "SWWDG");
        destruct (String.eqb (CMD_ARGV argv 2) "NORSTSTOP");
        destruct (String.eqb (CMD_ARGV argv 3) "NORSTSTNDBY");
        try destruct (String.eqb (CMD_ARGV argv 4) "BOOT0"); reflexivity. }
  eexists. rewrite run_calls_app. reflexivity.
Qed.


(** X15. The option byte commands do not report a failure to their
    caller.  On a halted target and for the first bank, whatever the
    target answers to the erase and to the programming of the option bytes,
    lock, unlock and options_write return [ERROR_OK]; a failure shows only
    in the one line they print. *)
Theorem option_commands_return_ok
  (t : target) (b : Stm32x.bank) (tr : list event) (argv : list String.string) :
  state t = TARGET_HALTED ->
  Stm32x.register_offset (driver_priv b) = Stm32x.FLASH_OFFSET_B0 ->
  let erased := is_ok (result (Stm32x.stm32x_erase_options t b tr)) in
  (1 <= CMD_ARGC argv ->
   let lock := result (Stm32x.stm32x_handle_lock_command argv ERROR_OK t b tr) in
   let unlock := result (Stm32x.stm32x_handle_unlock_command argv ERROR_OK t b tr) in
   fst lock = ERROR_OK /\ fst unlock = ERROR_OK /\
   (erased = false ->
    lock = (ERROR_OK, ["stm32x failed to erase options"]) /\
    unlock = (ERROR_OK, ["stm32x failed to unlock device"]))) /\
  (4 <= CMD_ARGC argv ->
   let write := result (Stm32x.stm32x_handle_options_write_command argv ERROR_OK t b tr) in
   fst write = ERROR_OK /\
   (erased = false -> write = (ERROR_OK, ["stm32x failed to erase options"]))).
Proof.
  intros Hh Hoff erased.
  assert (Hsup : Stm32x.stm32x_check_operation_supported t b tr = mk_outcome ERROR_OK b tr).
  { unfold Stm32x.stm32x_check_operation_supported. rewrite bind_get_bank.
    rewrite Hoff, Z.eqb_refl. reflexivity. }
  split.
  - intros Hargc lock unlock. subst lock unlock.
    unfold Stm32x.stm32x_handle_lock_command, Stm32x.stm32x_handle_unlock_command.
    destruct (Z.ltb_spec (CMD_ARGC argv) 1); [lia|]. cbn [is_ok negb].
    unfold bind, get_target_state. cbn [result bank_after trace]. cbv beta.
    rewrite Hh. cbn [is_halted negb]. rewrite Hsup. cbn [result bank_after trace is_ok negb].
    fold erased. destruct erased; cbn [negb].
    + repeat split; try discriminate;
        match goal with
        | |- context [if negb (is_ok ?r) then _ else _] => destruct (is_ok r)
        end; reflexivity.
    + repeat split; reflexivity.
  - intros Hargc write. subst write.
    unfold Stm32x.stm32x_handle_options_write_command. cbv zeta.
    destruct (Z.ltb_spec (CMD_ARGC argv) 4); [lia|]. cbn [is_ok negb].
    unfold bind, get_bank, get_target_state. cbn [result bank_after trace]. cbv beta.
    rewrite Hh. cbn [is_halted negb]. rewrite Hsup. cbn [result bank_after trace is_ok negb].
    fold erased. destruct erased; cbn [negb].
    + split; [|discriminate].
      match goal with
      | |- context [if negb (is_ok ?r) then _ else _] => destruct (is_ok r)
      end; reflexivity.
    + split; reflexivity.
Qed.

Lemma option_commands_return_ok_witness :
  let failing := fixed_target TARGET_HALTED (fun _ => failed) in
  is_ok (result (Stm32x.stm32x_erase_options failing medium_density_bank [])) = false /\
  result (Stm32x.stm32x_handle_lock_command ["0"] ERROR_OK failing medium_density_bank []) =
    (ERROR_OK, ["stm32x failed to erase options"]).
Proof.
  destruct (option_commands_return_ok (fixed_target TARGET_HALTED (fun _ => failed))
              medium_density_bank [] ["0"] eq_refl eq_refl) as [H1 _].
  destruct H1 as (_ & _ & H3); [vm_compute; discriminate|].
  assert (He : is_ok (result (Stm32x.stm32x_erase_options
                                (fixed_target TARGET_HALTED (fun _ => failed))
                                medium_density_bank [])) = false)
    by (vm_compute; reflexivity).
  cbv zeta. split; [exact He|]. exact (proj1 (H3 He)).
Defined.

(** ** The order in which the option bytes are programmed *)

Lemma calls_since_refl (class : call -> bool) tr : calls_since class tr tr [].
Proof. exists []. split; [symmetry; apply app_nil_r | reflexivity]. Qed.

Lemma calls_since_after (class : call -> bool) (t : target) tr0 tr l (c : call) :
  calls_since class tr0 tr l ->
  calls_since class tr0 (after t tr c) (l ++ if class c then [c] else []).
Proof.
  intros (ext & -> & Hf). exists (ext ++ [(c, respond t (tr0 ++ ext) c)]). split.
  - unfold after. rewrite app_assoc. reflexivity.
  - unfold calls in *. rewrite map_app, filter_app. cbn [map filter fst].
    subst l. destruct (class c); reflexivity.
Qed.

Lemma hoare_last_write_gen {S} (t : target) (J : S -> list event -> Prop) (a v : Z) :
  admits J t (WriteU32 (u32 a) (u32 v)) ->
  hoare t J (guard_ok (target_write_u32 a v) (ret ERROR_OK))
    (fun r b tr => J b tr /\ (r = ERROR_OK -> ends_with t (WriteU32 (u32 a) (u32 v)) tr)).
Proof.
  intros Ha b tr Hj. rewrite guard_ok_run, write_u32_run. cbn [result bank_after trace].
  destruct (is_ok (rc (respond t tr (WriteU32 (u32 a) (u32 v))))) eqn:E;
    cbn [result bank_after trace ret].
  - split; [apply Ha, Hj|]. intros _. eexists. reflexivity.
  - split; [apply Ha, Hj|]. intros He. rewrite He in E. discriminate.
Qed.

Section WriteOptionsOrder.
Variable t : target.
Variable b1 : Stm32x.bank.
Variable tr0 : list event.

Lemma programmed_so_far_admits k (c : call) :
  is_write_u16 c = false -> admits (programmed_so_far b1 tr0 k) t c.
Proof.
  intros Hc b tr [Hb Hs]. split; [exact Hb|].
  apply (calls_since_after is_write_u16 t _ _ _ c) in Hs.
  rewrite Hc, app_nil_r in Hs. exact Hs.
Qed.

Lemma programmed_so_far_wait k timeout :
  keeps (programmed_so_far b1 tr0 k) t (Stm32x.stm32x_wait_status_busy timeout).
Proof.
  apply wait_status_busy_keeps; intros; apply programmed_so_far_admits; reflexivity.
Qed.

Lemma programmed_so_far_step k (a v : Z) :
  nth_error (option_halfwords (Stm32x.option_bytes (driver_priv b1))) k =
    Some (WriteU16 (u32 a) (u16 v)) ->
  hoare t (programmed_so_far b1 tr0 k) (target_write_u16 a v)
    (fun _ => programmed_so_far b1 tr0 (S k)).
Proof.
  intros Hn b tr [Hb Hs]. unfold target_write_u16, bind, tap, ret.
  cbn [result bank_after trace]. split; [exact Hb|].
  apply (calls_since_after is_write_u16 t _ _ _ (WriteU16 (u32 a) (u16 v))) in Hs.
  cbn [is_write_u16] in Hs.
  replace (firstn (S k) (option_halfwords (Stm32x.option_bytes (driver_priv b1))))
    with (firstn k (option_halfwords (Stm32x.option_bytes (driver_priv b1))) ++
          [WriteU16 (u32 a) (u16 v)]); [exact Hs|].
  revert Hn. generalize (option_halfwords (Stm32x.option_bytes (driver_priv b1))).
  clear. induction k as [|k IH]; intros [|x l] Hn; cbn in *; try discriminate.
  - inversion Hn. reflexivity.
  - f_equal. apply IH, Hn.
Qed.

End WriteOptionsOrder.

Lemma write_options_order (t : target) (b1 : Stm32x.bank) (tr0 : list event) :
  hoare t (programmed_so_far b1 tr0 0) Stm32x.stm32x_write_options
    (fun r b tr =>
       b = b1 /\
       exists k, (k <= 6)%nat /\
         calls_since is_write_u16 tr0 tr
           (firstn k (option_halfwords (Stm32x.option_bytes (driver_priv b1)))) /\
         (r = ERROR_OK ->
          k = 6%nat /\
          ends_with t (WriteU32 Stm32x.STM32_FLASH_CR Stm32x.FLASH_LOCK) tr)).
Proof.
  unfold Stm32x.stm32x_write_options.
  assert (Hfail : forall k, (k <= 6)%nat -> forall e b tr,
            is_ok e = false -> programmed_so_far b1 tr0 k b tr ->
            b = b1 /\
            exists k, (k <= 6)%nat /\
              calls_since is_write_u16 tr0 tr
                (firstn k (option_halfwords (Stm32x.option_bytes (driver_priv b1)))) /\
              (e = ERROR_OK ->
               k = 6%nat /\
               ends_with t (WriteU32 Stm32x.STM32_FLASH_CR Stm32x.FLASH_LOCK) tr)).
  { intros k Hk e b tr He [Hb Hs]. split; [exact Hb|]. exists k.
    split; [exact Hk|]. split; [exact Hs|]. intros ->. discriminate. }
  do 5 (apply hoare_guard_ok;
        [ apply keeps_write_u32, programmed_so_far_admits; reflexivity
        | | apply (Hfail 0%nat); lia ]).
  apply hoare_get_bank. intros b0 (trx & Hb0 & _). subst b0. cbv zeta.
  (* user option byte *)
  apply hoare_guard_ok_bind with (K := fun _ => programmed_so_far b1 tr0 1);
    [ apply programmed_so_far_step; reflexivity | | apply (Hfail 1%nat); lia ].
  apply hoare_guard_ok; [apply programmed_so_far_wait | | apply (Hfail 1%nat); lia].
  (* protection bytes *)
  apply hoare_guard_ok_bind with (K := fun _ => programmed_so_far b1 tr0 2);
    [ apply programmed_so_far_step; reflexivity | | apply (Hfail 2%nat); lia ].
  apply hoare_guard_ok; [apply programmed_so_far_wait | | apply (Hfail 2%nat); lia].
  apply hoare_guard_ok_bind with (K := fun _ => programmed_so_far b1 tr0 3);
    [ apply programmed_so_far_step; reflexivity | | apply (Hfail 3%nat); lia ].
  apply hoare_guard_ok; [apply programmed_so_far_wait | | apply (Hfail 3%nat); lia].
  apply hoare_guard_ok_bind with (K := fun _ => programmed_so_far b1 tr0 4);
    [ apply programmed_so_far_step; reflexivity | | apply (Hfail 4%nat); lia ].
  apply hoare_guard_ok; [apply programmed_so_far_wait | | apply (Hfail 4%nat); lia].
  apply hoare_guard_ok_bind with (K := fun _ => programmed_so_far b1 tr0 5);
    [ apply programmed_so_far_step; reflexivity | | apply (Hfail 5%nat); lia ].
  apply hoare_guard_ok; [apply programmed_so_far_wait | | apply (Hfail 5%nat); lia].
  (* readout protection *)
  apply hoare_guard_ok_bind with (K := fun _ => programmed_so_far b1 tr0 6);
    [ apply programmed_so_far_step; reflexivity | | apply (Hfail 6%nat); lia ].
  apply hoare_guard_ok; [apply programmed_so_far_wait | | apply (Hfail 6%nat); lia].
  eapply hoare_conseq.
  - apply hoare_last_write_gen. apply programmed_so_far_admits. reflexivity.
  - cbv beta. intros r b tr [[Hb Hs] Hl]. split; [exact Hb|]. exists 6%nat.
    split; [lia|]. split; [exact Hs|]. intros Hr. split; [reflexivity|]. apply Hl, Hr.
Qed.

(** X16. The option bytes are programmed in a fixed order, whatever the
    target answers: [stm32x_write_options] never touches the bank, and the
    halfwords it writes are the first [k] of six (the user byte, the
    four protection bytes, the readout protection, each taken from the
    option bytes of the bank), for some [k]; when it returns [ERROR_OK] all
    six have been written and its last call is the write of [FLASH_LOCK]
    to the control register. *)
Theorem write_options_in_order (t : target) (b : Stm32x.bank) (tr : list event) :
  let six := option_halfwords (Stm32x.option_bytes (driver_priv b)) in
  let o := Stm32x.stm32x_write_options t b tr in
  bank_after o = b /\
  exists k, (k <= 6)%nat /\
    calls_since is_write_u16 tr (trace o) (firstn k six) /\
    (result o = ERROR_OK ->
     k = 6%nat /\ ends_with t (WriteU32 Stm32x.STM32_FLASH_CR Stm32x.FLASH_LOCK) (trace o)).
Proof.
  intros six o.
  apply (write_options_order t b tr b tr).
  split; [reflexivity | apply calls_since_refl].
Qed.

(** ** The NUC: when the register protection comes back *)

Lemma not_restored_admits (t : target) tr0 (c : call) :
  is_protection_restore c = false -> admits (not_restored tr0) t c.
Proof.
  intros Hc b tr Hj. unfold not_restored in *.
  pose proof (calls_since_after is_protection_restore t tr0 tr [] c Hj) as H.
  rewrite Hc in H. exact H.
Qed.

Ltac not_restored_side := solve [apply not_restored_admits; reflexivity].

Lemma wait_go_loop_not_restored (t : target) tr0 n :
  keeps (not_restored tr0) t (NucX1.wait_go_loop n).
Proof.
  induction n as [|n IH]; cbn [NucX1.wait_go_loop];
    keeps_auto not_restored_side; exact IH.
Qed.

Lemma erase_sectors_not_restored (t : target) tr0 n :
  forall i, keeps (not_restored tr0) t (NucX1.erase_sectors n i).
Proof.
  induction n as [|n IH]; intros i; cbn [NucX1.erase_sectors].
  - apply keeps_ret.
  - unfold set_is_erased.
    keeps_auto ltac:(first [ not_restored_side | intros ? ? Hnr; exact Hnr ]);
      first [ apply wait_go_loop_not_restored | apply IH ].
Qed.

Lemma is_ok_eq (e : error_code) : is_ok e = true -> e = ERROR_OK.
Proof. destruct e; try discriminate; reflexivity. Qed.

Lemma nucX1_erase_restore (t : target) tr0 (first last : Z) :
  hoare t (not_restored tr0) (NucX1.nucX1_erase first last)
    (fun r _ tr =>
       (calls_since is_protection_restore tr0 tr [] /\ r <> ERROR_OK) \/
       (exists tr', tr = after t tr' protection_restore /\
          calls_since is_protection_restore tr0 tr' [] /\
          r = rc (respond t tr' protection_restore))).
Proof.
  unfold NucX1.nucX1_erase.
  repeat hoare_step
    ltac:(solve [ apply erase_sectors_not_restored
                | keeps_auto not_restored_side ]).
  all: try (left; split; [assumption | apply not_ok_neq; assumption]).
  all: try (left; split; [assumption | discriminate]).
  all: intros b tr Hj; rewrite guard_ok_run, write_u32_run;
    cbn [result bank_after trace]; right; exists tr;
    change (WriteU32 (u32 NucX1.NUCX1_SYS_WRPROT) (u32 NucX1.LOCK)) with protection_restore;
    destruct (is_ok (rc (respond t tr protection_restore))) eqn:Elast;
    cbn [result bank_after trace ret];
    (split; [reflexivity|]; split; [exact Hj|]);
    [ symmetry; apply is_ok_eq, Elast | reflexivity ].
Qed.

(** X17. The NUC gets its register protection back only as the last step
    of an erase.  Whatever the target answers, a run of [nucX1_erase]
    either fails without having written [LOCK] to the protection register,
    which leaves the chip as far unlocked as the run got, or ends with
    that write, made once, whose return code is then the result. *)
Theorem nucX1_erase_restores_protection_last
  (t : target) (b : NucX1.bank) (first last : Z) (tr : list event) :
  let o := NucX1.nucX1_erase first last t b tr in
  (calls_since is_protection_restore tr (trace o) [] /\ result o <> ERROR_OK) \/
  (exists tr', trace o = after t tr' protection_restore /\
     calls_since is_protection_restore tr tr' [] /\
     result o = rc (respond t tr' protection_restore)).
Proof.
  intros o. apply (nucX1_erase_restore t tr first last b tr).
  apply calls_since_refl.
Qed.

(** ** Erasing the option bytes when they cannot be read *)

Section Through.
Variable t : target.
Hypothesis Hw : lets_writes_through t.

Lemma through_write_u32 {S} (a v : Z) (k : M S error_code) (b : S) tr :
  guard_ok (target_write_u32 a v) k t b tr =
  k t b (after t tr (WriteU32 (u32 a) (u32 v))).
Proof.
  rewrite guard_ok_run, write_u32_run. cbn [result bank_after trace].
  rewrite (proj1 Hw). reflexivity.
Qed.

Lemma through_wait (timeout : Z) (k : M Stm32x.bank error_code) (b : Stm32x.bank) tr :
  Stm32x.register_offset (driver_priv b) = Stm32x.FLASH_OFFSET_B0 ->
  guard_ok (Stm32x.stm32x_wait_status_busy timeout) k t b tr =
  k t b (after t tr (ReadU32 Stm32x.STM32_FLASH_SR)).
Proof.
  intros Hoff. rewrite guard_ok_run.
  rewrite (wait_status_busy_idle t timeout b tr);
    rewrite Hoff; change (status_read Stm32x.FLASH_OFFSET_B0) with (ReadU32 Stm32x.STM32_FLASH_SR).
  - reflexivity.
  - apply (proj2 Hw).
  - apply (proj2 Hw).
Qed.

End Through.

(** What [stm32x_read_options] leaves when a read fails: nothing changed
    after the first, the protection bytes as they were after the second. *)
Lemma read_options_failed (t : target) (b : Stm32x.bank) tr :
  let r1 := respond t tr (ReadU32 Stm32x.STM32_FLASH_OBR) in
  let tr1 := after t tr (ReadU32 Stm32x.STM32_FLASH_OBR) in
  let r2 := respond t tr1 (ReadU32 Stm32x.STM32_FLASH_WRPR) in
  let old := Stm32x.option_bytes (driver_priv b) in
  (is_ok (rc r1) = false ->
   Stm32x.stm32x_read_options t b tr = mk_outcome (rc r1) b tr1) /\
  (is_ok (rc r1) = true -> is_ok (rc r2) = false ->
   Stm32x.stm32x_read_options t b tr =
   mk_outcome (rc r2)
     (set_option_bytes
        (Stm32x.with_protection (Stm32x.protection old)
           (options_read_from (u32 (out r1)) 0)) b)
     (after t tr1 (ReadU32 Stm32x.STM32_FLASH_WRPR))).
Proof.
  intros r1 tr1 r2 old. split.
  - intros E1. unfold Stm32x.stm32x_read_options. mstep.
    change (u32 Stm32x.STM32_FLASH_OBR) with Stm32x.STM32_FLASH_OBR.
    fold r1. rewrite E1. cbn [negb]. reflexivity.
  - intros E1 E2. unfold Stm32x.stm32x_read_options, Stm32x.modify_options,
      Stm32x.modify_priv. mstep.
    change (u32 Stm32x.STM32_FLASH_OBR) with Stm32x.STM32_FLASH_OBR.
    change (u32 Stm32x.STM32_FLASH_WRPR) with Stm32x.STM32_FLASH_WRPR.
    fold r1. rewrite E1. cbn [negb]. mstep. fold tr1. fold r2. rewrite E2. cbn [negb].
    unfold ret.
    unfold set_option_bytes, options_read_from, set_driver_priv, Stm32x.with_option_bytes,
      Stm32x.with_protection, Stm32x.with_RDP, Stm32x.with_user_options.
    cbn [driver_priv bank_base bank_size num_sectors sectors Stm32x.option_bytes
         Stm32x.write_algorithm Stm32x.ppage_size Stm32x.probed Stm32x.has_dual_banks
         Stm32x.register_offset Stm32x.RDP Stm32x.user_options Stm32x.protection].
    rewrite user_options_value.
    change Stm32x.OPT_READOUT with 1. rewrite land_shiftl_1 by lia. rewrite negb_involutive.
    fold old. reflexivity.
Qed.

Lemma not_ok_false (e : error_code) : e <> ERROR_OK -> is_ok e = false.
Proof. destruct e; intros H; try reflexivity. contradiction H. reflexivity. Qed.

(** Whatever [stm32x_read_options] made of the bank, a target that lets
    the writes through erases the option bytes. *)
Lemma erase_options_through (t : target) (b : Stm32x.bank) tr :
  lets_writes_through t ->
  Stm32x.register_offset (driver_priv b) = Stm32x.FLASH_OFFSET_B0 ->
  forall e ob tr1,
    Stm32x.stm32x_read_options t b tr = mk_outcome e (set_option_bytes ob b) tr1 ->
    Stm32x.stm32x_erase_options t b tr =
    mk_outcome ERROR_OK (set_option_bytes (Stm32x.with_RDP 0x5AA5 ob) b)
      (run_calls t tr1 (skipn 2 erase_options_calls)).
Proof.
  intros Hw Hoff e ob tr1 Hread. unfold Stm32x.stm32x_erase_options.
  unfold bind at 1. rewrite Hread. cbn [result bank_after trace].
  rewrite !(through_write_u32 t Hw).
  rewrite (through_wait t Hw) by exact Hoff.
  unfold erase_options_calls, run_calls. cbn [skipn fold_left]. u32_consts.
  reflexivity.
Qed.

Lemma set_option_bytes_same (b : Stm32x.bank) :
  set_option_bytes (Stm32x.option_bytes (driver_priv b)) b = b.
Proof. destruct b as [? ? ? ? []]. reflexivity. Qed.

(** X18. [stm32x_erase_options] does not look at what its read of the
    option bytes returned.  On a target that lets every register write
    through and shows an idle flash, it returns [ERROR_OK] with [RDP] at
    0x5AA5 even when the option byte register, or the protection register,
    could not be read; the option bytes a failed read did not reach stay
    in the bank as they were, to be programmed next. *)
Theorem erase_options_ignores_failed_read
  (t : target) (b : Stm32x.bank) (tr : list event) :
  lets_writes_through t ->
  Stm32x.register_offset (driver_priv b) = Stm32x.FLASH_OFFSET_B0 ->
  let r1 := respond t tr (ReadU32 Stm32x.STM32_FLASH_OBR) in
  let r2 := respond t (after t tr (ReadU32 Stm32x.STM32_FLASH_OBR))
              (ReadU32 Stm32x.STM32_FLASH_WRPR) in
  let old := Stm32x.option_bytes (driver_priv b) in
  let o := Stm32x.stm32x_erase_options t b tr in
  let ob := Stm32x.option_bytes (driver_priv (bank_after o)) in
  (rc r1 <> ERROR_OK ->
   result o = ERROR_OK /\ Stm32x.RDP ob = 0x5AA5 /\
   Stm32x.user_options ob = Stm32x.user_options old /\
   Stm32x.protection ob = Stm32x.protection old /\
   trace o = run_calls t tr (ReadU32 Stm32x.STM32_FLASH_OBR :: skipn 2 erase_options_calls)) /\
  (rc r1 = ERROR_OK -> rc r2 <> ERROR_OK ->
   result o = ERROR_OK /\ Stm32x.RDP ob = 0x5AA5 /\
   Stm32x.user_options ob = 0xFFF8 + Z.land (Z.shiftr (u32 (out r1)) 2) 7 /\
   Stm32x.protection ob = Stm32x.protection old /\
   trace o = run_calls t tr erase_options_calls).
Proof.
  intros Hw Hoff r1 r2 old o ob.
  destruct (read_options_failed t b tr) as [H1 H2]. cbv zeta in H1, H2.
  fold r1 in H1, H2. fold r2 in H2. fold old in H2.
  split.
  - intros Hr1. specialize (H1 (not_ok_false _ Hr1)).
    rewrite <- (set_option_bytes_same b) in H1 at 2.
    pose proof (erase_options_through t b tr Hw Hoff _ _ _ H1) as He.
    subst ob o. rewrite He. cbn [result bank_after trace].
    repeat split.
  - intros Hr1 Hr2.
    assert (E1 : is_ok (rc r1) = true) by (rewrite Hr1; reflexivity).
    specialize (H2 E1 (not_ok_false _ Hr2)).
    pose proof (erase_options_through t b tr Hw Hoff _ _ _ H2) as He.
    subst ob o. rewrite He. cbn [result bank_after trace].
    repeat split.
Qed.

(** A chip whose option byte register cannot be read. *)
Lemma erase_options_ignores_failed_read_witness :
  let t := fixed_target TARGET_HALTED
             (fun c => match c with
                       | ReadU32 a => if a =? Stm32x.STM32_FLASH_OBR then failed else ok 0
                       | _ => ok 0
                       end) in
  let o := Stm32x.stm32x_erase_options t medium_density_bank [] in
  let ob := Stm32x.option_bytes (driver_priv (bank_after o)) in
  result o = ERROR_OK /\ Stm32x.RDP ob = 0x5AA5 /\
  Stm32x.user_options ob =
    Stm32x.user_options (Stm32x.option_bytes (driver_priv medium_density_bank)) /\
  Stm32x.protection ob =
    Stm32x.protection (Stm32x.option_bytes (driver_priv medium_density_bank)) /\
  calls (trace o) = ReadU32 Stm32x.STM32_FLASH_OBR :: skipn 2 erase_options_calls.
Proof.
  intros t.
  assert (Hw : lets_writes_through t).
  { split; [intros; reflexivity|]. intros h. vm_compute. repeat split; reflexivity. }
  destruct (erase_options_ignores_failed_read t medium_density_bank [] Hw eq_refl)
    as [H1 _].
  destruct H1 as (Hr & Hrdp & Hu & Hp & Htr); [discriminate|].
  cbv zeta. split; [exact Hr|]. split; [exact Hrdp|]. split; [exact Hu|].
  split; [exact Hp|]. rewrite Htr. reflexivity.
Defined.

(** ** The protection flag of the NUC *)

Lemma all_updated_at (f : flash_sector -> flash_sector) (n : Z) (l : list flash_sector) (j : Z) :
  0 <= j < n -> j < Z.of_nat (length l) ->
  sector_at (for_range 0 n (fun i l => update_sector i f l) l) j = f (sector_at l j).
Proof.
  intros Hj Hlen. unfold for_range.
  rewrite (for_count_ext _ (fun i l => update_sector (0 + i) f l)) by reflexivity.
  rewrite (for_count_update_at 0 (fun _ => f)) by lia.
  destruct (Z.leb_spec (0 + 0) j); [|lia].
  destruct (Z.ltb_spec j (0 + 0 + Z.of_nat (Z.to_nat (n - 0)))); [|lia].
  reflexivity.
Qed.

Lemma not_halted (s : target_state) : s <> TARGET_HALTED -> is_halted s = false.
Proof. destruct s; intros H; try reflexivity. contradiction H. reflexivity. Qed.

(** X19. The NUC has one protection flag for the whole chip.  On a target
    that is not halted [nucX1_protect_check] returns
    [ERROR_TARGET_NOT_HALTED] without a call; halted, it reads the
    protection register once, returns the error of a failed read with the
    bank untouched, and otherwise marks every sector alike: protected when
    the register reads 0, unprotected for any other value. *)
Theorem nucX1_protect_check_one_flag
  (t : target) (b : NucX1.bank) (tr : list event) :
  let o := NucX1.nucX1_protect_check t b tr in
  let r := respond t tr (ReadU32 NucX1.NUCX1_SYS_WRPROT) in
  (state t <> TARGET_HALTED ->
   result o = ERROR_TARGET_NOT_HALTED /\ bank_after o = b /\ trace o = tr) /\
  (state t = TARGET_HALTED ->
   trace o = after t tr (ReadU32 NucX1.NUCX1_SYS_WRPROT) /\
   result o = rc r /\
   (rc r <> ERROR_OK -> bank_after o = b) /\
   (rc r = ERROR_OK ->
    forall j, 0 <= j < num_sectors b -> j < Z.of_nat (length (sectors b)) ->
      sector_at (sectors (bank_after o)) j =
      with_is_protected (if u32 (out r) =? 0 then 1 else 0) (sector_at (sectors b) j))).
Proof.
  intros o r. subst o. unfold NucX1.nucX1_protect_check. split.
  - intros Hs. mstep. rewrite (not_halted _ Hs). cbn [negb]. mstep. repeat split.
  - intros Hs. mstep. rewrite Hs. cbn [is_halted negb]. mstep.
    change (u32 NucX1.NUCX1_SYS_WRPROT) with NucX1.NUCX1_SYS_WRPROT. fold r.
    destruct (is_ok (rc r)) eqn:E; cbn [negb]; mstep.
    + apply is_ok_eq in E. split; [reflexivity|]. split; [symmetry; exact E|].
      split; [intros Hne; contradiction|].
      intros _ j Hj Hlen. cbn [sectors set_sectors]. apply all_updated_at; assumption.
    + split; [reflexivity|]. split; [reflexivity|].
      split; [reflexivity|]. intros He. rewrite He in E. discriminate.
Qed.

(** ** Configuring a bank *)

(** X20. The flash bank command of either driver makes no call on the
    target.  With fewer than six arguments it fails with
    [ERROR_FLASH_BANK_INVALID] and leaves the bank alone.  Otherwise the
    bank gets a new driver record marked as not probed, so that the first
    [auto_probe] on it is a probe, whatever was in the record; the stm32x
    handler also selects the registers of the first bank, and leaves the
    option bytes and the protection page size of the record as the
    allocator handed them out. *)
Theorem flash_bank_command_configures
  (argv : list String.string) (t : target) (tr : list event) :
  (forall (fresh : Stm32x.stm32x_flash_bank) (b : Stm32x.bank),
     let o := Stm32x.stm32x_flash_bank_command argv fresh t b tr in
     let p := driver_priv (bank_after o) in
     trace o = tr /\
     (CMD_ARGC argv < 6 -> result o = ERROR_FLASH_BANK_INVALID /\ bank_after o = b) /\
     (6 <= CMD_ARGC argv ->
      result o = ERROR_OK /\
      Stm32x.register_offset p = Stm32x.FLASH_OFFSET_B0 /\
      Stm32x.has_dual_banks p = false /\
      Stm32x.write_algorithm p = None /\
      Stm32x.option_bytes p = Stm32x.option_bytes fresh /\
      Stm32x.ppage_size p = Stm32x.ppage_size fresh /\
      sectors (bank_after o) = sectors b /\
      forall t' tr',
        Stm32x.stm32x_auto_probe t' (bank_after o) tr' =
        Stm32x.stm32x_probe t' (bank_after o) tr')) /\
  (forall (fresh : NucX1.nucX1_flash_bank) (b : NucX1.bank),
     let o := NucX1.nucX1_flash_bank_command argv fresh t b tr in
     trace o = tr /\
     (CMD_ARGC argv < 6 -> result o = ERROR_FLASH_BANK_INVALID /\ bank_after o = b) /\
     (6 <= CMD_ARGC argv ->
      result o = ERROR_OK /\
      sectors (bank_after o) = sectors b /\
      forall t' tr',
        NucX1.nucX1_auto_probe t' (bank_after o) tr' =
        NucX1.nucX1_probe t' (bank_after o) tr')).
Proof.
  split; intros fresh b o; subst o;
    [ unfold Stm32x.stm32x_flash_bank_command, Stm32x.stm32x_auto_probe, Stm32x.modify_priv
    | unfold NucX1.nucX1_flash_bank_command, NucX1.nucX1_auto_probe, NucX1.modify_priv ];
    destruct (Z.ltb_spec (CMD_ARGC argv) 6) as [Hlt|Hge]; mstep.
  - split; [reflexivity|]. split; [intros _; split; reflexivity | intros; lia].
  - split; [reflexivity|]. split; [intros; lia|]. intros _.
    repeat (split; [reflexivity|]). intros t' tr'. reflexivity.
  - split; [reflexivity|]. split; [intros _; split; reflexivity | intros; lia].
  - split; [reflexivity|]. split; [intros; lia|]. intros _.
    repeat (split; [reflexivity|]). intros t' tr'. reflexivity.
Qed.

(** ** Writing without a working area *)

Lemma u16_load_u16 (buffer : list Z) (i : Z) :
  u16 (Stm32x.load_u16 buffer i) =
  Stm32x.byte_at buffer i + 256 * Stm32x.byte_at buffer (i + 1).
Proof.
  unfold Stm32x.load_u16, u16.
  pose proof (byte_at_range buffer i). pose proof (byte_at_range buffer (i + 1)).
  apply Z.mod_small. lia.
Qed.

(** On a healthy target the slow loop programs halfword [k] of what is
    left of the buffer at [address + 2 * k]. *)
Lemma write_words_data (t : target) :
  healthy_target t ->
  forall n buffer address bytes_written (b : Stm32x.bank) tr,
    exists tr',
      Stm32x.write_words n buffer (u32 address) (u32 bytes_written) t b tr =
        mk_outcome (inr (u32 (address + 2 * Z.of_nat n),
                         u32 (bytes_written + 2 * Z.of_nat n))) b tr' /\
      programmed tr' =
        programmed tr ++
        map (fun k =>
               WriteU16 (u32 (address + 2 * Z.of_nat k))
                 (u16 (Stm32x.load_u16 buffer (u32 (bytes_written + 2 * Z.of_nat k)))))
            (seq 0 n).
Proof.
  intros Hh. pose proof Hh as (Hok & Hidle & Hrun).
  induction n as [|n IH]; intros buffer address bytes_written b tr.
  - cbn [Stm32x.write_words]. exists tr. cbn [seq map]. rewrite app_nil_r.
    unfold ret. rewrite !Z.add_0_r. split; reflexivity.
  - cbn [Stm32x.write_words]. mstep.
    rewrite (Hok _ (WriteU32 _ _) eq_refl). cbn [is_ok negb]. mstep.
    rewrite (Hok _ (WriteU16 _ _) eq_refl). cbn [is_ok negb]. mstep.
    rewrite healthy_idle by exact Hh. cbn [result bank_after trace is_ok negb].
    rewrite !u32_add_idem.
    match goal with
    | |- context [Stm32x.write_words n ?bf (u32 ?a) (u32 ?w) t ?b0 ?tr0] =>
        destruct (IH bf a w b0 tr0) as (tr' & He & Hp)
    end.
    rewrite He. exists tr'. split.
    + replace (address + 2 * Z.of_nat (S n)) with (address + 2 + 2 * Z.of_nat n) by lia.
      replace (bytes_written + 2 * Z.of_nat (S n))
        with (bytes_written + 2 + 2 * Z.of_nat n) by lia.
      reflexivity.
    + rewrite Hp, !programmed_after. cbn [is_program status_read].
      rewrite !app_nil_r, <- app_assoc. f_equal.
      cbn [seq map app]. rewrite u32_idem, !Z.add_0_r. f_equal.
      rewrite <- seq_shift, map_map. apply map_ext. intros k.
      replace (address + 2 + 2 * Z.of_nat k) with (address + 2 * Z.of_nat (S k)) by lia.
      replace (bytes_written + 2 + 2 * Z.of_nat k)
        with (bytes_written + 2 * Z.of_nat (S k)) by lia.
      reflexivity.
Qed.

Lemma halfword_writes_from_start (buffer : list Z) (address : Z) (n : nat) :
  2 * Z.of_nat n < 2 ^ 32 ->
  map (fun k =>
         WriteU16 (u32 (address + 2 * Z.of_nat k))
           (u16 (Stm32x.load_u16 buffer (u32 (0 + 2 * Z.of_nat k)))))
      (seq 0 n) =
  halfword_writes buffer address n.
Proof.
  intros Hn. unfold halfword_writes. apply map_ext_in. intros k Hk.
  apply in_seq in Hk. rewrite (u32_small (0 + 2 * Z.of_nat k)) by lia.
  rewrite u16_load_u16.
  reflexivity.
Qed.

(** The second half of the write on a healthy target: the [words]
    halfwords of the buffer, then the last byte if there is one, with 0xFF
    above it, then the lock. *)
Lemma write_single_data (t : target) (b : Stm32x.bank) (buffer : list Z)
  (address words bytes_remaining : Z) tr :
  healthy_target t -> 0 <= words -> 2 * words < 2 ^ 32 ->
  exists tr',
    Stm32x.write_single buffer (u32 address) words bytes_remaining t b tr =
      mk_outcome (Some ERROR_OK) b tr' /\
    programmed tr' =
      programmed tr ++ halfword_writes buffer address (Z.to_nat words) ++
      (if bytes_remaining =? 0 then []
       else [WriteU16 (u32 (address + 2 * words))
               (Stm32x.byte_at buffer (2 * words) + 0xFF00)]).
Proof.
  intros Hh Hwords Hsmall. pose proof Hh as (Hok & Hidle & Hrun).
  pose proof (healthy_writes t Hh) as Hw.
  unfold Stm32x.write_single. unfold bind at 1.
  destruct (write_words_data t Hh (Z.to_nat words) buffer address 0 b tr)
    as (tr1 & He & Hp).
  change (u32 0) with 0 in He. rewrite He. cbn [result bank_after trace].
  rewrite halfword_writes_from_start in Hp by lia.
  rewrite Z2Nat.id in * by exact Hwords.
  rewrite bind_get_bank. cbv beta.
  destruct (bytes_remaining =? 0); cbn [negb].
  - unfold guard_ok_opt at 1. unfold bind at 1. unfold ret at 1.
    cbn [result bank_after trace is_ok]. mstep.
    rewrite (Hok _ (WriteU32 _ _) eq_refl).
    eexists. split; [reflexivity|].
    rewrite !programmed_after. cbn [is_program]. rewrite !app_nil_r, Hp. reflexivity.
  - unfold guard_ok_opt at 1. unfold bind at 1.
    rewrite guard_write_ok by exact Hw.
    mstep.
    rewrite (Hok _ (WriteU16 _ _) eq_refl). cbn [is_ok]. mstep.
    rewrite healthy_idle by exact Hh.
    cbn [result bank_after trace is_ok]. mstep.
    rewrite (Hok _ (WriteU32 _ _) eq_refl).
    eexists. split; [reflexivity|].
    rewrite !programmed_after. cbn [is_program status_read].
    rewrite !app_nil_r, Hp, u32_idem, u16_last_byte, <- app_assoc.
    change (0 + 2 * words) with (2 * words).
    rewrite (u32_small (2 * words)) by lia. reflexivity.
Qed.

Lemma write_block_no_routine_area
  (t : target) (b : Stm32x.bank) (buffer : list Z) (offset count : Z) tr :
  is_ok (rc (respond t tr (AllocWorkingArea routine_size))) = false ->
  Stm32x.stm32x_write_block buffer offset count t b tr =
  mk_outcome (Some ERROR_TARGET_RESOURCE_NOT_AVAILABLE) b
    (after t tr (AllocWorkingArea routine_size)).
Proof.
  intros Ha. wb_start. rewrite Ha. wb_fields. mstep. reflexivity.
Qed.

(** The whole write when the routine area is refused. *)
Lemma stm32x_write_slow_run
  (t : target) (b : Stm32x.bank) (buffer : list Z) (offset count : Z) (tr : list event) :
  healthy_target t -> always_fails t is_alloc_routine ->
  state t = TARGET_HALTED ->
  offset mod 2 = 0 -> 0 <= count < 2 ^ 32 ->
  exists tr',
    Stm32x.stm32x_write buffer offset count t b tr = mk_outcome (Some ERROR_OK) b tr' /\
    programmed tr' =
      programmed tr ++
      halfword_writes buffer (bank_base b + offset) (Z.to_nat (count / 2)) ++
      (if count mod 2 =? 0 then []
       else [WriteU16 (u32 (bank_base b + offset + (count - 1)))
               (Stm32x.byte_at buffer (count - 1) + 0xFF00)]).
Proof.
  intros Hh Hf Hs Ho Hc. pose proof Hh as (Hok & Hidle & Hrun).
  pose proof (healthy_writes t Hh) as Hw.
  pose proof (Z.div_mod count 2 ltac:(lia)) as Hdiv.
  pose proof (Z.mod_pos_bound count 2 ltac:(lia)) as Hmod.
  assert (Hw2 : 0 <= count / 2) by (apply Z.div_pos; lia).
  assert (Hlast : (count mod 2 =? 0) = false -> 2 * (count / 2) = count - 1).
  { intros E. apply Z.eqb_neq in E. lia. }
  unfold Stm32x.stm32x_write. rewrite bind_get_bank. cbv beta.
  rewrite !land_1_mod, Ho.
  unfold bind at 1, get_target_state. cbn [result bank_after trace].
  rewrite Hs. cbn [is_halted negb Z.eqb].
  rewrite !guard_opt_write_ok by exact Hw.
  match goal with
  | |- context [after t (after t tr ?k1) ?k2] => set (tr0 := after t (after t tr k1) k2)
  end.
  assert (Hp0 : programmed tr0 = programmed tr).
  { subst tr0. rewrite !programmed_after. cbn [is_program]. rewrite !app_nil_r. reflexivity. }
  destruct (Z.gtb_spec (count / 2) 0) as [Hpos|Hzero].
  - unfold bind at 1.
    rewrite write_block_no_routine_area by (apply Hf; reflexivity).
    cbn [result bank_after trace is_ok negb is_resource_not_available].
    destruct (write_single_data t b buffer (bank_base b + offset) (count / 2)
                (count mod 2) (after t tr0 (AllocWorkingArea routine_size))
                Hh Hw2 ltac:(lia)) as (tr2 & He2 & Hp2).
    rewrite He2. exists tr2. split; [reflexivity|].
    rewrite Hp2, programmed_after, Hp0. cbn [is_program]. rewrite app_nil_r.
    destruct (count mod 2 =? 0) eqn:E; [reflexivity|].
    rewrite Hlast by (first [reflexivity | exact E]). reflexivity.
  - destruct (write_single_data t b buffer (bank_base b + offset) (count / 2)
                (count mod 2) tr0 Hh Hw2 ltac:(lia)) as (tr2 & He2 & Hp2).
    rewrite He2. exists tr2. split; [reflexivity|].
    rewrite Hp2, Hp0.
    destruct (count mod 2 =? 0) eqn:E; [reflexivity|].
    rewrite Hlast by (first [reflexivity | exact E]). reflexivity.
Qed.

(** X21. Without a working area for the flash routine, [stm32x_write]
    falls back to single halfword writes and programs the buffer as it
    is.  On a halted target on which nothing else fails, a write of [count]
    bytes at an even offset returns [ERROR_OK] with the bank untouched; it
    programs halfword [k] of the buffer (byte [2 * k] below byte
    [2 * k + 1]) at address [base + offset + 2 * k], in order, for every
    [k < count / 2], and after these, for an odd [count], the last byte
    with 0xFF above it. *)
Theorem stm32x_write_without_working_area
  (t : target) (b : Stm32x.bank) (buffer : list Z) (offset count : Z) (tr : list event) :
  healthy_target t -> always_fails t is_alloc_routine ->
  state t = TARGET_HALTED ->
  offset mod 2 = 0 -> 0 <= count < 2 ^ 32 ->
  let o := Stm32x.stm32x_write buffer offset count t b tr in
  result o = Some ERROR_OK /\
  bank_after o = b /\
  programmed (trace o) =
    programmed tr ++
    halfword_writes buffer (bank_base b + offset) (Z.to_nat (count / 2)) ++
    (if count mod 2 =? 0 then []
     else [WriteU16 (u32 (bank_base b + offset + (count - 1)))
             (Stm32x.byte_at buffer (count - 1) + 0xFF00)]).
Proof.
  intros Hh Hf Hs Ho Hc o.
  destruct (stm32x_write_slow_run t b buffer offset count tr Hh Hf Hs Ho Hc)
    as (tr' & He & Hp).
  subst o. rewrite He. cbn [result bank_after trace].
  split; [reflexivity|]. split; [reflexivity | exact Hp].
Qed.

(** Five bytes, no working area: two halfwords, little end first, and
    the fifth byte padded. *)
Lemma stm32x_write_without_working_area_witness :
  let o := Stm32x.stm32x_write [0x11; 0x22; 0x33; 0x44; 0x55] 0 5
             (ram_target false false true) stm32x_fresh_bank [] in
  result o = Some ERROR_OK /\
  bank_after o = stm32x_fresh_bank /\
  programmed (trace o) =
    [WriteU16 0x08000000 0x2211; WriteU16 0x08000002 0x4433; WriteU16 0x08000004 0xFF55].
Proof.
  apply (stm32x_write_without_working_area (ram_target false false true)
           stm32x_fresh_bank [0x11; 0x22; 0x33; 0x44; 0x55] 0 5 []).
  - apply ram_target_healthy.
  - intros h c Hc. destruct c; try discriminate. reflexivity.
  - reflexivity.
  - reflexivity.
  - lia.
Defined.
